(** * St Mark's prayer-room booking: slot consistency and credential lifecycle

    A shallow embedding of [functions/index.js]: the Firestore trigger
    handlers [onBookingCreated], [onBookingUpdated], [onBookingDeleted] with
    their helpers, and the booking page's [handleBookingSubmit] and
    [handleJoinClass].

    Modelling decisions.
    - A booking document is a record of optional fields (a field that is
      [None] is absent from the document, i.e. [undefined] when read).
    - The [bookings] collection is a finite map from document id to document;
      the [mail] collection is an append-only list; calls that reach the
      access-control gateway are recorded in a log, in order.
    - An [async] function is a state transformer over that world which either
      fulfils with a value or rejects with the message of the thrown error.
      Each handler runs to completion; interleavings inside a handler are not
      modelled.
    - The exceptions are the ones the code can raise by itself: the explicit
      [throw]s, reading a property of [undefined], [toISOString] on an invalid
      date, a Firestore query on an [undefined] value, a Firestore update of
      a document that does not exist, and the addition of a mail item one of
      whose fields is [undefined] (the client is used with its default
      settings, under which it refuses such an item). Network failures are
      not modelled.
    - [RESOURCE_MAPPING] is a plain object: indexing it with a name that it
      inherits from [Object.prototype] gives that member, which is truthy.
    - [Date.now()], [Math.random()], the server timestamp and the identifier
      Firestore gives a new document are inputs ([ServerEnv], [ClientEnv]).
      The JavaScript built-ins [Number], [Date] and the date formatters are
      parameters ([JsRuntime]); [Utc] instantiates them for the examples.
      Numbers are integers: a date or time one of whose parts [Number] reads
      as a fraction is outside the model. *)

From stdpp Require Import base option list strings pretty gmap fin_maps.
From Stdlib Require Import ZArith Ascii.

Local Open Scope string_scope.
Local Open Scope list_scope.
Local Open Scope Z_scope.

(** ** JavaScript values used by the code *)

(** [a || b] on optional strings: [undefined] and the empty string are falsy. *)
Definition js_or (a b : option string) : option string :=
  match a with
  | Some s => if decide (s = "") then b else Some s
  | None => b
  end.

(** [a || 'literal'] where the literal is a non-empty string. *)
Definition js_or_else (a : option string) (b : string) : string :=
  match a with
  | Some s => if decide (s = "") then b else s
  | None => b
  end.

(** [s.split(sep)] for a one-character separator. *)
Fixpoint split_go (sep : ascii) (cur : string) (s : string) : list string :=
  match s with
  | EmptyString => [cur]
  | String c rest =>
      if decide (c = sep) then cur :: split_go sep "" rest
      else split_go sep (cur +:+ String c "") rest
  end.

Definition split (sep : ascii) (s : string) : list string := split_go sep "" s.

(** A [Date] object: its time value in milliseconds, [None] for Invalid Date. *)
Definition JsDate := option Z.

Record JsRuntime := {
  (** [Number(s)], an integer, [None] for NaN *)
  Number_ : string → option Z;
  (** [new Date(year, monthIndex, day, hour, minute)] in the local zone *)
  Date_ : Z → Z → Z → Z → Z → JsDate;
  (** [d.toISOString()] of a valid date *)
  toISOString : Z → string;
  (** [d.toLocaleDateString('en-GB', {weekday, day, month, year})] *)
  toLocaleDateString : Z → string;
  (** [d.toLocaleTimeString('en-GB', {hour, minute})] *)
  toLocaleTimeString : Z → string
}.

(** Messages of the errors raised by the runtime and by Firestore. *)
Definition TypeError_split : string :=
  "Cannot read properties of undefined (reading 'split')".
Definition RangeError_time : string := "Invalid time value".

(** The double quote, for the messages that quote a name. *)
Definition dq : string := String "034" "".

(** The Firestore client on an [undefined] value: in a query, and in the
    field [path] of a document that is added. *)
Definition Firestore_undefined : string :=
  "Value for argument " +:+ dq +:+ "value" +:+ dq
  +:+ " is not a valid query constraint. Cannot use "
  +:+ dq +:+ "undefined" +:+ dq +:+ " as a Firestore value. "
  +:+ "If you want to ignore undefined values, enable `ignoreUndefinedProperties`.".

Definition Firestore_undefined_field (path : string) : string :=
  "Value for argument " +:+ dq +:+ "data" +:+ dq
  +:+ " is not a valid Firestore document. Cannot use "
  +:+ dq +:+ "undefined" +:+ dq +:+ " as a Firestore value (found in field "
  +:+ dq +:+ path +:+ dq +:+ "). "
  +:+ "If you want to ignore undefined values, enable `ignoreUndefinedProperties`.".

(** Stands for the message of the server's NOT_FOUND error, which goes on
    to name the path of the document. *)
Definition Firestore_not_found : string := "No document to update".

(** ** Data model *)

(** The [inlet] sub-record of a booking: the issued credential. *)
Record Inlet := {
  credentialId : string;
  code : string;
  issuedAt : Z
}.

Record Booking := {
  date : option string;
  time : option string;
  status : option string;
  resourceId : option string;
  name : option string;
  email : option string;
  phone : option string;
  isClass : option bool;
  className : option string;
  hostName : option string;
  hostEmail : option string;
  maxParticipants : option Z;
  participants : option (list string);
  participantCount : option Z;
  inlet : option Inlet;
  error : option string;
  accessCode : option string;
  createdAt : option string
}.

(** The document with no field. *)
Definition empty_doc : Booking :=
  {| date := None; time := None; status := None; resourceId := None;
     name := None; email := None; phone := None; isClass := None;
     className := None; hostName := None; hostEmail := None;
     maxParticipants := None; participants := None; participantCount := None;
     inlet := None; error := None; accessCode := None; createdAt := None |}.

(** Field updates, as [ref.update({...})] merges them into a document. *)
Definition set_status_error (st msg : string) (b : Booking) : Booking :=
  {| date := date b; time := time b; status := Some st;
     resourceId := resourceId b; name := name b; email := email b;
     phone := phone b; isClass := isClass b; className := className b;
     hostName := hostName b; hostEmail := hostEmail b;
     maxParticipants := maxParticipants b; participants := participants b;
     participantCount := participantCount b; inlet := inlet b;
     error := Some msg; accessCode := accessCode b; createdAt := createdAt b |}.

Definition set_inlet (i : Inlet) (b : Booking) : Booking :=
  {| date := date b; time := time b; status := status b;
     resourceId := resourceId b; name := name b; email := email b;
     phone := phone b; isClass := isClass b; className := className b;
     hostName := hostName b; hostEmail := hostEmail b;
     maxParticipants := maxParticipants b; participants := participants b;
     participantCount := participantCount b; inlet := Some i;
     error := error b; accessCode := accessCode b; createdAt := createdAt b |}.

Definition set_status (st : string) (b : Booking) : Booking :=
  {| date := date b; time := time b; status := Some st;
     resourceId := resourceId b; name := name b; email := email b;
     phone := phone b; isClass := isClass b; className := className b;
     hostName := hostName b; hostEmail := hostEmail b;
     maxParticipants := maxParticipants b; participants := participants b;
     participantCount := participantCount b; inlet := inlet b;
     error := error b; accessCode := accessCode b; createdAt := createdAt b |}.

Definition set_confirmed (i : Inlet) (b : Booking) : Booking :=
  set_inlet i (set_status "confirmed" b).

Definition set_participants (ps : list string) (n : Z) (b : Booking) : Booking :=
  {| date := date b; time := time b; status := status b;
     resourceId := resourceId b; name := name b; email := email b;
     phone := phone b; isClass := isClass b; className := className b;
     hostName := hostName b; hostEmail := hostEmail b;
     maxParticipants := maxParticipants b; participants := Some ps;
     participantCount := Some n; inlet := inlet b;
     error := error b; accessCode := accessCode b; createdAt := createdAt b |}.

(** An item of the [mail] collection. *)
Inductive Template :=
  | booking_confirmation
      (userName : option string) (bookingDate bookingTime : string)
      (code : string) (bookingType : string)
  | booking_cancellation
      (userName bookingDate bookingTime : option string)
  | booking_update
      (userName : option string) (bookingDate bookingTime : string)
      (code : string).

Record Mail := { to : option string; template : Template }.

(** The argument of [createInletCredential]. *)
Record CredentialRequest := {
  req_resourceId : string;
  req_startTime : string;
  req_endTime : string;
  req_userName : option string;
  req_userEmail : option string
}.

(** What indexing [RESOURCE_MAPPING] gives, when it is not [undefined]: the
    lock id stored under a key of the object itself, or the member of
    [Object.prototype] (a function, or the prototype for [__proto__]) that
    the object inherits under that name. *)
Inductive LockId :=
  | own_lock (lockId : string)
  | inherited (key : string).

(** [!lockId] is false. *)
Definition truthy (lockId : LockId) : bool :=
  match lockId with
  | own_lock s => negb (bool_decide (s = ""))
  | inherited _ => true
  end.

(** What [createInletCredential] returns. *)
Record Credential := {
  cred_id : string;
  cred_accessCode : string;
  cred_lockId : LockId;
  cred_startTime : string;
  cred_endTime : string
}.

(** Calls that reach the gateway (the placeholders' "Would create" and
    "Would revoke" points). *)
Inductive GatewayCall :=
  | CreateCredential (lockId : LockId) (req : CredentialRequest)
  | RevokeCredential (cid : string).

Record World := {
  bookings : gmap string Booking;
  mail : list Mail;
  gateway : list GatewayCall
}.

Record ServerEnv := {
  Date_now : Z;          (* Date.now() *)
  random9000 : Z;        (* Math.floor(Math.random() * 9000), in [0, 9000) *)
  serverTimestamp : Z    (* FieldValue.serverTimestamp(), as resolved *)
}.

(** ** Asynchronous functions: state and exceptions *)

Inductive Completion (A : Type) :=
  | Fulfilled (a : A)
  | Rejected (msg : string).
Arguments Fulfilled {A} a.
Arguments Rejected {A} msg.

Definition Async (A : Type) : Type := World → World * Completion A.

Definition async_ret {A} (a : A) : Async A := λ w, (w, Fulfilled a).

Definition async_bind {A B} (c : Async A) (k : A → Async B) : Async B :=
  λ w, match c w with
       | (w', Fulfilled a) => k a w'
       | (w', Rejected msg) => (w', Rejected msg)
       end.

Definition throw {A} (msg : string) : Async A := λ w, (w, Rejected msg).

(** [try { body } catch (error) { handler(error.message) }] *)
Definition try_catch {A} (body : Async A) (handler : string → Async A) : Async A :=
  λ w, match body w with
       | (w', Fulfilled a) => (w', Fulfilled a)
       | (w', Rejected msg) => handler msg w'
       end.

#[global] Instance Async_ret : MRet Async := @async_ret.
#[global] Instance Async_bind : MBind Async := λ A B k c, async_bind c k.

(** ** Firestore operations *)

Definition with_bookings (m : gmap string Booking) (w : World) : World :=
  {| bookings := m; mail := mail w; gateway := gateway w |}.

(** [db.collection('bookings').doc(id).update(fields)]: merges the fields
    into the document, and fails when there is no such document. *)
Definition doc_update (id : string) (fields : Booking → Booking) : Async unit :=
  λ w, match bookings w !! id with
       | Some b => (with_bookings (<[id := fields b]> (bookings w)) w, Fulfilled ())
       | None => (w, Rejected Firestore_not_found)
       end.

(** The first field of a mail item that is [undefined], in the order in
    which the Firestore client walks the item ([to], then the fields of
    [template.data]); [None] when every field has a value. *)
Definition undefined_field (item : Mail) : option string :=
  match to item with
  | None => Some "to"
  | Some _ =>
      match template item with
      | booking_confirmation userName _ _ _ _ | booking_update userName _ _ _ =>
          match userName with
          | None => Some "template.data.userName"
          | Some _ => None
          end
      | booking_cancellation userName bookingDate bookingTime =>
          match userName, bookingDate, bookingTime with
          | None, _, _ => Some "template.data.userName"
          | Some _, None, _ => Some "template.data.bookingDate"
          | Some _, Some _, None => Some "template.data.bookingTime"
          | Some _, Some _, Some _ => None
          end
      end
  end.

(** [db.collection('mail').add(item)]: the client refuses an item that has
    an [undefined] field, and nothing is added. *)
Definition mail_add (item : Mail) : Async unit :=
  λ w, match undefined_field item with
       | Some path => (w, Rejected (Firestore_undefined_field path))
       | None =>
           ({| bookings := bookings w; mail := mail w ++ [item];
               gateway := gateway w |}, Fulfilled ())
       end.

Definition gateway_call (c : GatewayCall) : Async unit :=
  λ w, ({| bookings := bookings w; mail := mail w;
           gateway := gateway w ++ [c] |}, Fulfilled ()).

(** The filter of the query in [validateSlotFree]:
    [date == d], [time == t], [status in ['confirmed', 'pending']]. *)
Definition slot_query (d t : string) (doc : string * Booking) : bool :=
  bool_decide (date doc.2 = Some d) && bool_decide (time doc.2 = Some t)
  && (bool_decide (status doc.2 = Some "confirmed")
      || bool_decide (status doc.2 = Some "pending")).

Definition query_docs (d t : string) (w : World) : list (string * Booking) :=
  List.filter (slot_query d t) (map_to_list (bookings w)).

(** ** The Cloud Functions *)

(** [RESOURCE_MAPPING]: Firestore resourceId to INLET lock id; the keys of
    the object itself. *)
Definition RESOURCE_MAPPING : gmap string string :=
  {[ "prayer_room" := "YOUR_INLET_LOCK_ID" ]}.

(** The names that a plain object inherits from [Object.prototype]. *)
Definition Object_prototype : list string :=
  ["constructor"; "__defineGetter__"; "__defineSetter__"; "hasOwnProperty";
   "__lookupGetter__"; "__lookupSetter__"; "isPrototypeOf";
   "propertyIsEnumerable"; "toString"; "valueOf"; "__proto__";
   "toLocaleString"].

(** [RESOURCE_MAPPING[resourceId]], [None] for [undefined]. *)
Definition RESOURCE_MAPPING_at (resourceId : string) : option LockId :=
  match RESOURCE_MAPPING !! resourceId with
  | Some lockId => Some (own_lock lockId)
  | None =>
      if decide (resourceId ∈ Object_prototype) then Some (inherited resourceId)
      else None
  end.

(** [new Date(ms)]: a time value outside the range of [Date] is invalid. *)
Definition new_Date (ms : Z) : JsDate :=
  if decide (Z.abs ms ≤ 8640000000000000) then Some ms else None.

Section CloudFunctions.
Context (rt : JsRuntime).

(** [createInletCredential({resourceId, startTime, endTime, userName, userEmail})] *)
Definition createInletCredential (env : ServerEnv) (req : CredentialRequest)
  : Async Credential :=
  match RESOURCE_MAPPING_at (req_resourceId req) with
  | Some lockId =>
      if truthy lockId then
        gateway_call (CreateCredential lockId req);;
        mret {| cred_id := "inlet_cred_" +:+ pretty (Date_now env);
                cred_accessCode := pretty (1000 + random9000 env);
                cred_lockId := lockId;
                cred_startTime := req_startTime req;
                cred_endTime := req_endTime req |}
      else
        throw ("No INLET lock mapping for resource: " +:+ req_resourceId req)
  | None =>
      throw ("No INLET lock mapping for resource: " +:+ req_resourceId req)
  end.

(** [revokeInletCredential(credentialId)] *)
Definition revokeInletCredential (cid : string) : Async unit :=
  gateway_call (RevokeCredential cid).

(** [validateSlotFree(date, time, excludeBookingId)] *)
Fixpoint slot_loop (docs : list (string * Booking)) (excludeBookingId : string)
  : bool :=
  match docs with
  | [] => true
  | doc :: rest =>
      if decide (doc.1 ≠ excludeBookingId) then false
      else slot_loop rest excludeBookingId
  end.

Definition validateSlotFree (d t : option string) (excludeBookingId : string)
  : Async bool :=
  match d, t with
  | Some d, Some t =>
      λ w, (w, Fulfilled (slot_loop (query_docs d t w) excludeBookingId))
  | _, _ => throw Firestore_undefined
  end.

(** [parseBookingDateTime(dateStr, timeStr)] on two strings. *)
Definition parseBookingDateTime (dateStr timeStr : string) : JsDate :=
  let ymd := split "-" dateStr in
  let hm := split ":" timeStr in
  year ← ymd !! 0%nat ≫= Number_ rt;
  month ← ymd !! 1%nat ≫= Number_ rt;
  day ← ymd !! 2%nat ≫= Number_ rt;
  hour ← hm !! 0%nat ≫= Number_ rt;
  minute ← hm !! 1%nat ≫= Number_ rt;
  Date_ rt year (month - 1) day hour minute.

(** The call [parseBookingDateTime(b.date, b.time)] on fields that may be
    absent: [undefined.split] throws. *)
Definition call_parseBookingDateTime (d t : option string) : Async JsDate :=
  match d, t with
  | Some d, Some t => mret (parseBookingDateTime d t)
  | _, _ => throw TypeError_split
  end.

(** [d.toISOString()] *)
Definition date_toISOString (d : JsDate) : Async string :=
  match d with
  | Some ms => mret (toISOString rt ms)
  | None => throw RangeError_time
  end.

(** [new Date(startTime.getTime() + 60 * 60 * 1000)] *)
Definition one_hour_later (startTime : JsDate) : JsDate :=
  ms ← startTime; new_Date (ms + 60 * 60 * 1000).

Definition date_toLocaleDateString (d : JsDate) : string :=
  from_option (toLocaleDateString rt) "Invalid Date" d.

Definition date_toLocaleTimeString (d : JsDate) : string :=
  from_option (toLocaleTimeString rt) "Invalid Date" d.

(** The items that the three functions below add to the [mail] collection. *)
Definition confirmation_mail (booking : Booking) (bookingDate bookingTime : string)
    (accessCode : string) : Mail :=
  {| to := js_or (email booking) (hostEmail booking);
     template :=
       booking_confirmation
         (js_or (name booking) (hostName booking))
         bookingDate bookingTime accessCode
         (if decide (isClass booking = Some true)
          then "Class: " +:+ default "undefined" (className booking)
          else "Individual Booking") |}.

Definition cancellation_mail (booking : Booking) : Mail :=
  {| to := js_or (email booking) (hostEmail booking);
     template :=
       booking_cancellation
         (js_or (name booking) (hostName booking))
         (date booking) (time booking) |}.

Definition update_mail (booking : Booking) (bookingDate bookingTime : string)
    (accessCode : string) : Mail :=
  {| to := js_or (email booking) (hostEmail booking);
     template :=
       booking_update
         (js_or (name booking) (hostName booking))
         bookingDate bookingTime accessCode |}.

(** [queueConfirmationEmail(booking, credential)] *)
Definition queueConfirmationEmail (booking : Booking) (credential : Credential)
  : Async unit :=
  bookingDate ← call_parseBookingDateTime (date booking) (time booking);
  mail_add
    (confirmation_mail booking
       (date_toLocaleDateString bookingDate)
       (date_toLocaleTimeString bookingDate)
       (cred_accessCode credential)).

(** [queueCancellationEmail(booking)] *)
Definition queueCancellationEmail (booking : Booking) : Async unit :=
  mail_add (cancellation_mail booking).

(** [queueUpdateEmail(booking, credential)] *)
Definition queueUpdateEmail (booking : Booking) (credential : Credential)
  : Async unit :=
  bookingDate ← call_parseBookingDateTime (date booking) (time booking);
  mail_add
    (update_mail booking
       (date_toLocaleDateString bookingDate)
       (date_toLocaleTimeString bookingDate)
       (cred_accessCode credential)).

(** What a handler returns. *)
Inductive HandlerResult :=
  | Null                                  (* null *)
  | Success                               (* { success: true } *)
  | SuccessWith (credentialId : string)   (* { success: true, credentialId } *)
  | Failed (error : string).              (* { success: false, error } *)

(** [booking.inlet && booking.inlet.credentialId], when truthy. *)
Definition inlet_credentialId (booking : Booking) : option string :=
  i ← inlet booking;
  if decide (credentialId i = "") then None else Some (credentialId i).

(** The request both handlers build for [createInletCredential]. *)
Definition credential_request (booking : Booking) (startIso endIso : string)
  : CredentialRequest :=
  {| req_resourceId := js_or_else (resourceId booking) "prayer_room";
     req_startTime := startIso;
     req_endTime := endIso;
     req_userName := js_or (name booking) (hostName booking);
     req_userEmail := js_or (email booking) (hostEmail booking) |}.

Definition new_inlet (env : ServerEnv) (credential : Credential) : Inlet :=
  {| credentialId := cred_id credential;
     code := cred_accessCode credential;
     issuedAt := serverTimestamp env |}.

(** The [try] block of [onBookingCreated]. *)
Definition onBookingCreated_try (env : ServerEnv) (booking : Booking)
    (bookingId : string) : Async HandlerResult :=
  isSlotFree ← validateSlotFree (date booking) (time booking) bookingId;
  if negb isSlotFree then
    doc_update bookingId
      (set_status_error "conflict" "Time slot is no longer available");;
    mret Null
  else
    startTime ← call_parseBookingDateTime (date booking) (time booking);
    let endTime := one_hour_later startTime in
    startIso ← date_toISOString startTime;
    endIso ← date_toISOString endTime;
    credential ← createInletCredential env
                   (credential_request booking startIso endIso);
    doc_update bookingId (set_confirmed (new_inlet env credential));;
    queueConfirmationEmail booking credential;;
    mret (SuccessWith (cred_id credential)).

(** [exports.onBookingCreated]: [booking] is [snap.data()]. *)
Definition onBookingCreated (env : ServerEnv) (booking : Booking)
    (bookingId : string) : Async HandlerResult :=
  if decide (status booking ≠ Some "pending") then mret Null
  else
    try_catch (onBookingCreated_try env booking bookingId)
      (λ msg,
         doc_update bookingId (set_status_error "error" msg);;
         mret (Failed msg)).

(** [handleBookingCancellation(bookingId, booking)] *)
Definition handleBookingCancellation (bookingId : string) (booking : Booking)
  : Async HandlerResult :=
  match inlet_credentialId booking with
  | Some cid => revokeInletCredential cid
  | None => mret ()
  end;;
  queueCancellationEmail booking;;
  mret Success.

(** [handleTimeChange(bookingId, before, after)] *)
Definition handleTimeChange (env : ServerEnv) (bookingId : string)
    (before after : Booking) : Async HandlerResult :=
  match inlet_credentialId before with
  | Some cid =>
      revokeInletCredential cid;;
      startTime ← call_parseBookingDateTime (date after) (time after);
      let endTime := one_hour_later startTime in
      startIso ← date_toISOString startTime;
      endIso ← date_toISOString endTime;
      newCredential ← createInletCredential env
                        (credential_request after startIso endIso);
      doc_update bookingId (set_inlet (new_inlet env newCredential));;
      queueUpdateEmail after newCredential
  | None => mret ()
  end;;
  mret Success.

(** [exports.onBookingUpdated] *)
Definition onBookingUpdated (env : ServerEnv) (before after : Booking)
    (bookingId : string) : Async HandlerResult :=
  if decide (status after = Some "cancelled" ∧ status before ≠ Some "cancelled")
  then handleBookingCancellation bookingId before
  else if decide (date before ≠ date after ∨ time before ≠ time after)
  then handleTimeChange env bookingId before after
  else mret Null.

(** [exports.onBookingDeleted] *)
Definition onBookingDeleted (booking : Booking) (bookingId : string)
  : Async HandlerResult :=
  match inlet_credentialId booking with
  | Some cid => revokeInletCredential cid
  | None => mret ()
  end;;
  mret Null.

End CloudFunctions.

(** ** Delivery of store events to the triggers

    A write to the [bookings] collection followed by the run of the handler
    it triggers. The handlers' own writes trigger [onBookingUpdated] again;
    those runs do nothing (lemma [own_writes_do_not_cascade]). *)

Inductive Event :=
  | Created (bookingId : string) (doc : Booking)    (* addDoc *)
  | Updated (bookingId : string) (after : Booking)  (* updateDoc *)
  | Deleted (bookingId : string).                   (* deleteDoc *)

Definition deliver (rt : JsRuntime) (env : ServerEnv) (ev : Event) (w : World)
  : World :=
  match ev with
  | Created bookingId doc =>
      match bookings w !! bookingId with
      | None =>
          (onBookingCreated rt env doc bookingId
             (with_bookings (<[bookingId := doc]> (bookings w)) w)).1
      | Some _ => w
      end
  | Updated bookingId after =>
      match bookings w !! bookingId with
      | Some before =>
          (onBookingUpdated rt env before after bookingId
             (with_bookings (<[bookingId := after]> (bookings w)) w)).1
      | None => w
      end
  | Deleted bookingId =>
      match bookings w !! bookingId with
      | Some before =>
          (onBookingDeleted before bookingId
             (with_bookings (delete bookingId (bookings w)) w)).1
      | None => w
      end
  end.

Definition deliver_all (rt : JsRuntime) (evs : list (ServerEnv * Event))
    (w : World) : World :=
  foldl (λ w ev, deliver rt ev.1 ev.2 w) w evs.

Definition empty_world : World :=
  {| bookings := ∅; mail := []; gateway := [] |}.

(** ** The booking page *)

(** [selectedSlot] (its [day] and [hour] only feed the display). *)
Record Slot := { slot_date : string; slot_time : string }.

(** The values read from the booking form. *)
Record BookingForm := {
  is_class_booking : bool;          (* #is-class-booking .checked *)
  booking_email : string;           (* #booking-email *)
  booking_phone : string;           (* #booking-phone *)
  class_name : string;              (* #class-name *)
  host_name : string;               (* #host-name *)
  max_participants : option Z;      (* parseInt(#max-participants), None for NaN *)
  booking_name : string             (* #booking-name *)
}.

Record ClientEnv := {
  firebaseReady : bool;             (* window.firebaseReady && window.firebaseDB *)
  addDoc_id : option string;        (* id given by addDoc, None when it rejects *)
  client_random9000 : Z;            (* Math.floor(Math.random() * 9000) *)
  now_iso : string;                 (* new Date().toISOString() *)
  generated_id : string             (* generateBookingId() *)
}.

(** An entry of [myBookings]. *)
Record MyBooking := {
  my_id : string;
  my_date : string;
  my_time : string;
  my_name : option string;
  my_isClass : bool
}.

Record Client := {
  selectedSlot : option Slot;
  bookedSlots : list (string * Booking);   (* { id, ...data } *)
  myBookings : list MyBooking
}.

(** [generateAccessCode()] *)
Definition generateAccessCode (cenv : ClientEnv) : string :=
  pretty (1000 + client_random9000 cenv).

(** The snapshot listener of [loadBookings]: the cache is rebuilt from the
    collection. *)
Definition onSnapshot (w : World) (c : Client) : Client :=
  {| selectedSlot := selectedSlot c;
     bookedSlots := map_to_list (bookings w);
     myBookings := myBookings c |}.

(** [parseInt(...) || 8] *)
Definition or_8 (n : option Z) : Z :=
  match n with
  | Some n => if decide (n = 0) then 8 else n
  | None => 8
  end.

(** The two objects [handleBookingSubmit] builds. *)
Definition class_firestoreBooking (slot : Slot) (form : BookingForm) : Booking :=
  {| date := Some (slot_date slot); time := Some (slot_time slot);
     status := None; resourceId := None; name := None; email := None;
     phone := None; isClass := Some true;
     className := Some (class_name form); hostName := Some (host_name form);
     hostEmail := Some (booking_email form);
     maxParticipants := Some (or_8 (max_participants form));
     participants := Some [host_name form]; participantCount := Some 1;
     inlet := None; error := None; accessCode := None; createdAt := None |}.

Definition regular_firestoreBooking (slot : Slot) (form : BookingForm) : Booking :=
  {| date := Some (slot_date slot); time := Some (slot_time slot);
     status := None; resourceId := None; name := Some (booking_name form);
     email := None; phone := None; isClass := Some false;
     className := None; hostName := None; hostEmail := None;
     maxParticipants := None; participants := None; participantCount := None;
     inlet := None; error := None; accessCode := None; createdAt := None |}.

(** [{ ...firestoreBooking, email?, phone, accessCode, createdAt }] *)
Definition local_fields (mail_field : option string) (phone_field code now : string)
    (b : Booking) : Booking :=
  {| date := date b; time := time b; status := status b;
     resourceId := resourceId b; name := name b;
     email := mail_field;
     phone := Some phone_field;
     isClass := isClass b; className := className b;
     hostName := hostName b; hostEmail := hostEmail b;
     maxParticipants := maxParticipants b; participants := participants b;
     participantCount := participantCount b; inlet := inlet b;
     error := error b; accessCode := Some code; createdAt := Some now |}.

Inductive SubmitOutcome :=
  | NotSubmitted
      (* returned early: no slot selected, or a required field is empty *)
  | SavedToFirestore (bookingId : string) (firestoreBooking : Booking)
      (displayedCode : string)
  | SavedLocally (bookingId : string) (newBooking : Booking)
      (displayedCode : string).

Definition my_entry (bookingId : string) (slot : Slot) (form : BookingForm)
  : MyBooking :=
  {| my_id := bookingId; my_date := slot_date slot; my_time := slot_time slot;
     my_name := Some (if is_class_booking form then class_name form
                      else booking_name form);
     my_isClass := is_class_booking form |}.

(** [handleBookingSubmit(e)]: the store write and the code put on screen. *)
Definition handleBookingSubmit (cenv : ClientEnv) (form : BookingForm)
    (c : Client) (w : World) : Client * World * SubmitOutcome :=
  match selectedSlot c with
  | None => (c, w, NotSubmitted)
  | Some slot =>
      let accessCode := generateAccessCode cenv in
      let built :=
        if is_class_booking form then
          if decide (class_name form = "" ∨ host_name form = "") then None
          else
            let firestoreBooking := class_firestoreBooking slot form in
            Some (firestoreBooking,
                  local_fields None (booking_phone form) accessCode
                    (now_iso cenv) firestoreBooking)
        else
          if decide (booking_name form = "") then None
          else
            let firestoreBooking := regular_firestoreBooking slot form in
            Some (firestoreBooking,
                  local_fields (Some (booking_email form)) (booking_phone form)
                    accessCode (now_iso cenv) firestoreBooking)
      in
      match built with
      | None => (c, w, NotSubmitted)
      | Some (firestoreBooking, newBooking) =>
          let fallback :=
            let bookingId := generated_id cenv in
            ({| selectedSlot := selectedSlot c;
                bookedSlots := bookedSlots c ++ [(bookingId, newBooking)];
                myBookings := myBookings c ++ [my_entry bookingId slot form] |},
             w, SavedLocally bookingId newBooking accessCode) in
          if firebaseReady cenv then
            match addDoc_id cenv with
            | Some firestoreId =>
                ({| selectedSlot := selectedSlot c;
                    bookedSlots := bookedSlots c;
                    myBookings :=
                      myBookings c ++ [my_entry firestoreId slot form] |},
                 with_bookings (<[firestoreId := firestoreBooking]> (bookings w)) w,
                 SavedToFirestore firestoreId firestoreBooking accessCode)
            | None => fallback
            end
          else fallback
      end
  end.

Inductive JoinOutcome :=
  | JoinIgnored               (* returned before the try block *)
  | JoinNoStore               (* Firebase not ready: nothing happens *)
  | Joined
  | JoinError (msg : string). (* the message shown by the catch block *)

(** [booking.participantCount >= booking.maxParticipants] *)
Definition class_is_full (booking : Booking) : bool :=
  match participantCount booking, maxParticipants booking with
  | Some n, Some m => bool_decide (m ≤ n)
  | _, _ => false
  end.

(** [handleJoinClass(e)] with [form.dataset.bookingId] and [#join-name]. *)
Definition handleJoinClass (cenv : ClientEnv) (bookingId joinName : string)
    (c : Client) (w : World) : World * JoinOutcome :=
  if decide (joinName = "" ∨ bookingId = "") then (w, JoinIgnored)
  else if firebaseReady cenv then
    match List.find (λ b, bool_decide (b.1 = bookingId)) (bookedSlots c) with
    | Some (_, booking) =>
        if decide (isClass booking = Some true) then
          if class_is_full booking then (w, JoinError "Class is full")
          else
            let updatedParticipants :=
              default [] (participants booking) ++ [joinName] in
            let updatedCount := Z.of_nat (length updatedParticipants) in
            match doc_update bookingId
                    (set_participants updatedParticipants updatedCount) w with
            | (w', Fulfilled _) => (w', Joined)
            | (w', Rejected msg) => (w', JoinError msg)
            end
        else (w, JoinError "Booking not found")
    | None => (w, JoinError "Booking not found")
    end
  else (w, JoinNoStore).

(** ** A runtime for the examples: a server whose local zone is UTC

    [Number] is what JavaScript's is on strings of decimal digits, the form
    in which the calendar writes dates and times; on every other string it
    answers NaN, also where JavaScript reads a number (a sign, blanks, a
    fraction, an exponent). Dates follow the proleptic Gregorian calendar of
    ECMAScript's [MakeDay] and [MakeTime]; the formatters print as Node does
    for en-GB. The runtime serves the examples and the statements that name
    it; the other statements hold for every runtime. *)
Module Utc.

Fixpoint digits (s : string) (acc : Z) : option Z :=
  match s with
  | EmptyString => Some acc
  | String c rest =>
      let n := Z.of_N (N_of_ascii c) in
      if decide (48 ≤ n ≤ 57) then digits rest (10 * acc + (n - 48)) else None
  end.

Definition Number (s : string) : option Z := digits s 0.

(** Days from 1970-01-01 to the given civil date, [m] in 1..12. *)
Definition days_from_civil (y m d : Z) : Z :=
  let y := if decide (m ≤ 2) then y - 1 else y in
  let era := y `div` 400 in
  let yoe := y - era * 400 in
  let doy := (153 * (if decide (2 < m) then m - 3 else m + 9) + 2) `div` 5 + d - 1 in
  let doe := yoe * 365 + yoe `div` 4 - yoe `div` 100 + doy in
  era * 146097 + doe - 719468.

Definition civil_from_days (z : Z) : Z * Z * Z :=
  let z := z + 719468 in
  let era := z `div` 146097 in
  let doe := z - era * 146097 in
  let yoe := (doe - doe `div` 1460 + doe `div` 36524 - doe `div` 146096) `div` 365 in
  let doy := doe - (365 * yoe + yoe `div` 4 - yoe `div` 100) in
  let mp := (5 * doy + 2) `div` 153 in
  let d := doy - (153 * mp + 2) `div` 5 + 1 in
  let m := if decide (mp < 10) then mp + 3 else mp - 9 in
  (yoe + era * 400 + (if decide (m ≤ 2) then 1 else 0), m, d).

Definition Date (year monthIndex day hour minute : Z) : JsDate :=
  let year := if decide (0 ≤ year ≤ 99) then 1900 + year else year in
  let ym := year + monthIndex `div` 12 in
  let mn := monthIndex `mod` 12 in
  let days := days_from_civil ym (mn + 1) 1 + day - 1 in
  new_Date (days * 86400000 + hour * 3600000 + minute * 60000).

Definition pad (width : nat) (n : Z) : string :=
  let s := pretty n in
  String.string_of_list_ascii
    (replicate (width - String.length s) "0"%char) +:+ s.

Definition toISOString (ms : Z) : string :=
  let '(y, m, d) := civil_from_days (ms `div` 86400000) in
  let r := ms `mod` 86400000 in
  (if decide (0 ≤ y ≤ 9999) then pad 4 y
   else (if decide (y < 0) then "-" else "+") +:+ pad 6 (Z.abs y))
  +:+ "-" +:+ pad 2 m +:+ "-" +:+ pad 2 d
  +:+ "T" +:+ pad 2 (r `div` 3600000)
  +:+ ":" +:+ pad 2 ((r `mod` 3600000) `div` 60000)
  +:+ ":" +:+ pad 2 ((r `mod` 60000) `div` 1000)
  +:+ "." +:+ pad 3 (r `mod` 1000) +:+ "Z".

Definition weekdays : list string :=
  ["Sunday"; "Monday"; "Tuesday"; "Wednesday"; "Thursday"; "Friday"; "Saturday"].

Definition months : list string :=
  ["January"; "February"; "March"; "April"; "May"; "June"; "July"; "August";
   "September"; "October"; "November"; "December"].

Definition toLocaleDateString (ms : Z) : string :=
  let days := ms `div` 86400000 in
  let '(y, m, d) := civil_from_days days in
  default "" (weekdays !! Z.to_nat ((days + 4) `mod` 7))
  +:+ ", " +:+ pretty d
  +:+ " " +:+ default "" (months !! Z.to_nat (m - 1))
  +:+ " " +:+ pretty y.

Definition toLocaleTimeString (ms : Z) : string :=
  let r := ms `mod` 86400000 in
  pad 2 (r `div` 3600000) +:+ ":" +:+ pad 2 ((r `mod` 3600000) `div` 60000).

Definition runtime : JsRuntime :=
  Build_JsRuntime Number Date toISOString toLocaleDateString
    toLocaleTimeString.

End Utc.

(** * Specification vocabulary *)

(** A booking that holds its slot. *)
Definition active (b : Booking) : Prop :=
  status b = Some "confirmed" ∨ status b = Some "pending".

(** Another booking than [excludeBookingId] holds the slot [(d, t)]. *)
Definition slot_taken (w : World) (d t excludeBookingId : string) : Prop :=
  ∃ id b, bookings w !! id = Some b ∧ date b = Some d ∧ time b = Some t
          ∧ active b ∧ id ≠ excludeBookingId.

(** The gateway calls that revoke the credential of a booking, if it has one. *)
Definition revocations (booking : Booking) : list GatewayCall :=
  match inlet_credentialId booking with
  | Some cid => [RevokeCredential cid]
  | None => []
  end.

(** The credential sub-record that a handler writes for the draws of [env]. *)
Definition issued_inlet (env : ServerEnv) : Inlet :=
  {| credentialId := "inlet_cred_" +:+ pretty (Date_now env);
     code := pretty (1000 + random9000 env);
     issuedAt := serverTimestamp env |}.

(** The world in which the create handler has made its create call, for
    the window of one hour from [start] and the lock [lockId], and has
    written the credential into the record together with the status
    confirmed. *)
Definition credential_written (rt : JsRuntime) (env : ServerEnv) (w : World)
    (booking cur : Booking) (bookingId : string) (start : Z) (lockId : LockId)
  : World :=
  {| bookings :=
       <[bookingId := set_confirmed (issued_inlet env) cur]> (bookings w);
     mail := mail w;
     gateway :=
       gateway w ++
       [CreateCredential lockId
          (credential_request booking (toISOString rt start)
             (toISOString rt (start + 60 * 60 * 1000)))] |}.

(** The [booking-confirmation] mail for the window that starts at [start]. *)
Definition confirmation_notice (rt : JsRuntime) (env : ServerEnv)
    (booking : Booking) (start : Z) : Mail :=
  confirmation_mail booking (toLocaleDateString rt start)
    (toLocaleTimeString rt start) (code (issued_inlet env)).

(** The world in which the create handler has confirmed a booking: the
    credential is created and written, and the mail is queued. *)
Definition confirmed_world (rt : JsRuntime) (env : ServerEnv) (w : World)
    (booking cur : Booking) (bookingId : string) (start : Z) (lockId : LockId)
  : World :=
  let w1 := credential_written rt env w booking cur bookingId start lockId in
  {| bookings := bookings w1;
     mail := mail w ++ [confirmation_notice rt env booking start];
     gateway := gateway w1 |}.

(** The world in which the mail queue has refused the confirmation mail for
    its field [path]: the credential is created and written, and the [catch]
    block has then marked the record as failed. *)
Definition unmailed_world (rt : JsRuntime) (env : ServerEnv) (w : World)
    (booking cur : Booking) (bookingId : string) (start : Z) (lockId : LockId)
    (path : string) : World :=
  let w1 := credential_written rt env w booking cur bookingId start lockId in
  {| bookings :=
       <[bookingId :=
           set_status_error "error" (Firestore_undefined_field path)
             (set_confirmed (issued_inlet env) cur)]> (bookings w);
     mail := mail w;
     gateway := gateway w1 |}.

(** What a reschedule that reissues the credential does at the gateway and
    to the record: one revoke call for the old credential and then one create
    call for the window of one hour from [start], and the new credential in
    the place of the old one in the record, whose other fields stay. *)
Definition reissued (rt : JsRuntime) (env : ServerEnv) (w w' : World)
    (bookingId oldId : string) (after cur : Booking) (start : Z)
    (lockId : LockId) : Prop :=
  let request :=
    credential_request after (toISOString rt start)
      (toISOString rt (start + 60 * 60 * 1000)) in
  gateway w' = gateway w ++ [RevokeCredential oldId; CreateCredential lockId request]
  ∧ (∃ b, bookings w' = <[bookingId := b]> (bookings w)
          ∧ inlet b = Some (issued_inlet env)
          ∧ b = set_inlet (issued_inlet env) cur).

(** The [booking-update] mail of a reschedule to the window that starts at
    [start]. *)
Definition update_notice (rt : JsRuntime) (env : ServerEnv) (after : Booking)
    (start : Z) : Mail :=
  update_mail after (toLocaleDateString rt start) (toLocaleTimeString rt start)
    (code (issued_inlet env)).

(** The record the create handler leaves at [bookingId], with the calls and
    mails it has added. *)
Inductive created_outcome (env : ServerEnv) (w : World) (booking cur : Booking)
    (bookingId : string) : World → Prop :=
  | outcome_skipped :
      status booking ≠ Some "pending" →
      created_outcome env w booking cur bookingId w
  | outcome_conflict d t :
      date booking = Some d → time booking = Some t →
      slot_taken w d t bookingId →
      created_outcome env w booking cur bookingId
        (with_bookings
           (<[bookingId :=
                set_status_error "conflict" "Time slot is no longer available" cur]>
              (bookings w)) w)
  | outcome_error msg :
      created_outcome env w booking cur bookingId
        (with_bookings
           (<[bookingId := set_status_error "error" msg cur]> (bookings w)) w)
  | outcome_confirmed d t i item lockId request :
      date booking = Some d → time booking = Some t →
      code i = pretty (1000 + random9000 env) →
      ¬ slot_taken w d t bookingId →
      created_outcome env w booking cur bookingId
        {| bookings := <[bookingId := set_confirmed i cur]> (bookings w);
           mail := mail w ++ [item];
           gateway := gateway w ++ [CreateCredential lockId request] |}
  | outcome_unmailed d t i path lockId request :
      date booking = Some d → time booking = Some t →
      code i = pretty (1000 + random9000 env) →
      ¬ slot_taken w d t bookingId →
      created_outcome env w booking cur bookingId
        {| bookings :=
             <[bookingId :=
                 set_status_error "error" (Firestore_undefined_field path)
                   (set_confirmed i cur)]> (bookings w);
           mail := mail w;
           gateway := gateway w ++ [CreateCredential lockId request] |}.

(** The slot a booking occupies: [resourceId] defaults to the prayer room. *)
Definition slot_of (b : Booking) : string * option string * option string :=
  (js_or_else (resourceId b) "prayer_room", date b, time b).

(** At most one active booking per (resourceId, date, time). *)
Definition no_double_booking (w : World) : Prop :=
  ∀ id1 id2 b1 b2,
    bookings w !! id1 = Some b1 → bookings w !! id2 = Some b2 →
    active b1 → active b2 → slot_of b1 = slot_of b2 → id1 = id2.

(** States reached from the empty store by delivering events one after the
    other. *)
Definition reachable (rt : JsRuntime) (w : World) : Prop :=
  ∃ evs, w = deliver_all rt evs empty_world.

(** [active], as a test. *)
Definition is_active (b : Booking) : bool :=
  bool_decide (status b = Some "confirmed")
  || bool_decide (status b = Some "pending").

(** A booking other than [bookingId] is active on the slot (resourceId, date,
    time) of [b]. *)
Definition held_by_other (w : World) (bookingId : string) (b : Booking) : bool :=
  existsb
    (λ e, bool_decide (e.1 ≠ bookingId) && is_active e.2
          && bool_decide (slot_of e.2 = slot_of b))
    (map_to_list (bookings w)).

(** Writes that do not by themselves put an active booking on a slot that
    another active booking holds. The create handler decides on a booking
    that is created pending, so any such creation is admissible; a booking
    created already confirmed, and an update that leaves the booking pending
    or confirmed, must go to a slot that no other active booking holds (a
    move of a confirmed booking to a free slot is of this kind). Updates to
    an inactive status, such as cancellations, and deletions are always
    admissible. *)
Definition admissible (w : World) (ev : Event) : Prop :=
  match ev with
  | Created bookingId doc =>
      status doc = Some "confirmed" → held_by_other w bookingId doc = false
  | Updated bookingId after =>
      active after → held_by_other w bookingId after = false
  | Deleted _ => True
  end.

(** States reached from the empty store by admissible events. *)
Inductive managed (rt : JsRuntime) : World → Prop :=
  | managed_empty : managed rt empty_world
  | managed_deliver w env ev :
      managed rt w → admissible w ev → managed rt (deliver rt env ev w).

(** The property as the specification words it: a record has a credential
    exactly when it is confirmed. *)
Definition credential_iff_confirmed (w : World) : Prop :=
  ∀ bookingId b, bookings w !! bookingId = Some b →
    (is_Some (inlet b) ↔ status b = Some "confirmed").

(** The page's copy of the booking [bookingId]: the entry of [bookedSlots]
    that [handleJoinClass] finds. *)
Definition cached_copy (c : Client) (bookingId : string) : option Booking :=
  snd <$> List.find (λ b, bool_decide (b.1 = bookingId)) (bookedSlots c).

(** The states of the class that the booking form has written as [origin]:
    that document, and what a join makes of a state [cur] that the store
    holds, on a page whose copy [cached] is a state of the class too, the
    same as [cur] or an older one. *)
Inductive class_record (origin : Booking) : Booking → Prop :=
  | class_created cenv form c w c' w' bookingId shown :
      is_class_booking form = true →
      handleBookingSubmit cenv form c w
        = (c', w', SavedToFirestore bookingId origin shown) →
      class_record origin origin
  | class_joined cached cur b' cenv bookingId joinName c w w' :
      class_record origin cached →
      class_record origin cur →
      cached_copy c bookingId = Some cached →
      bookings w !! bookingId = Some cur →
      handleJoinClass cenv bookingId joinName c w = (w', Joined) →
      bookings w' !! bookingId = Some b' →
      class_record origin b'.

(** [participantCount] is the length of [participants], and does not exceed
    a capacity of at least one. *)
Definition class_counts (b : Booking) (ps : list string) (n m : Z) : Prop :=
  isClass b = Some true
  ∧ participants b = Some ps
  ∧ participantCount b = Some n
  ∧ maxParticipants b = Some m
  ∧ n = Z.of_nat (length ps)
  ∧ (1 ≤ m → n ≤ m).

(** * Example data

    The scenario of the specification: Alice books 16 January 2026 at 14:00,
    Bob asks for the same slot or for the next one. *)

Definition ex_env1 : ServerEnv :=
  {| Date_now := 1768000000000; random9000 := 234;
     serverTimestamp := 1768000000001 |}.

Definition ex_env2 : ServerEnv :=
  {| Date_now := 1768000005000; random9000 := 4321;
     serverTimestamp := 1768000005001 |}.

Definition ex_env3 : ServerEnv :=
  {| Date_now := 1768000009000; random9000 := 77;
     serverTimestamp := 1768000009001 |}.

(** A pending booking, as a client of the automatic mode would write it. *)
Definition ex_pending (t who mail_to : string) (resource : option string)
  : Booking :=
  {| date := Some "2026-01-16"; time := Some t; status := Some "pending";
     resourceId := resource; name := Some who; email := Some mail_to;
     phone := None; isClass := None; className := None; hostName := None;
     hostEmail := None; maxParticipants := None; participants := None;
     participantCount := None; inlet := None; error := None;
     accessCode := None; createdAt := None |}.

(** [updateDoc(ref, { time, resourceId })] *)
Definition ex_move (t : string) (resource : option string) (b : Booking)
  : Booking :=
  {| date := date b; time := Some t; status := status b;
     resourceId := resource; name := name b; email := email b;
     phone := phone b; isClass := isClass b; className := className b;
     hostName := hostName b; hostEmail := hostEmail b;
     maxParticipants := maxParticipants b; participants := participants b;
     participantCount := participantCount b; inlet := inlet b;
     error := error b; accessCode := accessCode b; createdAt := createdAt b |}.

Definition ex_alice : Booking := ex_pending "14:00" "Alice" "a@x.com" None.
Definition ex_bob14 : Booking := ex_pending "14:00" "Bob" "b@x.com" None.
Definition ex_bob15 : Booking := ex_pending "15:00" "Bob" "b@x.com" None.
Definition ex_carol : Booking :=
  ex_pending "16:00" "Carol" "c@x.com" (Some "chapel").

Definition ex_inlet1 : Inlet :=
  {| credentialId := "inlet_cred_1768000000000"; code := "1234";
     issuedAt := 1768000000001 |}.

Definition ex_inlet2 : Inlet :=
  {| credentialId := "inlet_cred_1768000005000"; code := "5321";
     issuedAt := 1768000005001 |}.

Definition ex_inlet3 : Inlet :=
  {| credentialId := "inlet_cred_1768000009000"; code := "1077";
     issuedAt := 1768000009001 |}.

Definition ex_alice_confirmed : Booking := set_confirmed ex_inlet1 ex_alice.
Definition ex_bob_confirmed : Booking := set_confirmed ex_inlet2 ex_bob15.

(** Alice's booking moved to 15:00, within the prayer room or to a resource
    that has no lock mapping; and moved and cancelled by the same write. *)
Definition ex_alice_15 : Booking := ex_move "15:00" None ex_alice_confirmed.
Definition ex_alice_chapel : Booking :=
  ex_move "15:00" (Some "chapel") ex_alice_confirmed.
Definition ex_alice_cancelled_15 : Booking := set_status "cancelled" ex_alice_15.

(** Alice's booking has been created and processed. *)
Definition ex_w1 : World :=
  deliver Utc.runtime ex_env1 (Created "a" ex_alice) empty_world.

(** Then Bob's, for the same slot ... *)
Definition ex_w2 : World :=
  deliver Utc.runtime ex_env2 (Created "b" ex_bob14) ex_w1.

(** ... or for the next slot, *)
Definition ex_w3 : World :=
  deliver Utc.runtime ex_env2 (Created "b" ex_bob15) ex_w1.

(** and his booking is then moved onto Alice's slot. *)
Definition ex_w4 : World :=
  deliver Utc.runtime ex_env3
    (Updated "b" (ex_move "14:00" None ex_bob_confirmed)) ex_w3.

(** Alice cancels. *)
Definition ex_w5 : World :=
  deliver Utc.runtime ex_env2
    (Updated "a" (set_status "cancelled" ex_alice_confirmed)) ex_w1.

(** Bob's booking is refused, and Alice's is then moved to 15:00, which is
    free. *)
Definition ex_w6 : World :=
  deliver Utc.runtime ex_env3 (Updated "a" ex_alice_15) ex_w2.

(** A pending booking that names nobody to write to. *)
Definition ex_eve : Booking :=
  {| date := Some "2026-01-16"; time := Some "16:00"; status := Some "pending";
     resourceId := None; name := Some "Eve"; email := None; phone := None;
     isClass := None; className := None; hostName := None; hostEmail := None;
     maxParticipants := None; participants := None; participantCount := None;
     inlet := None; error := None; accessCode := None; createdAt := None |}.

(** A pending booking for a resource named as a member of every object. *)
Definition ex_frank : Booking :=
  ex_pending "17:00" "Frank" "f@x.com" (Some "constructor").

(** The store as the create trigger of Bob's or Carol's booking finds it. *)
Definition ex_store (bookingId : string) (doc : Booking) : World :=
  with_bookings (<[bookingId := doc]> (bookings ex_w1)) ex_w1.

(** The page: a slot is selected and the store is available. *)
Definition ex_page : ClientEnv :=
  {| firebaseReady := true; addDoc_id := Some "doc1";
     client_random9000 := 4678; now_iso := "2026-01-10T09:00:00.000Z";
     generated_id := "mk7x2p9q" |}.

Definition ex_client : Client :=
  {| selectedSlot := Some {| slot_date := "2026-01-16"; slot_time := "14:00" |};
     bookedSlots := []; myBookings := [] |}.

Definition ex_form : BookingForm :=
  {| is_class_booking := false; booking_email := "a@x.com";
     booking_phone := "07000000000"; class_name := ""; host_name := "";
     max_participants := None; booking_name := "Alice" |}.

Definition ex_class_form (capacity : option Z) : BookingForm :=
  {| is_class_booking := true; booking_email := "h@x.com";
     booking_phone := ""; class_name := "Morning prayer"; host_name := "Hana";
     max_participants := capacity; booking_name := "" |}.

(** The store holding the one document that the form has written. *)
Definition ex_form_store (doc : Booking) : World :=
  with_bookings (<["doc1" := doc]> ∅) empty_world.

(** The document the form writes for Alice. *)
Definition ex_form_doc : Booking :=
  {| date := Some "2026-01-16"; time := Some "14:00"; status := None;
     resourceId := None; name := Some "Alice"; email := None; phone := None;
     isClass := Some false; className := None; hostName := None;
     hostEmail := None; maxParticipants := None; participants := None;
     participantCount := None; inlet := None; error := None;
     accessCode := None; createdAt := None |}.

(** The class document the form writes for a capacity field. *)
Definition ex_class_doc (capacity : Z) : Booking :=
  {| date := Some "2026-01-16"; time := Some "14:00"; status := None;
     resourceId := None; name := None; email := None; phone := None;
     isClass := Some true; className := Some "Morning prayer";
     hostName := Some "Hana"; hostEmail := Some "h@x.com";
     maxParticipants := Some capacity; participants := Some ["Hana"];
     participantCount := Some 1; inlet := None; error := None;
     accessCode := None; createdAt := None |}.

(** A class for two. A page loads it; Imran then joins on another page,
    which fills the class; Lee joins on the first page, which still shows one
    participant. *)
Definition ex_page_stale : Client :=
  onSnapshot (ex_form_store (ex_class_doc 2)) ex_client.

Definition ex_class_full : Booking :=
  set_participants ["Hana"; "Imran"] 2 (ex_class_doc 2).

Definition ex_class_overwritten : Booking :=
  set_participants ["Hana"; "Lee"] 2 (ex_class_doc 2).

(** * More of the booking page

    The lookups on the page's two lists, the cancellation of a booking, the
    cells of the calendar and the helpers for days and hours. A [Date] of the
    page is given by its local time value, in milliseconds; [getDay],
    [getDate] and [setDate] read and move it by whole local days. *)

(** [isMyBooking(bookingId)] *)
Definition isMyBooking (c : Client) (bookingId : string) : bool :=
  existsb (λ b, bool_decide (my_id b = bookingId)) (myBookings c).

(** [getMyBookingBySlot(date, time)] *)
Definition getMyBookingBySlot (c : Client) (d t : string) : option MyBooking :=
  List.find (λ b, bool_decide (my_date b = d) && bool_decide (my_time b = t))
    (myBookings c).

(** [isSlotBooked(date, time)] *)
Definition isSlotBooked (c : Client) (d t : string) : bool :=
  existsb
    (λ slot, bool_decide (date slot.2 = Some d) && bool_decide (time slot.2 = Some t))
    (bookedSlots c).

(** [getBookingForSlot(date, time)] *)
Definition getBookingForSlot (c : Client) (d t : string)
  : option (string * Booking) :=
  List.find
    (λ slot, bool_decide (date slot.2 = Some d) && bool_decide (time slot.2 = Some t))
    (bookedSlots c).

(** [confirmCancelBooking(bookingId)]: the record is deleted from the store
    when Firebase is ready, and the booking leaves both lists. *)
Definition confirmCancelBooking (cenv : ClientEnv) (bookingId : string)
    (c : Client) (w : World) : Client * World :=
  ({| selectedSlot := selectedSlot c;
      bookedSlots :=
        List.filter (λ b, bool_decide (b.1 ≠ bookingId)) (bookedSlots c);
      myBookings :=
        List.filter (λ b, bool_decide (my_id b ≠ bookingId)) (myBookings c) |},
   if firebaseReady cenv
   then with_bookings (delete bookingId (bookings w)) w
   else w).

(** The click handler that [renderCalendar] gives a cell. *)
Inductive CellClick :=
  | no_click
  | click_selectSlot
  | click_showCancelModal (booking : string * Booking) (myBooking : MyBooking)
  | click_showJoinClassModal (booking : string * Booking).

(** A cell of the calendar: its class list and its click handler (the title
    and the text labels of the cell are left out). *)
Record SlotCell := { classList : list string; onclick : CellClick }.

(** [myBooking && myBooking.id === booking.id] *)
Definition is_own (myBooking : option MyBooking) (booking : string * Booking)
  : option MyBooking :=
  match myBooking with
  | Some m => if decide (my_id m = booking.1) then Some m else None
  | None => None
  end.

(** The body of the inner loop of [renderCalendar], for the slot of
    [dateStr] and [timeStr] that starts at [slotDateTime]. *)
Definition slotCell (c : Client) (now slotDateTime : Z) (dateStr timeStr : string)
  : SlotCell :=
  let leadTime := now + 4 * 60 * 60 * 1000 in
  if decide (slotDateTime < leadTime) then
    {| classList := ["calendar-slot"; "unavailable"]; onclick := no_click |}
  else if isSlotBooked c dateStr timeStr then
    match getBookingForSlot c dateStr timeStr with
    | Some booking =>
        let myBooking := getMyBookingBySlot c dateStr timeStr in
        if decide (isClass booking.2 = Some true) then
          match is_own myBooking booking with
          | Some m =>
              {| classList := ["calendar-slot"; "class-booking"; "my-booking"];
                 onclick := click_showCancelModal booking m |}
          | None =>
              if class_is_full booking.2 then
                {| classList := ["calendar-slot"; "class-booking"; "class-full"];
                   onclick := no_click |}
              else
                {| classList := ["calendar-slot"; "class-booking"];
                   onclick := click_showJoinClassModal booking |}
          end
        else
          match is_own myBooking booking with
          | Some m =>
              {| classList := ["calendar-slot"; "booked"; "my-booking"];
                 onclick :=
                   if decide (js_or (name booking.2) None = None) then no_click
                   else click_showCancelModal booking m |}
          | None =>
              {| classList := ["calendar-slot"; "booked"]; onclick := no_click |}
          end
    | None =>
        {| classList := ["calendar-slot"; "booked"]; onclick := no_click |}
    end
  else
    {| classList := ["calendar-slot"; "available"]; onclick := click_selectSlot |}.

(** Opening hours. *)
Definition openingHour : Z := 8.
Definition closingHour : Z := 21.

Definition msPerDay : Z := 86400000.

(** [d.getDay()]: 0 is Sunday; day 0 of the time scale is a Thursday. *)
Definition getDay (d : Z) : Z := (d `div` msPerDay + 4) `mod` 7.

(** [d.setDate(d.getDate() + n)] *)
Definition addDays (d n : Z) : Z := d + n * msPerDay.

(** [getMonday(date)] *)
Definition getMonday (d : Z) : Z :=
  let day := getDay d in
  addDays d (- day + (if decide (day = 0) then -6 else 1)).

Definition dayNames : list string :=
  ["Sun"; "Mon"; "Tue"; "Wed"; "Thu"; "Fri"; "Sat"].

(** The [days] of [renderCalendar] and the names in their header cells. *)
Definition week_days (currentWeekStart : Z) : list Z :=
  (λ i, addDays currentWeekStart i) <$> seqZ 0 7.

Definition day_headers (currentWeekStart : Z) : list string :=
  (λ day, default "undefined" (dayNames !! Z.to_nat (getDay day)))
    <$> week_days currentWeekStart.

(** The hours of the rows of the calendar. *)
Definition slot_hours : list Z := seqZ openingHour (closingHour - openingHour).

(** [s.padStart(width, fill)] *)
Definition padStart (width : nat) (fill : ascii) (s : string) : string :=
  String.string_of_list_ascii (replicate (width - String.length s) fill) +:+ s.

(** [`${hour.toString().padStart(2, '0')}:00`] *)
Definition slot_timeStr (hour : Z) : string :=
  padStart 2 "0" (pretty hour) +:+ ":00".

(** [formatDate(date)], for the time value of the date. *)
Definition formatDate (rt : JsRuntime) (ms : Z) : string :=
  default "" (split "T" (toISOString rt ms) !! 0%nat).

(** [formatTime(hour)] *)
Definition formatTime (hour : Z) : string :=
  let suffix := if decide (12 ≤ hour) then "PM" else "AM" in
  let displayHour := if decide (12 < hour) then hour - 12 else hour in
  pretty displayHour +:+ suffix.

(** [formatTimeDisplay(timeStr)], for the hour that [parseInt] reads from
    the part before the colon ([None] for NaN). *)
Definition formatTimeDisplay (parseInt : string → option Z) (timeStr : string)
  : string :=
  match split ":" timeStr !! 0%nat ≫= parseInt with
  | Some hour =>
      let displayHour := if decide (12 < hour) then hour - 12 else hour in
      let ampm := if decide (12 ≤ hour) then "PM" else "AM" in
      let endHour := if decide (12 < hour + 1) then hour + 1 - 12 else hour + 1 in
      let endAmpm := if decide (12 ≤ hour + 1) then "PM" else "AM" in
      pretty displayHour +:+ ":00 " +:+ ampm +:+ " - "
      +:+ pretty endHour +:+ ":00 " +:+ endAmpm
  | None => "NaN:00 AM - NaN:00 AM"
  end.

(** A string of exactly four decimal digits. *)
Definition is_four_digits (s : string) : bool :=
  bool_decide (String.length s = 4%nat)
  && forallb (λ c, bool_decide (48 ≤ Z.of_N (N_of_ascii c) ≤ 57))
       (String.list_ascii_of_string s).

(** ** The earlier page ([script.js])

    Its [handleBookingSubmit] knows no classes and no list of own bookings,
    and does not check the name. *)
Module Legacy.

Definition firestoreBooking (slot : Slot) (form : BookingForm) : Booking :=
  {| date := Some (slot_date slot); time := Some (slot_time slot);
     status := None; resourceId := None; name := Some (booking_name form);
     email := None; phone := None; isClass := None;
     className := None; hostName := None; hostEmail := None;
     maxParticipants := None; participants := None; participantCount := None;
     inlet := None; error := None; accessCode := None; createdAt := None |}.

Definition handleBookingSubmit (cenv : ClientEnv) (form : BookingForm)
    (c : Client) (w : World) : Client * World * SubmitOutcome :=
  match selectedSlot c with
  | None => (c, w, NotSubmitted)
  | Some slot =>
      let accessCode := generateAccessCode cenv in
      let newBooking :=
        local_fields (Some (booking_email form)) (booking_phone form) accessCode
          (now_iso cenv) (firestoreBooking slot form) in
      let fallback :=
        let bookingId := generated_id cenv in
        ({| selectedSlot := selectedSlot c;
            bookedSlots := bookedSlots c ++ [(bookingId, newBooking)];
            myBookings := myBookings c |},
         w, SavedLocally bookingId newBooking accessCode) in
      if firebaseReady cenv then
        match addDoc_id cenv with
        | Some firestoreId =>
            (c,
             with_bookings
               (<[firestoreId := firestoreBooking slot form]> (bookings w)) w,
             SavedToFirestore firestoreId (firestoreBooking slot form) accessCode)
        | None => fallback
        end
      else fallback
  end.

End Legacy.

(** * Further vocabulary *)

(** [isClass: false] added to a document. *)
Definition set_not_class (b : Booking) : Booking :=
  {| date := date b; time := time b; status := status b;
     resourceId := resourceId b; name := name b; email := email b;
     phone := phone b; isClass := Some false; className := className b;
     hostName := hostName b; hostEmail := hostEmail b;
     maxParticipants := maxParticipants b; participants := participants b;
     participantCount := participantCount b; inlet := inlet b;
     error := error b; accessCode := accessCode b; createdAt := createdAt b |}.

(** The label that [formatTimeDisplay] gives an hour. *)
Definition time_label (hour : Z) : string :=
  formatTimeDisplay (λ _, Some hour) "".

(** The first instant of 1 January 2026, and the number of days of that
    year. *)
Definition first_of_2026 : Z := 1767225600000.
Definition days_of_2026 : Z := 365.

(** The slot of [hour] on the [n]th day: the strings that the calendar writes
    for it parse, on a server in the zone UTC, to the instant at which the
    slot starts. *)
Definition slot_parses_back (n hour : Z) : bool :=
  let day := addDays first_of_2026 n in
  bool_decide
    (parseBookingDateTime Utc.runtime (formatDate Utc.runtime day)
       (slot_timeStr hour)
     = Some (day + hour * 60 * 60 * 1000)).

(** The record an event is about. *)
Definition event_id (ev : Event) : string :=
  match ev with
  | Created bookingId _ | Updated bookingId _ | Deleted bookingId => bookingId
  end.

(** A computation that writes no record other than [bookingId] and only
    appends to the mail queue and to the gateway log. *)
Definition keeps_to {A} (bookingId : string) (c : Async A) : Prop :=
  ∀ w,
    (∀ other, other ≠ bookingId →
       bookings (c w).1 !! other = bookings w !! other)
    ∧ mail w `prefix_of` mail (c w).1
    ∧ gateway w `prefix_of` gateway (c w).1.

(** The resource names for which [createInletCredential] finds a lock: the
    prayer room, and the names that the mapping object inherits. *)
Definition has_lock (resource : string) : Prop :=
  resource = "prayer_room" ∨ resource ∈ Object_prototype.

(** The four ways in which the [try] block of the create handler fails on a
    record that is in the store: at the availability check, at the dates, at
    the lock mapping, and at the mail queue. *)
Definition create_error (rt : JsRuntime) (w : World) (booking : Booking)
    (bookingId msg : string) : Prop :=
  (msg = Firestore_undefined ∧ (date booking = None ∨ time booking = None))
  ∨ (∃ d t,
       date booking = Some d ∧ time booking = Some t
       ∧ ¬ slot_taken w d t bookingId
       ∧ ((msg = "Invalid time value"
           ∧ one_hour_later (parseBookingDateTime rt d t) = None)
          ∨ (msg = "No INLET lock mapping for resource: "
                   +:+ js_or_else (resourceId booking) "prayer_room"
             ∧ is_Some (one_hour_later (parseBookingDateTime rt d t))
             ∧ ¬ has_lock (js_or_else (resourceId booking) "prayer_room"))
          ∨ (∃ path,
               msg = Firestore_undefined_field path
               ∧ is_Some (one_hour_later (parseBookingDateTime rt d t))
               ∧ has_lock (js_or_else (resourceId booking) "prayer_room")
               ∧ ((path = "to"
                   ∧ js_or (email booking) (hostEmail booking) = None)
                  ∨ (path = "template.data.userName"
                     ∧ is_Some (js_or (email booking) (hostEmail booking))
                     ∧ js_or (name booking) (hostName booking) = None))))).

(** ** Further example data *)

(** A pending booking whose time has no colon. *)
Definition ex_dan : Booking := ex_pending "1500" "Dan" "d@x.com" None.

(** The page without Firebase. *)
Definition ex_page_offline : ClientEnv :=
  {| firebaseReady := false; addDoc_id := None;
     client_random9000 := 4678; now_iso := "2026-01-10T09:00:00.000Z";
     generated_id := "mk7x2p9q" |}.

(** The page of Alice, once her booking has come back from the store. *)
Definition ex_my_entry : MyBooking :=
  {| my_id := "doc1"; my_date := "2026-01-16"; my_time := "14:00";
     my_name := Some "Alice"; my_isClass := false |}.

Definition ex_client_own : Client :=
  {| selectedSlot := None; bookedSlots := [("doc1", ex_form_doc)];
     myBookings := [ex_my_entry] |}.

(** Saturday 10 January 2026, 10:00, and the start of the slot of
    16 January at 14:00. *)
Definition ex_now : Z := 1768039200000.
Definition ex_slot_start : Z := 1768572000000.

(** The class of Hana after Imran has joined. *)
Definition ex_class_joined : Booking :=
  set_participants ["Hana"; "Imran"] 2 (ex_class_doc 8).

(** * Properties *)

(** ** The availability check *)

Lemma slot_loop_false docs excludeBookingId :
  slot_loop docs excludeBookingId = false
  ↔ ∃ doc, doc ∈ docs ∧ doc.1 ≠ excludeBookingId.
Proof.
  induction docs as [|doc rest IH]; simpl.
  - split; [done | intros (doc & Hin & _); by apply elem_of_nil in Hin].
  - destruct (decide (doc.1 ≠ excludeBookingId)) as [Hne|Heq].
    + split; [intros _ | done]. exists doc. split; [left | done].
    + rewrite IH. split.
      * intros (doc' & Hin & Hne). exists doc'. split; [by right | done].
      * intros (doc' & Hin & Hne). apply elem_of_cons in Hin as [->|Hin];
          [done | by exists doc'].
Qed.

Lemma elem_of_query_docs w d t id b :
  (id, b) ∈ query_docs d t w
  ↔ bookings w !! id = Some b ∧ date b = Some d ∧ time b = Some t ∧ active b.
Proof.
  unfold query_docs, slot_query, active.
  rewrite list_elem_of_In, filter_In, <- list_elem_of_In, elem_of_map_to_list.
  simpl. rewrite !andb_true_iff, orb_true_iff, !bool_decide_eq_true. tauto.
Qed.

Lemma slot_loop_query w d t excludeBookingId :
  slot_loop (query_docs d t w) excludeBookingId = false
  ↔ slot_taken w d t excludeBookingId.
Proof.
  rewrite slot_loop_false. unfold slot_taken. split.
  - intros ([id b] & Hin & Hne).
    apply elem_of_query_docs in Hin as (Hb & Hd & Ht & Ha).
    by exists id, b.
  - intros (id & b & Hb & Hd & Ht & Ha & Hne). exists (id, b).
    split; [by apply elem_of_query_docs | done].
Qed.

(** C8. For every date, time and excluded id, [validateSlotFree] reads the
    bookings whose [date] and [time] match and whose [status] is confirmed or
    pending, leaves the world as it is, and answers [false] if and only if one
    of those records has an id other than [excludeBookingId]. The check does
    not read [resourceId]. *)
Theorem validateSlotFree_false_iff_taken
    (w : World) (d t excludeBookingId : string) :
  ∃ isSlotFree,
    validateSlotFree (Some d) (Some t) excludeBookingId w
      = (w, Fulfilled isSlotFree)
    ∧ (isSlotFree = false ↔ slot_taken w d t excludeBookingId).
Proof.
  eexists. split; [reflexivity|]. apply slot_loop_query.
Qed.

Lemma one_hour_later_Some rt d t stop :
  one_hour_later (parseBookingDateTime rt d t) = Some stop →
  ∃ start,
    parseBookingDateTime rt d t = Some start
    ∧ new_Date (start + 60 * 60 * 1000) = Some stop
    ∧ stop = start + 60 * 60 * 1000.
Proof.
  unfold one_hour_later.
  destruct (parseBookingDateTime rt d t) as [start|]; [|done]. simpl.
  intros Hstop. exists start. repeat split; try done.
  unfold new_Date in Hstop. by destruct (decide _); simplify_eq.
Qed.

(** ** The lock mapping and the mail queue *)

Ltac async_unfold :=
  unfold mbind, Async_bind, async_bind, mret, Async_ret, async_ret, throw,
    try_catch, gateway_call, revokeInletCredential in *.

Lemma prayer_room_not_inherited : "prayer_room" ∉ Object_prototype.
Proof. apply (bool_decide_eq_false_1 _). reflexivity. Qed.

Lemma RESOURCE_MAPPING_at_Some r lockId :
  RESOURCE_MAPPING_at r = Some lockId
  ↔ (r = "prayer_room" ∧ lockId = own_lock "YOUR_INLET_LOCK_ID")
    ∨ (r ∈ Object_prototype ∧ lockId = inherited r).
Proof.
  unfold RESOURCE_MAPPING_at, RESOURCE_MAPPING.
  destruct (decide (r = "prayer_room")) as [->|Hne].
  - rewrite lookup_singleton_eq. split.
    + intros [= <-]. by left.
    + intros [[_ ->]|[Hin _]]; [done|].
      by apply prayer_room_not_inherited in Hin.
  - rewrite lookup_singleton_ne by done.
    destruct (decide (r ∈ Object_prototype)).
    + split; [intros [= <-]; by right | intros [[? _]|[_ ->]]; done].
    + split; [done | intros [[? _]|[? _]]; done].
Qed.

Lemma RESOURCE_MAPPING_at_truthy r lockId :
  RESOURCE_MAPPING_at r = Some lockId → truthy lockId = true.
Proof.
  intros [[_ ->]|[_ ->]]%RESOURCE_MAPPING_at_Some; reflexivity.
Qed.

Lemma RESOURCE_MAPPING_at_has_lock r :
  is_Some (RESOURCE_MAPPING_at r) ↔ has_lock r.
Proof.
  unfold has_lock. split.
  - intros [lockId [[? _]|[? _]]%RESOURCE_MAPPING_at_Some]; [by left|by right].
  - intros [->|Hin]; eexists; apply RESOURCE_MAPPING_at_Some;
      [left|right]; done.
Qed.

Lemma mail_add_queued item w :
  undefined_field item = None →
  mail_add item w
  = ({| bookings := bookings w; mail := mail w ++ [item];
        gateway := gateway w |}, Fulfilled ()).
Proof. intros Hok. unfold mail_add. by rewrite Hok. Qed.

Lemma mail_add_refused item w path :
  undefined_field item = Some path →
  mail_add item w = (w, Rejected (Firestore_undefined_field path)).
Proof. intros Hno. unfold mail_add. by rewrite Hno. Qed.

(** A mail is accepted when the booking has somebody to write to and a name
    (and, for a cancellation, a date and a time). *)
Lemma confirmation_mail_accepted booking bookingDate bookingTime accessCode :
  undefined_field (confirmation_mail booking bookingDate bookingTime accessCode)
  = None
  ↔ is_Some (js_or (email booking) (hostEmail booking))
    ∧ is_Some (js_or (name booking) (hostName booking)).
Proof.
  unfold undefined_field, confirmation_mail. simpl.
  destruct (js_or (email booking) _), (js_or (name booking) _);
    split; try done; intros [[? ?] [? ?]]; done.
Qed.

Lemma confirmation_mail_refused booking bookingDate bookingTime accessCode path :
  undefined_field (confirmation_mail booking bookingDate bookingTime accessCode)
  = Some path
  ↔ (path = "to" ∧ js_or (email booking) (hostEmail booking) = None)
    ∨ (path = "template.data.userName"
       ∧ is_Some (js_or (email booking) (hostEmail booking))
       ∧ js_or (name booking) (hostName booking) = None).
Proof.
  unfold undefined_field, confirmation_mail. simpl.
  destruct (js_or (email booking) _) as [recipient|],
    (js_or (name booking) _) as [userName|].
  - split; [done|]. intros [[_ [=]]|(_ & _ & [=])].
  - split.
    + intros [= <-]. right. split; [done|]. split; [by eexists|done].
    + intros [[_ [=]]|(-> & _ & _)]. done.
  - split.
    + intros [= <-]. by left.
    + intros [[-> _]|(_ & [? [=]] & _)]. done.
  - split.
    + intros [= <-]. by left.
    + intros [[-> _]|(_ & [? [=]] & _)]. done.
Qed.

(** ** The create handler *)

Lemma createInletCredential_mapped env req w lockId :
  RESOURCE_MAPPING_at (req_resourceId req) = Some lockId →
  createInletCredential env req w
  = ({| bookings := bookings w; mail := mail w;
        gateway := gateway w ++ [CreateCredential lockId req] |},
     Fulfilled {| cred_id := "inlet_cred_" +:+ pretty (Date_now env);
                  cred_accessCode := pretty (1000 + random9000 env);
                  cred_lockId := lockId;
                  cred_startTime := req_startTime req;
                  cred_endTime := req_endTime req |}).
Proof.
  intros Hmap. unfold createInletCredential. rewrite Hmap.
  by rewrite (RESOURCE_MAPPING_at_truthy _ _ Hmap).
Qed.

Lemma createInletCredential_unmapped env req w :
  RESOURCE_MAPPING_at (req_resourceId req) = None →
  createInletCredential env req w
  = (w, Rejected ("No INLET lock mapping for resource: " +:+ req_resourceId req)).
Proof. intros Hmap. unfold createInletCredential. by rewrite Hmap. Qed.

Lemma doc_update_Some bookingId fields w cur :
  bookings w !! bookingId = Some cur →
  doc_update bookingId fields w
  = (with_bookings (<[bookingId := fields cur]> (bookings w)) w, Fulfilled ()).
Proof. intros Hcur. unfold doc_update. by rewrite Hcur. Qed.

(** The [try] block on a free slot, for a date and a time that give a valid
    window and a resource that has a lock: the credential is created and
    written, and the outcome lies with the mail queue. *)
Lemma onBookingCreated_try_free rt env w booking cur bookingId d t start lockId :
  date booking = Some d →
  time booking = Some t →
  bookings w !! bookingId = Some cur →
  slot_loop (query_docs d t w) bookingId = true →
  parseBookingDateTime rt d t = Some start →
  Z.abs (start + 60 * 60 * 1000) ≤ 8640000000000000 →
  RESOURCE_MAPPING_at (js_or_else (resourceId booking) "prayer_room")
    = Some lockId →
  onBookingCreated_try rt env booking bookingId w
  = match undefined_field (confirmation_notice rt env booking start) with
    | None =>
        (confirmed_world rt env w booking cur bookingId start lockId,
         Fulfilled (SuccessWith (credentialId (issued_inlet env))))
    | Some path =>
        (credential_written rt env w booking cur bookingId start lockId,
         Rejected (Firestore_undefined_field path))
    end.
Proof.
  intros Hd Ht Hcur Hfree Hstart Hrange Hmap.
  unfold onBookingCreated_try, validateSlotFree, queueConfirmationEmail,
    call_parseBookingDateTime, date_toISOString, one_hour_later, new_Date.
  rewrite Hd, Ht. async_unfold. rewrite Hfree. simpl.
  rewrite Hstart. simpl. rewrite decide_True by done.
  rewrite (createInletCredential_mapped _ _ _ lockId) by done.
  unfold doc_update. simpl. rewrite Hcur. simpl.
  unfold mail_add, confirmation_notice, confirmed_world, credential_written.
  simpl. by destruct (undefined_field _).
Qed.

(** With the record in the store, the [try] block rejects before it has
    changed anything, or at the mail queue, when the credential is created
    and written into the record. *)
Lemma onBookingCreated_try_rejects rt env booking cur bookingId w w1 msg :
  bookings w !! bookingId = Some cur →
  onBookingCreated_try rt env booking bookingId w = (w1, Rejected msg) →
  w1 = w
  ∨ ∃ start lockId,
      w1 = credential_written rt env w booking cur bookingId start lockId.
Proof.
  intros Hcur.
  destruct (date booking) as [d|] eqn:Hd;
    [|unfold onBookingCreated_try, validateSlotFree; rewrite Hd;
      intros [= <- _]; by left].
  destruct (time booking) as [t|] eqn:Ht;
    [|unfold onBookingCreated_try, validateSlotFree; rewrite Hd, Ht;
      intros [= <- _]; by left].
  destruct (slot_loop (query_docs d t w) bookingId) eqn:Hfree.
  2:{ unfold onBookingCreated_try, validateSlotFree. rewrite Hd, Ht.
      async_unfold. rewrite Hfree. simpl.
      rewrite (doc_update_Some _ _ _ _ Hcur). discriminate. }
  destruct (parseBookingDateTime rt d t) as [start|] eqn:Hstart.
  2:{ unfold onBookingCreated_try, validateSlotFree, call_parseBookingDateTime,
        date_toISOString.
      rewrite Hd, Ht. async_unfold. rewrite Hfree. simpl. rewrite Hstart.
      intros [= <- _]. by left. }
  destruct (decide (Z.abs (start + 60 * 60 * 1000) ≤ 8640000000000000))
    as [Hrange|Hrange].
  2:{ unfold onBookingCreated_try, validateSlotFree, call_parseBookingDateTime,
        date_toISOString, one_hour_later, new_Date.
      rewrite Hd, Ht. async_unfold. rewrite Hfree. simpl. rewrite Hstart.
      simpl. rewrite decide_False by done. intros [= <- _]. by left. }
  destruct (RESOURCE_MAPPING_at (js_or_else (resourceId booking) "prayer_room"))
    as [lockId|] eqn:Hmap.
  2:{ unfold onBookingCreated_try, validateSlotFree, call_parseBookingDateTime,
        date_toISOString, one_hour_later, new_Date.
      rewrite Hd, Ht. async_unfold. rewrite Hfree. simpl. rewrite Hstart.
      simpl. rewrite decide_True by done.
      rewrite createInletCredential_unmapped by done.
      intros [= <- _]. by left. }
  rewrite (onBookingCreated_try_free rt env w booking cur bookingId d t start
             lockId) by done.
  destruct (undefined_field _); [|discriminate].
  intros [= <- _]. right. by exists start, lockId.
Qed.

(** C4. When the processing of a pending booking throws (the credential
    gateway has no lock for the resource, the date or time is missing or
    invalid, the mail queue refuses the confirmation mail, ...), the handler
    catches the error: the record ends with [status = 'error'] and [error]
    holding the message, the handler returns [{success: false, error}], and
    no mail is queued. The other fields of the record are as they were when
    the error was thrown: as before, with no call made at the gateway, or,
    when it is the mail queue that refuses, with the credential that the one
    create call has issued. *)
Theorem create_failure_is_contained
    (rt : JsRuntime) (env : ServerEnv) (w w1 : World)
    (booking cur : Booking) (bookingId msg : string) :
  status booking = Some "pending" →
  bookings w !! bookingId = Some cur →
  onBookingCreated_try rt env booking bookingId w = (w1, Rejected msg) →
  ∃ w' b,
    onBookingCreated rt env booking bookingId w = (w', Fulfilled (Failed msg))
    ∧ bookings w' = <[bookingId := b]> (bookings w)
    ∧ status b = Some "error"
    ∧ error b = Some msg
    ∧ mail w' = mail w
    ∧ ((b = set_status_error "error" msg cur ∧ gateway w' = gateway w)
       ∨ (∃ lockId request,
            b = set_status_error "error" msg
                  (set_confirmed (issued_inlet env) cur)
            ∧ gateway w' = gateway w ++ [CreateCredential lockId request])).
Proof.
  intros Hpending Hcur Htry.
  unfold onBookingCreated.
  destruct (decide (status booking ≠ Some "pending")); [done|].
  unfold try_catch. rewrite Htry.
  destruct (onBookingCreated_try_rejects rt env booking cur bookingId w w1 msg
              Hcur Htry) as [->|(start & lockId & ->)]; async_unfold.
  - rewrite (doc_update_Some _ _ _ _ Hcur).
    do 2 eexists. split; [reflexivity|]. simpl. repeat (split; [done|]).
    by left.
  - unfold doc_update, credential_written. simpl. rewrite lookup_insert_eq.
    do 2 eexists. split; [reflexivity|]. simpl.
    split; [by rewrite insert_insert_eq|]. repeat (split; [done|]).
    right. by do 2 eexists.
Qed.

(** C5. A pending booking created for a slot that another confirmed or
    pending booking holds is marked [status = 'conflict'] with
    [error = "Time slot is no longer available"], its other fields staying as
    they are; the handler returns [null], makes no gateway call and queues no
    mail. *)
Theorem conflict_on_taken_slot
    (rt : JsRuntime) (env : ServerEnv) (w : World)
    (booking cur : Booking) (bookingId d t : string) :
  status booking = Some "pending" →
  date booking = Some d →
  time booking = Some t →
  bookings w !! bookingId = Some cur →
  slot_taken w d t bookingId →
  ∃ b,
    onBookingCreated rt env booking bookingId w
    = ({| bookings := <[bookingId := b]> (bookings w);
          mail := mail w;
          gateway := gateway w |},
       Fulfilled Null)
    ∧ status b = Some "conflict"
    ∧ error b = Some "Time slot is no longer available"
    ∧ b = set_status_error "conflict" "Time slot is no longer available" cur.
Proof.
  intros Hpending Hd Ht Hcur Htaken.
  apply slot_loop_query in Htaken.
  unfold onBookingCreated, onBookingCreated_try, validateSlotFree.
  destruct (decide (status booking ≠ Some "pending")); [done|].
  rewrite Hd, Ht. async_unfold. rewrite Htaken. simpl.
  rewrite (doc_update_Some _ _ _ _ Hcur).
  eexists. split; [reflexivity|]. done.
Qed.

(** ** Outcomes of the create handler *)

Lemma onBookingCreated_skips rt env booking bookingId w :
  status booking ≠ Some "pending" →
  onBookingCreated rt env booking bookingId w = (w, Fulfilled Null).
Proof. intros Hst. unfold onBookingCreated. by rewrite decide_True. Qed.

Lemma onBookingCreated_error rt env w booking cur bookingId msg :
  status booking = Some "pending" →
  bookings w !! bookingId = Some cur →
  onBookingCreated_try rt env booking bookingId w = (w, Rejected msg) →
  onBookingCreated rt env booking bookingId w
  = (with_bookings (<[bookingId := set_status_error "error" msg cur]> (bookings w)) w,
     Fulfilled (Failed msg)).
Proof.
  intros Hpending Hcur Htry. unfold onBookingCreated.
  destruct (decide (status booking ≠ Some "pending")); [done|].
  unfold try_catch. rewrite Htry. async_unfold.
  by rewrite (doc_update_Some _ _ _ _ Hcur).
Qed.

Lemma onBookingCreated_conflict rt env w booking cur bookingId d t :
  status booking = Some "pending" →
  date booking = Some d →
  time booking = Some t →
  bookings w !! bookingId = Some cur →
  slot_loop (query_docs d t w) bookingId = false →
  onBookingCreated rt env booking bookingId w
  = (with_bookings
       (<[bookingId :=
            set_status_error "conflict" "Time slot is no longer available" cur]>
          (bookings w)) w,
     Fulfilled Null).
Proof.
  intros Hpending Hd Ht Hcur Htaken.
  unfold onBookingCreated, onBookingCreated_try, validateSlotFree.
  destruct (decide (status booking ≠ Some "pending")); [done|].
  rewrite Hd, Ht. async_unfold. rewrite Htaken. simpl.
  by rewrite (doc_update_Some _ _ _ _ Hcur).
Qed.

(** The run of the create handler on a free slot, for a valid window and a
    resource that has a lock. *)
Lemma onBookingCreated_free rt env w booking cur bookingId d t start lockId :
  status booking = Some "pending" →
  date booking = Some d →
  time booking = Some t →
  bookings w !! bookingId = Some cur →
  slot_loop (query_docs d t w) bookingId = true →
  parseBookingDateTime rt d t = Some start →
  Z.abs (start + 60 * 60 * 1000) ≤ 8640000000000000 →
  RESOURCE_MAPPING_at (js_or_else (resourceId booking) "prayer_room")
    = Some lockId →
  onBookingCreated rt env booking bookingId w
  = match undefined_field (confirmation_notice rt env booking start) with
    | None =>
        (confirmed_world rt env w booking cur bookingId start lockId,
         Fulfilled (SuccessWith (credentialId (issued_inlet env))))
    | Some path =>
        (unmailed_world rt env w booking cur bookingId start lockId path,
         Fulfilled (Failed (Firestore_undefined_field path)))
    end.
Proof.
  intros Hpending Hd Ht Hcur Hfree Hstart Hrange Hmap.
  unfold onBookingCreated.
  destruct (decide (status booking ≠ Some "pending")); [done|].
  unfold try_catch.
  rewrite (onBookingCreated_try_free rt env w booking cur bookingId d t start
             lockId) by done.
  destruct (undefined_field _) as [path|]; [|done].
  async_unfold. unfold doc_update, credential_written, unmailed_world. simpl.
  rewrite lookup_insert_eq. simpl. by rewrite insert_insert_eq.
Qed.

(** Every run of the create handler on a pending booking whose record is in
    the store, with what it returns. *)
Lemma onBookingCreated_result rt env w booking cur bookingId :
  status booking = Some "pending" →
  bookings w !! bookingId = Some cur →
  (∃ d t,
     date booking = Some d ∧ time booking = Some t
     ∧ slot_taken w d t bookingId
     ∧ onBookingCreated rt env booking bookingId w
       = (with_bookings
            (<[bookingId :=
                 set_status_error "conflict" "Time slot is no longer available"
                   cur]> (bookings w)) w,
          Fulfilled Null))
  ∨ (∃ msg,
       create_error rt w booking bookingId msg
       ∧ onBookingCreated rt env booking bookingId w
         = (with_bookings
              (<[bookingId := set_status_error "error" msg cur]> (bookings w)) w,
            Fulfilled (Failed msg)))
  ∨ (∃ d t start lockId path,
       date booking = Some d ∧ time booking = Some t
       ∧ ¬ slot_taken w d t bookingId
       ∧ create_error rt w booking bookingId (Firestore_undefined_field path)
       ∧ onBookingCreated rt env booking bookingId w
         = (unmailed_world rt env w booking cur bookingId start lockId path,
            Fulfilled (Failed (Firestore_undefined_field path))))
  ∨ (∃ d t start lockId,
       date booking = Some d ∧ time booking = Some t
       ∧ ¬ slot_taken w d t bookingId
       ∧ parseBookingDateTime rt d t = Some start
       ∧ Z.abs (start + 60 * 60 * 1000) ≤ 8640000000000000
       ∧ RESOURCE_MAPPING_at (js_or_else (resourceId booking) "prayer_room")
         = Some lockId
       ∧ undefined_field (confirmation_notice rt env booking start) = None
       ∧ onBookingCreated rt env booking bookingId w
         = (confirmed_world rt env w booking cur bookingId start lockId,
            Fulfilled (SuccessWith (credentialId (issued_inlet env))))).
Proof.
  intros Hpending Hcur.
  assert (∀ msg,
    create_error rt w booking bookingId msg →
    onBookingCreated_try rt env booking bookingId w = (w, Rejected msg) →
    ∃ msg,
      create_error rt w booking bookingId msg
      ∧ onBookingCreated rt env booking bookingId w
        = (with_bookings
             (<[bookingId := set_status_error "error" msg cur]> (bookings w)) w,
           Fulfilled (Failed msg))) as Herror.
  { intros msg Hwhy Htry. exists msg. split; [done|].
    by apply onBookingCreated_error. }
  destruct (date booking) as [d|] eqn:Hd.
  2:{ right; left. apply (Herror Firestore_undefined).
      - left. split; [done|]. by left.
      - unfold onBookingCreated_try, validateSlotFree. by rewrite Hd. }
  destruct (time booking) as [t|] eqn:Ht.
  2:{ right; left. apply (Herror Firestore_undefined).
      - left. split; [done|]. by right.
      - unfold onBookingCreated_try, validateSlotFree. by rewrite Hd, Ht. }
  destruct (slot_loop (query_docs d t w) bookingId) eqn:Hfree.
  2:{ left. exists d, t. split; [done|]. split; [done|].
      split; [by apply slot_loop_query|].
      by apply (onBookingCreated_conflict rt env w booking cur bookingId d t). }
  assert (¬ slot_taken w d t bookingId) as Hnot_taken.
  { intros Htaken. apply slot_loop_query in Htaken. congruence. }
  right.
  destruct (one_hour_later (parseBookingDateTime rt d t)) as [stop|] eqn:Hlater.
  2:{ left. apply (Herror RangeError_time).
      - right. exists d, t. repeat (split; [done|]). left. by split.
      - unfold onBookingCreated_try, validateSlotFree,
          call_parseBookingDateTime, date_toISOString.
        rewrite Hd, Ht. async_unfold. rewrite Hfree. simpl. rewrite Hlater.
        by destruct (parseBookingDateTime rt d t). }
  destruct (one_hour_later_Some _ _ _ _ Hlater) as (start & Hstart & Hstop & ->).
  assert (Z.abs (start + 60 * 60 * 1000) ≤ 8640000000000000) as Hrange.
  { unfold new_Date in Hstop. by destruct (decide _). }
  destruct (RESOURCE_MAPPING_at (js_or_else (resourceId booking) "prayer_room"))
    as [lockId|] eqn:Hmap.
  - right.
    pose proof (onBookingCreated_free rt env w booking cur bookingId d t start
                  lockId Hpending Hd Ht Hcur Hfree Hstart Hrange Hmap) as Hrun.
    destruct (undefined_field (confirmation_notice rt env booking start))
      as [path|] eqn:Hmail.
    + left. exists d, t, start, lockId, path. repeat (split; [done|]).
      split; [|done].
      right. exists d, t. repeat (split; [done|]). right; right.
      exists path. split; [done|]. split; [by rewrite Hlater|].
      split; [apply RESOURCE_MAPPING_at_has_lock; by eexists|].
      by apply confirmation_mail_refused in Hmail.
    + right. exists d, t, start, lockId. by repeat (split; [done|]).
  - left.
    apply (Herror ("No INLET lock mapping for resource: "
                   +:+ js_or_else (resourceId booking) "prayer_room")).
    + right. exists d, t. repeat (split; [done|]). right; left.
      split; [done|]. split; [by rewrite Hlater|].
      intros [lockId Hlock]%RESOURCE_MAPPING_at_has_lock. congruence.
    + unfold onBookingCreated_try, validateSlotFree,
        call_parseBookingDateTime, date_toISOString.
      rewrite Hd, Ht. async_unfold. rewrite Hfree. simpl.
      rewrite Hlater, Hstart. simpl.
      by rewrite createInletCredential_unmapped.
Qed.

Lemma onBookingCreated_outcome rt env w booking cur bookingId :
  bookings w !! bookingId = Some cur →
  created_outcome env w booking cur bookingId
    (onBookingCreated rt env booking bookingId w).1.
Proof.
  intros Hcur.
  destruct (decide (status booking = Some "pending")) as [Hpending|Hother];
    [|rewrite onBookingCreated_skips by done; by constructor].
  destruct (onBookingCreated_result rt env w booking cur bookingId Hpending Hcur)
    as [(d & t & Hd & Ht & Htaken & ->)
       |[(msg & _ & ->)
        |[(d & t & start & lockId & path & Hd & Ht & Hfree & _ & ->)
         |(d & t & start & lockId & Hd & Ht & Hfree & _ & _ & _ & _ & ->)]]];
    simpl.
  - by eapply outcome_conflict.
  - constructor.
  - by eapply outcome_unmailed.
  - by eapply outcome_confirmed.
Qed.

(** ** The update and delete handlers *)

Lemma handleBookingCancellation_eq bookingId booking w :
  handleBookingCancellation bookingId booking w
  = match undefined_field (cancellation_mail booking) with
    | None =>
        ({| bookings := bookings w;
            mail := mail w ++ [cancellation_mail booking];
            gateway := gateway w ++ revocations booking |},
         Fulfilled Success)
    | Some path =>
        ({| bookings := bookings w;
            mail := mail w;
            gateway := gateway w ++ revocations booking |},
         Rejected (Firestore_undefined_field path))
    end.
Proof.
  unfold handleBookingCancellation, queueCancellationEmail, revocations, mail_add.
  destruct (inlet_credentialId booking); async_unfold; simpl;
    destruct (undefined_field _); simpl; rewrite ?app_nil_r; try done.
  by destruct w.
Qed.

(** Whether or not the mail is accepted, a cancellation writes no record and
    makes the revoke call. *)
Lemma handleBookingCancellation_world bookingId booking w :
  bookings (handleBookingCancellation bookingId booking w).1 = bookings w
  ∧ gateway (handleBookingCancellation bookingId booking w).1
    = gateway w ++ revocations booking.
Proof.
  rewrite handleBookingCancellation_eq. by destruct (undefined_field _).
Qed.

Lemma onBookingDeleted_eq booking bookingId w :
  onBookingDeleted booking bookingId w
  = ({| bookings := bookings w; mail := mail w;
        gateway := gateway w ++ revocations booking |},
     Fulfilled Null).
Proof.
  unfold onBookingDeleted, revocations.
  destruct (inlet_credentialId booking); async_unfold; simpl; [done|].
  rewrite app_nil_r. by destruct w.
Qed.

(** The update handler writes nothing, or the [inlet] field of the record. *)
Lemma onBookingUpdated_bookings rt env before after bookingId w cur :
  bookings w !! bookingId = Some cur →
  bookings (onBookingUpdated rt env before after bookingId w).1 = bookings w
  ∨ ∃ i,
      bookings (onBookingUpdated rt env before after bookingId w).1
      = <[bookingId := set_inlet i cur]> (bookings w).
Proof.
  intros Hcur. unfold onBookingUpdated.
  destruct (decide (status after = Some "cancelled"
                    ∧ status before ≠ Some "cancelled")).
  { left. apply handleBookingCancellation_world. }
  destruct (decide (date before ≠ date after ∨ time before ≠ time after));
    [|by left].
  unfold handleTimeChange, queueUpdateEmail, call_parseBookingDateTime,
    date_toISOString, one_hour_later, createInletCredential, mail_add.
  async_unfold. unfold doc_update.
  destruct (inlet_credentialId before); [|by left]. simpl.
  destruct (date after), (time after); simpl; try by left.
  destruct (parseBookingDateTime rt _ _); simpl; [|by left].
  destruct (new_Date _); simpl; [|by left].
  destruct (RESOURCE_MAPPING_at _) as [lockId|]; simpl; [|by left].
  destruct (truthy lockId); simpl; [|by left].
  rewrite Hcur. simpl. right. eexists.
  destruct (undefined_field _); reflexivity.
Qed.

(** The writes of the handlers themselves trigger [onBookingUpdated], which
    then does nothing. *)
Lemma own_writes_do_not_cascade rt env b bookingId w st msg i :
  st ≠ "cancelled" →
  onBookingUpdated rt env b (set_status_error st msg b) bookingId w
    = (w, Fulfilled Null)
  ∧ onBookingUpdated rt env b (set_confirmed i b) bookingId w
    = (w, Fulfilled Null)
  ∧ onBookingUpdated rt env b (set_inlet i b) bookingId w
    = (w, Fulfilled Null).
Proof.
  intros Hst. unfold onBookingUpdated.
  assert (∀ after : Booking,
            status after ≠ Some "cancelled" ∨ status after = status b →
            date after = date b → time after = time b →
            (if decide (status after = Some "cancelled"
                        ∧ status b ≠ Some "cancelled")
             then handleBookingCancellation bookingId b
             else if decide (date b ≠ date after ∨ time b ≠ time after)
             then handleTimeChange rt env bookingId b after
             else mret Null) w = (w, Fulfilled Null)) as Hquiet.
  { intros after Hstatus Hd Ht.
    rewrite decide_False by (intros [? ?]; destruct Hstatus; congruence).
    by rewrite decide_False by (intros [?|?]; congruence). }
  repeat split; apply Hquiet; try done.
  - left. simpl. congruence.
  - by left.
  - by right.
Qed.

(** C7 (amended). When an update makes [status] cancelled and it was not
    cancelled before, the handler revokes the credential of the previous
    record if it has one, creates no credential and does not touch the
    record; it does so whether or not the same update also changes [date] or
    [time], so the reschedule path does not run. It then queues exactly one
    [booking-cancellation] mail and returns [{success: true}], provided the
    previous record has somebody to write to, a name, a date and a time;
    otherwise the mail queue refuses the item, the handler rejects with the
    client's message and no mail is queued. *)
Theorem cancellation_takes_precedence
    (rt : JsRuntime) (env : ServerEnv) (w : World)
    (before after : Booking) (bookingId : string) :
  status after = Some "cancelled" →
  status before ≠ Some "cancelled" →
  ∃ w' result,
    onBookingUpdated rt env before after bookingId w = (w', result)
    ∧ bookings w' = bookings w
    ∧ gateway w' =
        gateway w ++
        match inlet_credentialId before with
        | Some cid => [RevokeCredential cid]
        | None => []
        end
    ∧ match js_or (email before) (hostEmail before),
            js_or (name before) (hostName before), date before, time before with
      | Some recipient, Some userName, Some d, Some t =>
          result = Fulfilled Success
          ∧ mail w' =
              mail w ++
              [{| to := Some recipient;
                  template :=
                    booking_cancellation (Some userName) (Some d) (Some t) |}]
      | _, _, _, _ =>
          (∃ path, result = Rejected (Firestore_undefined_field path))
          ∧ mail w' = mail w
      end.
Proof.
  intros Hafter Hbefore. unfold onBookingUpdated.
  rewrite decide_True by done. rewrite handleBookingCancellation_eq.
  unfold undefined_field, cancellation_mail, revocations. simpl.
  destruct (js_or (email before) (hostEmail before)),
    (js_or (name before) (hostName before)), (date before), (time before);
    do 2 eexists; (split; [reflexivity|]); simpl;
    repeat (split; [done|]); try done; split; try done; by eexists.
Qed.

(** C6 (amended). For an update that changes [date] or [time] and is not a
    cancellation: if the previous record has no credential, the handler
    changes nothing; if it has one, and the new date and time parse to a valid
    one-hour window, the resource of the new record has a lock and the record
    is in the store, the handler makes exactly one revoke call for the old
    credential and one create call for the new window, and puts the new
    credential in the place of the old one in the record. It then queues one
    [booking-update] mail and returns [{success: true}], provided the new
    record has somebody to write to and a name; otherwise the mail queue
    refuses the item and the handler rejects, the credential replaced and no
    mail queued. *)
Theorem reschedule_replaces_credential
    (rt : JsRuntime) (env : ServerEnv) (w : World)
    (before after : Booking) (bookingId : string) :
  ¬ (status after = Some "cancelled" ∧ status before ≠ Some "cancelled") →
  date before ≠ date after ∨ time before ≠ time after →
  (inlet_credentialId before = None →
   onBookingUpdated rt env before after bookingId w = (w, Fulfilled Success))
  ∧ (∀ oldId cur d t start lockId,
       inlet_credentialId before = Some oldId →
       bookings w !! bookingId = Some cur →
       date after = Some d →
       time after = Some t →
       parseBookingDateTime rt d t = Some start →
       Z.abs (start + 60 * 60 * 1000) ≤ 8640000000000000 →
       RESOURCE_MAPPING_at (js_or_else (resourceId after) "prayer_room")
         = Some lockId →
       ∃ w' result,
         onBookingUpdated rt env before after bookingId w = (w', result)
         ∧ reissued rt env w w' bookingId oldId after cur start lockId
         ∧ match js_or (email after) (hostEmail after),
                 js_or (name after) (hostName after) with
           | Some recipient, Some userName =>
               result = Fulfilled Success
               ∧ mail w' = mail w ++ [update_notice rt env after start]
               ∧ to (update_notice rt env after start) = Some recipient
           | _, _ =>
               (∃ path, result = Rejected (Firestore_undefined_field path))
               ∧ mail w' = mail w
           end).
Proof.
  intros Hnot_cancel Hmoved. unfold onBookingUpdated.
  rewrite decide_False by done. rewrite decide_True by done.
  unfold handleTimeChange. split.
  - intros ->. by async_unfold.
  - intros oldId cur d t start lockId -> Hcur Hd Ht Hstart Hrange Hmap.
    unfold queueUpdateEmail, call_parseBookingDateTime, date_toISOString,
      one_hour_later, new_Date.
    rewrite Hd, Ht. async_unfold. simpl. rewrite Hstart. simpl.
    rewrite decide_True by done.
    rewrite (createInletCredential_mapped _ _ _ lockId) by done.
    unfold doc_update. simpl. rewrite Hcur. simpl.
    unfold mail_add, undefined_field, update_notice, update_mail, reissued.
    simpl.
    destruct (js_or (email after) (hostEmail after)),
      (js_or (name after) (hostName after)); simpl;
      do 2 eexists; (split; [reflexivity|]); simpl;
      (split; [split; [by rewrite <- app_assoc|by eexists]|]);
      try done; split; try done; by eexists.
Qed.

(** ** No double booking *)

Lemma held_by_other_false w bookingId b :
  held_by_other w bookingId b = false →
  ∀ id2 b2,
    id2 ≠ bookingId → bookings w !! id2 = Some b2 → active b2 →
    slot_of b2 ≠ slot_of b.
Proof.
  unfold held_by_other. intros Hnone id2 b2 Hne H2 Hact Hslot.
  apply not_true_iff_false in Hnone. apply Hnone.
  apply existsb_exists. exists (id2, b2). split.
  - by apply list_elem_of_In, elem_of_map_to_list.
  - unfold is_active. simpl.
    rewrite !andb_true_iff, orb_true_iff, !bool_decide_eq_true. done.
Qed.

Lemma no_double_booking_insert w w' bookingId b :
  no_double_booking w →
  bookings w' = <[bookingId := b]> (bookings w) →
  (active b → ∀ id2 b2, id2 ≠ bookingId → bookings w !! id2 = Some b2 →
     active b2 → slot_of b2 ≠ slot_of b) →
  no_double_booking w'.
Proof.
  intros Hinv Hw' Hnew id1 id2 b1 b2 H1 H2 Ha1 Ha2 Hslot.
  rewrite Hw' in H1, H2.
  destruct (decide (id1 = id2)) as [|Hne]; [done|]. exfalso.
  apply lookup_insert_Some in H1 as [[<- <-]|[Hne1 H1]];
    apply lookup_insert_Some in H2 as [[<- <-]|[Hne2 H2]]; try done.
  - by eapply (Hnew Ha1 id2 b2).
  - by eapply (Hnew Ha2 id1 b1).
  - by apply Hne, (Hinv id1 id2 b1 b2).
Qed.

Lemma no_double_booking_delete w w' bookingId :
  no_double_booking w →
  bookings w' = delete bookingId (bookings w) →
  no_double_booking w'.
Proof.
  intros Hinv Hw' id1 id2 b1 b2 H1 H2. rewrite Hw' in H1, H2.
  apply lookup_delete_Some in H1 as [_ H1].
  apply lookup_delete_Some in H2 as [_ H2]. by apply Hinv.
Qed.

Lemma set_status_error_inactive st msg b :
  st ≠ "confirmed" → st ≠ "pending" → ¬ active (set_status_error st msg b).
Proof. intros ?? [[=]|[=]]; done. Qed.

(** What the create handler leaves active, it has found on a free slot. *)
Lemma created_active_on_free_slot rt env w bookingId doc b :
  bookings w !! bookingId = None →
  status doc = Some "pending" →
  bookings (deliver rt env (Created bookingId doc) w) !! bookingId = Some b →
  active b →
  ∃ d t,
    date doc = Some d ∧ time doc = Some t
    ∧ status b = Some "confirmed"
    ∧ ¬ slot_taken w d t bookingId.
Proof.
  intros Hfresh Hpending Hb Hact. simpl in Hb. rewrite Hfresh in Hb.
  pose proof (onBookingCreated_outcome rt env
    (with_bookings (<[bookingId := doc]> (bookings w)) w) doc doc bookingId)
    as Hout.
  simpl in Hout. rewrite lookup_insert_eq in Hout. specialize (Hout eq_refl).
  inversion Hout as [Hst Heq|d t Hd Ht Htaken Heq|msg Heq
                    |d t i item lockId request Hd Ht Hcode Hfree Heq
                    |d t i path lockId request Hd Ht Hcode Hfree Heq];
    try done; rewrite <- Heq in Hb; simpl in Hb;
    rewrite lookup_insert_eq in Hb; injection Hb as <-;
    try (by apply set_status_error_inactive in Hact).
  exists d, t. repeat (split; [done|]).
  intros (id2 & b2 & H2 & Hd2 & Ht2 & Ha2 & Hne). apply Hfree.
  exists id2, b2. simpl. by rewrite lookup_insert_ne.
Qed.

Lemma deliver_preserves rt env ev w :
  admissible w ev →
  no_double_booking w →
  no_double_booking (deliver rt env ev w).
Proof.
  intros Hadm Hinv. destruct ev as [bookingId doc|bookingId after|bookingId];
    simpl in *.
  - destruct (bookings w !! bookingId) as [|] eqn:Hfresh; [done|].
    pose proof (onBookingCreated_outcome rt env
      (with_bookings (<[bookingId := doc]> (bookings w)) w) doc doc bookingId)
      as Hout.
    simpl in Hout. rewrite lookup_insert_eq in Hout. specialize (Hout eq_refl).
    inversion Hout as [Hst Heq|d t Hd Ht Htaken Heq|msg Heq
                      |d t i item lockId request Hd Ht Hcode Hfree Heq
                      |d t i path lockId request Hd Ht Hcode Hfree Heq];
      try rewrite <- Heq;
      (eapply no_double_booking_insert;
       [done | simpl; by rewrite ?insert_insert_eq |]).
    + intros [Hconfirmed|?]; [|done].
      by apply held_by_other_false, Hadm.
    + intros Hact. by apply set_status_error_inactive in Hact.
    + intros Hact. by apply set_status_error_inactive in Hact.
    + intros _ id2 b2 Hne H2 Ha2 [= _ Hd2 Ht2]. apply Hfree.
      exists id2, b2. simpl. rewrite lookup_insert_ne by done.
      repeat split; congruence.
    + intros Hact. by apply set_status_error_inactive in Hact.
  - destruct (bookings w !! bookingId) as [before|] eqn:Hbefore; [|done].
    destruct (onBookingUpdated_bookings rt env before after bookingId
                (with_bookings (<[bookingId := after]> (bookings w)) w) after)
      as [Heq|[i Heq]]; [simpl; by rewrite lookup_insert_eq|..].
    + eapply no_double_booking_insert; [done|by rewrite Heq|].
      intros Hact. by apply held_by_other_false, Hadm.
    + eapply no_double_booking_insert;
        [done|rewrite Heq; simpl; by rewrite insert_insert_eq|].
      intros Hact. by apply (held_by_other_false w bookingId after), Hadm.
  - destruct (bookings w !! bookingId) as [before|] eqn:Hbefore; [|done].
    eapply no_double_booking_delete; [done|].
    by rewrite onBookingDeleted_eq.
Qed.

(** C1 (amended). In every state reached from the empty store by delivering,
    one after the other, writes none of which by itself puts an active
    booking on a slot that another active booking holds (a booking created
    already confirmed, or an update that leaves the booking pending or
    confirmed, goes to a slot without another holder; pending creations,
    updates to an inactive status and deletions are unrestricted), at most
    one booking with status pending or confirmed occupies a given
    (resourceId, date, time). A booking created as pending on such a state is
    active after its handler has run only if it is confirmed and no other
    pending or confirmed booking has its date and time. *)
Theorem managed_no_double_booking (rt : JsRuntime) (w : World) :
  managed rt w →
  no_double_booking w
  ∧ ∀ env bookingId doc b,
      bookings w !! bookingId = None →
      status doc = Some "pending" →
      bookings (deliver rt env (Created bookingId doc) w) !! bookingId = Some b →
      active b →
      ∃ d t,
        date doc = Some d ∧ time doc = Some t
        ∧ status b = Some "confirmed"
        ∧ ¬ slot_taken w d t bookingId.
Proof.
  intros Hmanaged. split.
  - induction Hmanaged as [|w env ev _ IH Hadm].
    + intros id1 id2 b1 b2 H1. simpl in H1. by rewrite lookup_empty in H1.
    + by apply deliver_preserves.
  - intros env bookingId doc b. apply created_active_on_free_slot.
Qed.

(** ** Credential lifecycle *)

Lemma gateway_not_extended (l : list GatewayCall) c : l ≠ l ++ [c].
Proof.
  intros Heq. apply (f_equal length) in Heq.
  rewrite length_app in Heq. simpl in Heq. lia.
Qed.

(** C2 (amended). When the status of a booking becomes cancelled, or the
    booking is deleted, [revokeInletCredential] is called exactly once with
    the credential id the record had, and not at all if it had none. After a
    deletion the record is gone; after a cancellation the record is as the
    cancelling write left it, for the handler does not write to it. The
    create handler gives a record that had no credential one exactly when its
    one create call at the gateway has succeeded; the record is then
    confirmed, with one mail queued, or, when the mail queue has refused the
    confirmation mail, has the status error, with no mail queued and the
    credential left in the record. *)
Theorem credential_follows_lifecycle
    (rt : JsRuntime) (env : ServerEnv) (w : World)
    (bookingId : string) (before : Booking) :
  bookings w !! bookingId = Some before →
  let revoked :=
    match inlet_credentialId before with
    | Some cid => [RevokeCredential cid]
    | None => []
    end in
  (∀ after,
     status after = Some "cancelled" → status before ≠ Some "cancelled" →
     let w' := deliver rt env (Updated bookingId after) w in
     gateway w' = gateway w ++ revoked
     ∧ bookings w' = <[bookingId := after]> (bookings w))
  ∧ (let w' := deliver rt env (Deleted bookingId) w in
     gateway w' = gateway w ++ revoked
     ∧ bookings w' = delete bookingId (bookings w))
  ∧ (∀ newId doc,
       bookings w !! newId = None → inlet doc = None →
       let w' := deliver rt env (Created newId doc) w in
       ∃ b, bookings w' !! newId = Some b
            ∧ (is_Some (inlet b)
               ↔ ∃ lockId request,
                   gateway w' = gateway w ++ [CreateCredential lockId request])
            ∧ (inlet b = None → gateway w' = gateway w ∧ mail w' = mail w)
            ∧ (is_Some (inlet b) →
               inlet b = Some (issued_inlet env)
               ∧ ((status b = Some "confirmed"
                   ∧ ∃ item, mail w' = mail w ++ [item])
                  ∨ (status b = Some "error" ∧ mail w' = mail w)))
            ∧ (status doc = Some "pending" → status b = Some "confirmed" →
               is_Some (inlet b))).
Proof.
  intros Hbefore revoked. split; [|split].
  - intros after Hafter Hnot w'. subst w'. simpl. rewrite Hbefore.
    unfold onBookingUpdated. rewrite decide_True by done.
    destruct (handleBookingCancellation_world bookingId before
                (with_bookings (<[bookingId := after]> (bookings w)) w))
      as [Hb Hg].
    by rewrite Hb, Hg.
  - simpl. rewrite Hbefore. by rewrite onBookingDeleted_eq.
  - intros newId doc Hfresh Hinlet. simpl. rewrite Hfresh.
    destruct (decide (status doc = Some "pending")) as [Hpending|Hother].
    2:{ rewrite onBookingCreated_skips by done. simpl.
        rewrite lookup_insert_eq. eexists. split; [done|]. rewrite Hinlet.
        split; [|split; [done|split; [by intros [? [=]]|done]]].
        split; [by intros [? [=]]|].
        intros (lockId & request & Hgw). by apply gateway_not_extended in Hgw. }
    destruct (onBookingCreated_result rt env
                (with_bookings (<[newId := doc]> (bookings w)) w) doc doc newId
                Hpending) as
      [(d & t & _ & _ & _ & ->)
      |[(msg & _ & ->)
       |[(d & t & start & lockId & path & _ & _ & _ & _ & ->)
        |(d & t & start & lockId & _ & _ & _ & _ & _ & _ & _ & ->)]]];
      [simpl; by rewrite lookup_insert_eq|..]; simpl;
      rewrite lookup_insert_eq; (eexists; split; [done|]); simpl;
      rewrite ?Hinlet.
    + split; [|split; [done|split; [by intros [? [=]]|done]]].
      split; [by intros [? [=]]|].
      intros (lockId & request & Hgw). by apply gateway_not_extended in Hgw.
    + split; [|split; [done|split; [by intros [? [=]]|done]]].
      split; [by intros [? [=]]|].
      intros (lockId & request & Hgw). by apply gateway_not_extended in Hgw.
    + split; [|split; [done|split; [|done]]].
      * split; [intros _; by do 2 eexists|by eexists].
      * intros _. split; [done|]. by right.
    + split; [|split; [done|split; [|by eexists]]].
      * split; [intros _; by do 2 eexists|by eexists].
      * intros _. split; [done|]. left. split; [done|]. by eexists.
Qed.

(** ** The booking form *)

Lemma handleBookingSubmit_saved cenv form c w c' w' bookingId doc shown :
  handleBookingSubmit cenv form c w
    = (c', w', SavedToFirestore bookingId doc shown) →
  ∃ slot,
    selectedSlot c = Some slot
    ∧ doc = (if is_class_booking form then class_firestoreBooking slot form
             else regular_firestoreBooking slot form)
    ∧ (if is_class_booking form
       then class_name form ≠ "" ∧ host_name form ≠ ""
       else booking_name form ≠ "")
    ∧ w' = with_bookings (<[bookingId := doc]> (bookings w)) w
    ∧ shown = generateAccessCode cenv.
Proof.
  unfold handleBookingSubmit.
  destruct (selectedSlot c) as [slot|]; [|done].
  destruct (is_class_booking form).
  - destruct (decide (class_name form = "" ∨ host_name form = "")) as [|Hne];
      [done|].
    destruct (firebaseReady cenv); [|done].
    destruct (addDoc_id cenv); [|done].
    intros [= <- <- <- <- <-]. exists slot. repeat split; try done.
    + intros ?. apply Hne. by left.
    + intros ?. apply Hne. by right.
  - destruct (decide (booking_name form = "")); [done|].
    destruct (firebaseReady cenv); [|done].
    destruct (addDoc_id cenv); [|done].
    intros [= <- <- <- <- <-]. by exists slot.
Qed.

(** C3 (amended). The record that the booking form writes to the store has no
    [status] field, for an individual booking and for a class alike, so the
    create handler's pending check skips every form-created booking: it
    returns [null] and changes neither the record, the mail queue nor the
    gateway log. *)
Theorem form_booking_is_not_processed
    (rt : JsRuntime) (env : ServerEnv) (cenv : ClientEnv) (form : BookingForm)
    (c c' : Client) (w w' : World) (bookingId shown : string) (doc : Booking) :
  handleBookingSubmit cenv form c w
    = (c', w', SavedToFirestore bookingId doc shown) →
  bookings w' !! bookingId = Some doc
  ∧ status doc = None
  ∧ onBookingCreated rt env doc bookingId w' = (w', Fulfilled Null).
Proof.
  intros Hsubmit.
  apply handleBookingSubmit_saved in Hsubmit
    as (slot & _ & Hdoc & _ & -> & _).
  assert (status doc = None) as Hst
    by (rewrite Hdoc; by destruct (is_class_booking form)).
  split; [simpl; by rewrite lookup_insert_eq|]. split; [done|].
  apply onBookingCreated_skips. by rewrite Hst.
Qed.

(** C10. For an individual booking submitted while the store is available,
    the document written to the store has exactly the fields [date], [time],
    [name] and [isClass = false]: the email, the phone and the access code stay
    in the page. The code shown to the user is the page's own draw
    [1000 + client_random9000]; the create handler leaves the written record
    as it is, and a code that the create handler writes into a record is the
    server's draw [1000 + random9000]. *)
Theorem individual_booking_document
    (cenv : ClientEnv) (form : BookingForm) (c : Client) (w : World)
    (slot : Slot) (firestoreId : string) :
  selectedSlot c = Some slot →
  is_class_booking form = false →
  booking_name form ≠ "" →
  firebaseReady cenv = true →
  addDoc_id cenv = Some firestoreId →
  let doc :=
    {| date := Some (slot_date slot); time := Some (slot_time slot);
       status := None; resourceId := None; name := Some (booking_name form);
       email := None; phone := None; isClass := Some false;
       className := None; hostName := None; hostEmail := None;
       maxParticipants := None; participants := None; participantCount := None;
       inlet := None; error := None; accessCode := None; createdAt := None |} in
  let w' := with_bookings (<[firestoreId := doc]> (bookings w)) w in
  (∃ c',
     handleBookingSubmit cenv form c w
     = (c', w', SavedToFirestore firestoreId doc
                  (pretty (1000 + client_random9000 cenv))))
  ∧ (∀ rt env, onBookingCreated rt env doc firestoreId w' = (w', Fulfilled Null))
  ∧ (∀ rt env w0 booking cur bookingId b i,
       bookings w0 !! bookingId = Some cur → inlet cur = None →
       bookings (onBookingCreated rt env booking bookingId w0).1 !! bookingId
         = Some b →
       inlet b = Some i →
       code i = pretty (1000 + random9000 env)).
Proof.
  intros Hslot Hclass Hname Hready Hadd doc w'. split; [|split].
  - unfold handleBookingSubmit.
    rewrite Hslot, Hclass, Hready, Hadd, decide_False by done.
    by eexists.
  - intros rt env. by apply onBookingCreated_skips.
  - intros rt env w0 booking cur bookingId b i Hcur Hnone Hb Hi.
    pose proof (onBookingCreated_outcome rt env w0 booking cur bookingId Hcur)
      as Hout.
    inversion Hout as [Hst Heq|d t Hd Ht Htaken Heq|msg Heq
                      |d t i' item lockId request Hd Ht Hcode Hfree Heq
                      |d t i' path lockId request Hd Ht Hcode Hfree Heq];
      rewrite <- Heq in Hb; simpl in Hb;
      try (rewrite lookup_insert_eq in Hb; injection Hb as <-; simpl in Hi);
      try congruence.
Qed.

(** ** Classes *)

Lemma find_synced (m : gmap string Booking) bookingId b :
  m !! bookingId = Some b →
  List.find (λ e, bool_decide (e.1 = bookingId)) (map_to_list m)
  = Some (bookingId, b).
Proof.
  intros Hb.
  destruct (List.find _ _) as [[k v]|] eqn:Hfind.
  - apply find_some in Hfind as [Hin Hk].
    apply bool_decide_eq_true in Hk. simpl in Hk. subst k.
    apply list_elem_of_In, elem_of_map_to_list in Hin. congruence.
  - apply elem_of_map_to_list, list_elem_of_In in Hb.
    eapply find_none in Hfind; [|done].
    by apply bool_decide_eq_false in Hfind.
Qed.

(** Once the snapshot listener has run, the page's copy of a booking is the
    record of the store. *)
Lemma cached_copy_onSnapshot w c bookingId b :
  bookings w !! bookingId = Some b →
  cached_copy (onSnapshot w c) bookingId = Some b.
Proof.
  intros Hb. unfold cached_copy. simpl. by rewrite (find_synced _ _ _ Hb).
Qed.

(** A join is decided by the page's copy of the class, and what it writes is
    computed from that copy. *)
Lemma handleJoinClass_cached cenv bookingId joinName c w cached cur :
  cached_copy c bookingId = Some cached →
  bookings w !! bookingId = Some cur →
  isClass cached = Some true →
  firebaseReady cenv = true →
  joinName ≠ "" → bookingId ≠ "" →
  handleJoinClass cenv bookingId joinName c w
  = if class_is_full cached then (w, JoinError "Class is full")
    else
      (with_bookings
         (<[bookingId :=
              set_participants (default [] (participants cached) ++ [joinName])
                (Z.of_nat
                   (length (default [] (participants cached) ++ [joinName])))
                cur]>
            (bookings w)) w,
       Joined).
Proof.
  intros Hcached Hcur Hclass Hready Hname Hid.
  unfold handleJoinClass, cached_copy in *.
  rewrite decide_False by (intros [?|?]; done).
  rewrite Hready.
  destruct (List.find _ _) as [[k found]|]; [|done].
  simpl in Hcached. injection Hcached as ->.
  rewrite decide_True by done.
  destruct (class_is_full cached); [done|].
  by rewrite (doc_update_Some _ _ _ _ Hcur).
Qed.

Lemma handleJoinClass_synced cenv bookingId joinName c w b :
  bookings w !! bookingId = Some b →
  isClass b = Some true →
  firebaseReady cenv = true →
  joinName ≠ "" → bookingId ≠ "" →
  handleJoinClass cenv bookingId joinName (onSnapshot w c) w
  = if class_is_full b then (w, JoinError "Class is full")
    else
      (with_bookings
         (<[bookingId :=
              set_participants (default [] (participants b) ++ [joinName])
                (Z.of_nat (length (default [] (participants b) ++ [joinName])))
                b]>
            (bookings w)) w,
       Joined).
Proof.
  intros Hb Hclass Hready Hname Hid.
  by apply handleJoinClass_cached; [apply cached_copy_onSnapshot|..].
Qed.

Lemma handleJoinClass_Joined cenv bookingId joinName c w w' :
  handleJoinClass cenv bookingId joinName c w = (w', Joined) →
  firebaseReady cenv = true ∧ joinName ≠ "" ∧ bookingId ≠ "".
Proof.
  unfold handleJoinClass.
  destruct (decide (joinName = "" ∨ bookingId = "")) as [|Hne]; [done|].
  destruct (firebaseReady cenv); [|done]. intros _.
  split; [done|]. split; intros ?; apply Hne; [by left|by right].
Qed.

Lemma class_record_counts origin b :
  class_record origin b →
  ∃ ps n m,
    class_counts b ps n m ∧ maxParticipants origin = Some m.
Proof.
  induction 1 as [cenv form c w c' w' bookingId shown Hclass Hsubmit
                 |cached cur b' cenv bookingId joinName c w w'
                    _ IHcached _ IHcur Hcached Hcur Hjoin Hb'].
  - apply handleBookingSubmit_saved in Hsubmit as (slot & _ & -> & _).
    rewrite Hclass. exists [host_name form], 1, (or_8 (max_participants form)).
    unfold class_counts. simpl. repeat split; done.
  - destruct IHcached
      as (ps0 & n0 & m0 & (Hc0 & Hps0 & Hn0 & Hm0 & Hlen0 & _) & Horigin0).
    destruct IHcur
      as (ps & n & m & (Hc & Hps & Hn & Hm & Hlen & Hcap) & Horigin).
    assert (m0 = m) as -> by congruence.
    destruct (handleJoinClass_Joined _ _ _ _ _ _ Hjoin)
      as (Hready & Hname & Hid).
    rewrite (handleJoinClass_cached cenv bookingId joinName c w cached cur)
      in Hjoin by done.
    destruct (class_is_full cached) eqn:Hfull; [done|].
    injection Hjoin as <-. simpl in Hb'. rewrite lookup_insert_eq in Hb'.
    injection Hb' as <-.
    unfold class_is_full in Hfull. rewrite Hn0, Hm0 in Hfull.
    apply bool_decide_eq_false in Hfull.
    rewrite Hps0. simpl.
    exists (ps0 ++ [joinName]), (Z.of_nat (length (ps0 ++ [joinName]))), m.
    split; [|done].
    unfold class_counts. simpl. repeat split; try done.
    rewrite length_app. simpl. lia.
Qed.

(** C9 (amended). For every state of a class made by the booking form and by
    joins, whether made on a page whose copy of the class is the record of the
    store or on a page with an older copy: [participantCount] equals the
    length of [participants], and it does not exceed [maxParticipants] when
    that capacity is at least one. A join is decided by the page's copy of the
    class and computed from it: at or above capacity in the copy, it fails
    with "Class is full" and leaves the store as it is; below capacity, it
    writes the list of the copy followed by the joining name, and the length
    of that list. So on a page whose copy is the record of the store, as it
    is once the snapshot listener has run, a join at capacity fails, and a
    join below capacity appends exactly the joining name to [participants]
    and adds exactly one to [participantCount]. *)
Theorem class_capacity (origin b : Booking) :
  class_record origin b →
  ∃ ps n m,
    participants b = Some ps
    ∧ participantCount b = Some n
    ∧ maxParticipants b = Some m
    ∧ n = Z.of_nat (length ps)
    ∧ (1 ≤ m → n ≤ m)
    ∧ ∀ cenv bookingId joinName c w,
        bookings w !! bookingId = Some b →
        firebaseReady cenv = true →
        joinName ≠ "" → bookingId ≠ "" →
        (∀ cached ps0 n0,
           cached_copy c bookingId = Some cached →
           class_record origin cached →
           participants cached = Some ps0 →
           participantCount cached = Some n0 →
           (m ≤ n0 →
            handleJoinClass cenv bookingId joinName c w
            = (w, JoinError "Class is full"))
           ∧ (n0 < m →
              ∃ b',
                handleJoinClass cenv bookingId joinName c w
                = (with_bookings (<[bookingId := b']> (bookings w)) w, Joined)
                ∧ participants b' = Some (ps0 ++ [joinName])
                ∧ participantCount b' = Some (n0 + 1)
                ∧ b' = set_participants (ps0 ++ [joinName]) (n0 + 1) b))
        ∧ cached_copy (onSnapshot w c) bookingId = Some b
        ∧ (cached_copy c bookingId = Some b →
           (m ≤ n →
            handleJoinClass cenv bookingId joinName c w
            = (w, JoinError "Class is full"))
           ∧ (n < m →
              ∃ b',
                handleJoinClass cenv bookingId joinName c w
                = (with_bookings (<[bookingId := b']> (bookings w)) w, Joined)
                ∧ participants b' = Some (ps ++ [joinName])
                ∧ participantCount b' = Some (n + 1)
                ∧ b' = set_participants (ps ++ [joinName]) (n + 1) b)).
Proof.
  intros Hrec.
  destruct (class_record_counts origin b Hrec)
    as (ps & n & m & (Hc & Hps & Hn & Hm & Hlen & Hcap) & Horigin).
  exists ps, n, m. repeat (split; [done|]).
  intros cenv bookingId joinName c w Hb Hready Hname Hid.
  assert (∀ cached ps0 n0,
            cached_copy c bookingId = Some cached →
            class_record origin cached →
            participants cached = Some ps0 →
            participantCount cached = Some n0 →
            (m ≤ n0 →
             handleJoinClass cenv bookingId joinName c w
             = (w, JoinError "Class is full"))
            ∧ (n0 < m →
               ∃ b',
                 handleJoinClass cenv bookingId joinName c w
                 = (with_bookings (<[bookingId := b']> (bookings w)) w, Joined)
                 ∧ participants b' = Some (ps0 ++ [joinName])
                 ∧ participantCount b' = Some (n0 + 1)
                 ∧ b' = set_participants (ps0 ++ [joinName]) (n0 + 1) b))
    as Hjoin.
  { intros cached ps0 n0 Hcached Hrec0 Hps0 Hn0.
    destruct (class_record_counts origin cached Hrec0)
      as (ps0' & n0' & m0 & (Hc0 & Hps0' & Hn0' & Hm0 & Hlen0 & _) & Horigin0).
    assert (m0 = m) as -> by congruence.
    assert (ps0' = ps0) as -> by congruence.
    assert (n0' = n0) as -> by congruence.
    rewrite (handleJoinClass_cached cenv bookingId joinName c w cached b)
      by done.
    unfold class_is_full. rewrite Hn0, Hm0, Hps0. simpl. split; intros Hcmp.
    - by rewrite bool_decide_eq_true_2.
    - rewrite bool_decide_eq_false_2 by lia.
      rewrite length_app. simpl.
      replace (Z.of_nat (length ps0 + 1)) with (n0 + 1) by lia.
      eexists. split; [reflexivity|]. done. }
  split; [exact Hjoin|]. split; [by apply cached_copy_onSnapshot|].
  intros Hcached. by apply (Hjoin b ps n).
Qed.

(** * Scenarios *)

(** Alice's booking on a free slot: confirmed, with one create call for
    14:00 to 15:00 and one confirmation mail. *)
Lemma ex_w1_confirmed :
  bookings ex_w1 = {[ "a" := ex_alice_confirmed ]}
  ∧ gateway ex_w1
    = [CreateCredential (own_lock "YOUR_INLET_LOCK_ID")
         {| req_resourceId := "prayer_room";
            req_startTime := "2026-01-16T14:00:00.000Z";
            req_endTime := "2026-01-16T15:00:00.000Z";
            req_userName := Some "Alice";
            req_userEmail := Some "a@x.com" |}]
  ∧ mail ex_w1
    = [{| to := Some "a@x.com";
          template :=
            booking_confirmation (Some "Alice") "Friday, 16 January 2026"
              "14:00" "1234" "Individual Booking" |}].
Proof. repeat split; vm_compute; reflexivity. Qed.

(** Bob's booking for the same slot: conflict, nothing else changes. *)
Lemma ex_w2_conflict :
  bookings ex_w2 !! "b"
  = Some (set_status_error "conflict" "Time slot is no longer available" ex_bob14)
  ∧ gateway ex_w2 = gateway ex_w1
  ∧ mail ex_w2 = mail ex_w1.
Proof. repeat split; vm_compute; reflexivity. Qed.

(** The window of a booking moved to 15:00. *)
Lemma ex_window_15 :
  parseBookingDateTime Utc.runtime "2026-01-16" "15:00" = Some 1768575600000
  ∧ Utc.toISOString 1768575600000 = "2026-01-16T15:00:00.000Z"
  ∧ Utc.toISOString (1768575600000 + 60 * 60 * 1000) = "2026-01-16T16:00:00.000Z".
Proof. repeat split; vm_compute; reflexivity. Qed.

(** C1, instance: Alice is confirmed for 14:00, Bob is refused for the same
    slot, and Alice's booking is then moved to 15:00, which nobody holds. *)
Lemma managed_no_double_booking_witness :
  managed Utc.runtime ex_w6
  ∧ bookings ex_w6 !! "a" = Some (set_inlet ex_inlet3 ex_alice_15)
  ∧ no_double_booking ex_w6.
Proof.
  assert (managed Utc.runtime ex_w6) as Hmanaged.
  { unfold ex_w6, ex_w2, ex_w1.
    apply managed_deliver;
      [apply managed_deliver; [apply managed_deliver; [apply managed_empty|]|]|];
      simpl; try discriminate.
    intros _. vm_compute. reflexivity. }
  split; [exact Hmanaged|]. split; [vm_compute; reflexivity|].
  exact (proj1 (managed_no_double_booking Utc.runtime ex_w6 Hmanaged)).
Defined.

(** C1, counterexample to the claim as stated: Alice is confirmed for 14:00,
    Bob for 15:00; Bob's booking is then updated to 14:00, a write onto a slot
    that Alice holds. The update handler reissues his credential without an
    availability check, and both bookings are confirmed for the prayer room
    on 2026-01-16 at 14:00. *)
Lemma double_booking_by_reschedule :
  reachable Utc.runtime ex_w4
  ∧ held_by_other ex_w3 "b" (ex_move "14:00" None ex_bob_confirmed) = true
  ∧ ¬ no_double_booking ex_w4.
Proof.
  split; [|split; [vm_compute; reflexivity|]].
  - exists [(ex_env1, Created "a" ex_alice); (ex_env2, Created "b" ex_bob15);
            (ex_env3, Updated "b" (ex_move "14:00" None ex_bob_confirmed))].
    reflexivity.
  - intros Hinv.
    assert ("a" = "b") as Heq; [|discriminate Heq].
    apply (Hinv "a" "b" ex_alice_confirmed
             (set_inlet ex_inlet3 (ex_move "14:00" None ex_bob_confirmed)));
      try (vm_compute; reflexivity); left; reflexivity.
Qed.

(** C2, instance: Alice's confirmed booking is cancelled, or deleted, or a
    further booking is created. *)
Lemma credential_follows_lifecycle_witness :
  bookings ex_w1 !! "a" = Some ex_alice_confirmed
  ∧ gateway ex_w5
    = gateway ex_w1 ++ [RevokeCredential "inlet_cred_1768000000000"]
  ∧ gateway (deliver Utc.runtime ex_env2 (Deleted "a") ex_w1)
    = gateway ex_w1 ++ [RevokeCredential "inlet_cred_1768000000000"]
  ∧ bookings (deliver Utc.runtime ex_env2 (Deleted "a") ex_w1)
    = delete "a" (bookings ex_w1)
  ∧ ∃ b, bookings ex_w3 !! "b" = Some b
         ∧ (is_Some (inlet b)
            ↔ ∃ lockId request,
                gateway ex_w3
                = gateway ex_w1 ++ [CreateCredential lockId request]).
Proof.
  assert (bookings ex_w1 !! "a" = Some ex_alice_confirmed) as Hbefore
    by (vm_compute; reflexivity).
  destruct (credential_follows_lifecycle Utc.runtime ex_env2 ex_w1 "a"
              ex_alice_confirmed Hbefore) as (Hcancel & Hdelete & Hcreate).
  split; [exact Hbefore|].
  split.
  { refine (proj1 (Hcancel (set_status "cancelled" ex_alice_confirmed) _ _));
      [reflexivity | discriminate]. }
  split; [exact (proj1 Hdelete)|].
  split; [exact (proj2 Hdelete)|].
  assert (bookings ex_w1 !! "b" = None) as Hfresh by (vm_compute; reflexivity).
  destruct (Hcreate "b" ex_bob15 Hfresh eq_refl) as (b & Hb & Hiff & _).
  exists b. split; [exact Hb | exact Hiff].
Defined.

(** C2, counterexample to the claim as stated: Alice's confirmed booking is
    cancelled. The handler revokes the credential at the gateway and leaves
    the record alone, so the record is cancelled and still has its [inlet]
    sub-record. *)
Lemma credential_kept_after_cancellation :
  reachable Utc.runtime ex_w5
  ∧ bookings ex_w5 !! "a" = Some (set_status "cancelled" ex_alice_confirmed)
  ∧ ¬ credential_iff_confirmed ex_w5.
Proof.
  assert (bookings ex_w5 !! "a" = Some (set_status "cancelled" ex_alice_confirmed))
    as Hlookup by (vm_compute; reflexivity).
  split; [|split; [exact Hlookup|]].
  - exists [(ex_env1, Created "a" ex_alice);
            (ex_env2, Updated "a" (set_status "cancelled" ex_alice_confirmed))].
    reflexivity.
  - intros Hiff. destruct (Hiff _ _ Hlookup) as [Hconfirmed _].
    assert (is_Some (inlet (set_status "cancelled" ex_alice_confirmed))) as Hsome
      by (by exists ex_inlet1).
    specialize (Hconfirmed Hsome). discriminate Hconfirmed.
Qed.

(** C3, instance: Alice submits the form. *)
Lemma form_booking_is_not_processed_witness :
  handleBookingSubmit ex_page ex_form ex_client empty_world
  = ({| selectedSlot := selectedSlot ex_client; bookedSlots := [];
        myBookings :=
          [{| my_id := "doc1"; my_date := "2026-01-16"; my_time := "14:00";
              my_name := Some "Alice"; my_isClass := false |}] |},
     with_bookings (<["doc1" := ex_form_doc]> ∅) empty_world,
     SavedToFirestore "doc1" ex_form_doc "5678")
  ∧ status ex_form_doc = None
  ∧ onBookingCreated Utc.runtime ex_env1 ex_form_doc "doc1"
      (with_bookings (<["doc1" := ex_form_doc]> ∅) empty_world)
    = (with_bookings (<["doc1" := ex_form_doc]> ∅) empty_world, Fulfilled Null).
Proof.
  assert (handleBookingSubmit ex_page ex_form ex_client empty_world
          = ({| selectedSlot := selectedSlot ex_client; bookedSlots := [];
                myBookings :=
                  [{| my_id := "doc1"; my_date := "2026-01-16";
                      my_time := "14:00"; my_name := Some "Alice";
                      my_isClass := false |}] |},
             with_bookings (<["doc1" := ex_form_doc]> ∅) empty_world,
             SavedToFirestore "doc1" ex_form_doc "5678")) as Hsubmit
    by (vm_compute; reflexivity).
  split; [exact Hsubmit|].
  exact (proj2 (form_booking_is_not_processed Utc.runtime ex_env1 ex_page
                  ex_form ex_client _ empty_world _ "doc1" "5678" ex_form_doc
                  Hsubmit)).
Defined.

(** C3, counterexample to the claim as stated: the document the form writes
    for Alice has no [status]; it is neither pending nor confirmed, and the
    create handler skips it. *)
Lemma form_booking_is_not_pending :
  (handleBookingSubmit ex_page ex_form ex_client empty_world).2
  = SavedToFirestore "doc1" ex_form_doc "5678"
  ∧ ¬ (status ex_form_doc = Some "pending"
       ∨ status ex_form_doc = Some "confirmed")
  ∧ onBookingCreated Utc.runtime ex_env1 ex_form_doc "doc1"
      (handleBookingSubmit ex_page ex_form ex_client empty_world).1.2
    = ((handleBookingSubmit ex_page ex_form ex_client empty_world).1.2,
       Fulfilled Null).
Proof.
  split; [vm_compute; reflexivity|]. split.
  - intros [H|H]; discriminate H.
  - vm_compute. reflexivity.
Qed.

(** C4, instance: Eve's pending booking names nobody to write to. The
    credential is created and written, the mail queue refuses the
    confirmation mail, and the record ends as failed, with the credential. *)
Lemma create_failure_is_contained_witness :
  status ex_eve = Some "pending"
  ∧ bookings (ex_store "e" ex_eve) !! "e" = Some ex_eve
  ∧ onBookingCreated_try Utc.runtime ex_env2 ex_eve "e" (ex_store "e" ex_eve)
    = (credential_written Utc.runtime ex_env2 (ex_store "e" ex_eve) ex_eve
         ex_eve "e" 1768579200000 (own_lock "YOUR_INLET_LOCK_ID"),
       Rejected (Firestore_undefined_field "to"))
  ∧ ∃ w' b,
      onBookingCreated Utc.runtime ex_env2 ex_eve "e" (ex_store "e" ex_eve)
      = (w', Fulfilled (Failed (Firestore_undefined_field "to")))
      ∧ bookings w' = <["e" := b]> (bookings (ex_store "e" ex_eve))
      ∧ status b = Some "error"
      ∧ error b = Some (Firestore_undefined_field "to")
      ∧ mail w' = mail (ex_store "e" ex_eve).
Proof.
  assert (bookings (ex_store "e" ex_eve) !! "e" = Some ex_eve) as Hcur
    by (vm_compute; reflexivity).
  assert (onBookingCreated_try Utc.runtime ex_env2 ex_eve "e"
            (ex_store "e" ex_eve)
          = (credential_written Utc.runtime ex_env2 (ex_store "e" ex_eve) ex_eve
               ex_eve "e" 1768579200000 (own_lock "YOUR_INLET_LOCK_ID"),
             Rejected (Firestore_undefined_field "to"))) as Htry
    by (vm_compute; reflexivity).
  split; [reflexivity|]. split; [exact Hcur|]. split; [exact Htry|].
  destruct (create_failure_is_contained Utc.runtime ex_env2 _ _ ex_eve ex_eve
              "e" _ eq_refl Hcur Htry)
    as (w' & b & Hrun & Hbookings & Hstatus & Herror & Hmail & _).
  exists w', b. repeat split; assumption.
Defined.

(** Carol's pending booking names a resource without a lock: the record
    ends as failed and nothing has reached the gateway. Frank's names a
    resource that the mapping object inherits, and is confirmed. *)
Lemma ex_carol_and_frank :
  onBookingCreated Utc.runtime ex_env2 ex_carol "c" (ex_store "c" ex_carol)
  = (with_bookings
       (<["c" := set_status_error "error"
                   "No INLET lock mapping for resource: chapel" ex_carol]>
          (bookings (ex_store "c" ex_carol))) (ex_store "c" ex_carol),
     Fulfilled (Failed "No INLET lock mapping for resource: chapel"))
  ∧ onBookingCreated Utc.runtime ex_env2 ex_frank "f" (ex_store "f" ex_frank)
    = (confirmed_world Utc.runtime ex_env2 (ex_store "f" ex_frank) ex_frank
         ex_frank "f" 1768582800000 (inherited "constructor"),
       Fulfilled (SuccessWith "inlet_cred_1768000005000")).
Proof. split; vm_compute; reflexivity. Qed.

(** C5, instance: Bob's pending booking for the slot Alice holds. *)
Lemma conflict_on_taken_slot_witness :
  status ex_bob14 = Some "pending"
  ∧ date ex_bob14 = Some "2026-01-16"
  ∧ time ex_bob14 = Some "14:00"
  ∧ bookings (ex_store "b" ex_bob14) !! "b" = Some ex_bob14
  ∧ slot_taken (ex_store "b" ex_bob14) "2026-01-16" "14:00" "b"
  ∧ ∃ b,
      onBookingCreated Utc.runtime ex_env2 ex_bob14 "b" (ex_store "b" ex_bob14)
      = ({| bookings := <["b" := b]> (bookings (ex_store "b" ex_bob14));
            mail := mail (ex_store "b" ex_bob14);
            gateway := gateway (ex_store "b" ex_bob14) |},
         Fulfilled Null)
      ∧ status b = Some "conflict"
      ∧ error b = Some "Time slot is no longer available"
      ∧ b = set_status_error "conflict" "Time slot is no longer available"
              ex_bob14.
Proof.
  assert (bookings (ex_store "b" ex_bob14) !! "b" = Some ex_bob14) as Hcur
    by (vm_compute; reflexivity).
  assert (slot_taken (ex_store "b" ex_bob14) "2026-01-16" "14:00" "b") as Htaken.
  { exists "a", ex_alice_confirmed.
    split; [vm_compute; reflexivity|].
    split; [reflexivity|]. split; [reflexivity|].
    split; [left; reflexivity | discriminate]. }
  split; [reflexivity|]. split; [reflexivity|]. split; [reflexivity|].
  split; [exact Hcur|]. split; [exact Htaken|].
  exact (conflict_on_taken_slot Utc.runtime ex_env2 _ ex_bob14 ex_bob14 "b"
           "2026-01-16" "14:00" eq_refl eq_refl eq_refl Hcur Htaken).
Defined.

(** C6, instance: Alice's confirmed booking is moved from 14:00 to 15:00. *)
Lemma reschedule_replaces_credential_witness :
  ¬ (status ex_alice_15 = Some "cancelled"
     ∧ status ex_alice_confirmed ≠ Some "cancelled")
  ∧ (date ex_alice_confirmed ≠ date ex_alice_15
     ∨ time ex_alice_confirmed ≠ time ex_alice_15)
  ∧ (∃ w' result,
       onBookingUpdated Utc.runtime ex_env2 ex_alice_confirmed ex_alice_15 "a"
         (ex_store "a" ex_alice_15)
       = (w', result)
       ∧ reissued Utc.runtime ex_env2 (ex_store "a" ex_alice_15) w' "a"
           "inlet_cred_1768000000000" ex_alice_15 ex_alice_15 1768575600000
           (own_lock "YOUR_INLET_LOCK_ID")
       ∧ result = Fulfilled Success
       ∧ mail w'
         = mail (ex_store "a" ex_alice_15)
           ++ [update_notice Utc.runtime ex_env2 ex_alice_15 1768575600000]
       ∧ to (update_notice Utc.runtime ex_env2 ex_alice_15 1768575600000)
         = Some "a@x.com").
Proof.
  assert (¬ (status ex_alice_15 = Some "cancelled"
             ∧ status ex_alice_confirmed ≠ Some "cancelled")) as Hnot
    by (intros [H _]; discriminate H).
  assert (date ex_alice_confirmed ≠ date ex_alice_15
          ∨ time ex_alice_confirmed ≠ time ex_alice_15) as Hmoved
    by (right; discriminate).
  split; [exact Hnot|]. split; [exact Hmoved|].
  refine (proj2 (reschedule_replaces_credential Utc.runtime ex_env2
                   (ex_store "a" ex_alice_15) ex_alice_confirmed ex_alice_15 "a"
                   Hnot Hmoved)
            "inlet_cred_1768000000000" ex_alice_15 "2026-01-16" "15:00"
            1768575600000 (own_lock "YOUR_INLET_LOCK_ID") _ _ _ _ _ _ _);
    try (vm_compute; reflexivity).
  vm_compute. discriminate.
Defined.

(** C6, counterexample to the claim as stated: Alice's confirmed booking is
    moved to 15:00 and to the resource "chapel", which has no lock mapping.
    The handler revokes the old credential, then [createInletCredential]
    throws: the handler rejects, the record keeps the revoked credential and
    no mail is queued. *)
Lemma reschedule_to_unmapped_resource :
  onBookingUpdated Utc.runtime ex_env2 ex_alice_confirmed ex_alice_chapel "a"
    (ex_store "a" ex_alice_chapel)
  = ({| bookings := bookings (ex_store "a" ex_alice_chapel);
        mail := mail (ex_store "a" ex_alice_chapel);
        gateway :=
          gateway (ex_store "a" ex_alice_chapel)
          ++ [RevokeCredential "inlet_cred_1768000000000"] |},
     Rejected "No INLET lock mapping for resource: chapel")
  ∧ ¬ (∃ w' result cur start lockId,
         onBookingUpdated Utc.runtime ex_env2 ex_alice_confirmed
           ex_alice_chapel "a" (ex_store "a" ex_alice_chapel)
         = (w', result)
         ∧ reissued Utc.runtime ex_env2 (ex_store "a" ex_alice_chapel) w' "a"
             "inlet_cred_1768000000000" ex_alice_chapel cur start lockId).
Proof.
  assert (onBookingUpdated Utc.runtime ex_env2 ex_alice_confirmed
            ex_alice_chapel "a" (ex_store "a" ex_alice_chapel)
          = ({| bookings := bookings (ex_store "a" ex_alice_chapel);
                mail := mail (ex_store "a" ex_alice_chapel);
                gateway :=
                  gateway (ex_store "a" ex_alice_chapel)
                  ++ [RevokeCredential "inlet_cred_1768000000000"] |},
             Rejected "No INLET lock mapping for resource: chapel")) as Hrun
    by (vm_compute; reflexivity).
  split; [exact Hrun|].
  intros (w' & result & cur & start & lockId & Hok & Hgw & _).
  rewrite Hrun in Hok.
  assert (gateway w'
          = gateway (ex_store "a" ex_alice_chapel)
            ++ [RevokeCredential "inlet_cred_1768000000000"]) as Hw'
    by (by injection Hok as <- _).
  rewrite Hw' in Hgw. apply app_inv_head in Hgw. discriminate Hgw.
Qed.

(** C7, instance: one write cancels Alice's confirmed booking and moves it to
    15:00. *)
Lemma cancellation_takes_precedence_witness :
  status ex_alice_cancelled_15 = Some "cancelled"
  ∧ status ex_alice_confirmed ≠ Some "cancelled"
  ∧ time ex_alice_cancelled_15 ≠ time ex_alice_confirmed
  ∧ onBookingUpdated Utc.runtime ex_env2 ex_alice_confirmed
      ex_alice_cancelled_15 "a" (ex_store "a" ex_alice_cancelled_15)
    = ({| bookings := bookings (ex_store "a" ex_alice_cancelled_15);
          mail :=
            mail (ex_store "a" ex_alice_cancelled_15)
            ++ [{| to := Some "a@x.com";
                   template :=
                     booking_cancellation (Some "Alice") (Some "2026-01-16")
                       (Some "14:00") |}];
          gateway :=
            gateway (ex_store "a" ex_alice_cancelled_15)
            ++ [RevokeCredential "inlet_cred_1768000000000"] |},
       Fulfilled Success).
Proof.
  assert (status ex_alice_confirmed ≠ Some "cancelled") as Hbefore
    by discriminate.
  split; [reflexivity|]. split; [exact Hbefore|]. split; [discriminate|].
  destruct (cancellation_takes_precedence Utc.runtime ex_env2
              (ex_store "a" ex_alice_cancelled_15) ex_alice_confirmed
              ex_alice_cancelled_15 "a" eq_refl Hbefore)
    as (w' & result & Hrun & Hbookings & Hgateway & Hresult & Hmail).
  rewrite Hrun, Hresult. f_equal.
  destruct w' as [bs ms gs]. simpl in *. by rewrite Hbookings, Hgateway, Hmail.
Defined.

(** C7, counterexample to the claim as stated: the document that the booking
    form has written for Alice, which has no email, is cancelled. The mail
    queue refuses the mail for its field [to], the handler rejects, and no
    [booking-cancellation] mail is queued. *)
Lemma cancellation_without_recipient :
  (handleBookingSubmit ex_page ex_form ex_client empty_world).2
  = SavedToFirestore "doc1" ex_form_doc "5678"
  ∧ status (set_status "cancelled" ex_form_doc) = Some "cancelled"
  ∧ status ex_form_doc ≠ Some "cancelled"
  ∧ onBookingUpdated Utc.runtime ex_env2 ex_form_doc
      (set_status "cancelled" ex_form_doc) "doc1"
      (ex_form_store (set_status "cancelled" ex_form_doc))
    = (ex_form_store (set_status "cancelled" ex_form_doc),
       Rejected (Firestore_undefined_field "to"))
  ∧ ¬ (∃ w' item,
         onBookingUpdated Utc.runtime ex_env2 ex_form_doc
           (set_status "cancelled" ex_form_doc) "doc1"
           (ex_form_store (set_status "cancelled" ex_form_doc))
         = (w', Fulfilled Success)
         ∧ mail w'
           = mail (ex_form_store (set_status "cancelled" ex_form_doc)) ++ [item]).
Proof.
  assert (onBookingUpdated Utc.runtime ex_env2 ex_form_doc
            (set_status "cancelled" ex_form_doc) "doc1"
            (ex_form_store (set_status "cancelled" ex_form_doc))
          = (ex_form_store (set_status "cancelled" ex_form_doc),
             Rejected (Firestore_undefined_field "to"))) as Hrun
    by (vm_compute; reflexivity).
  split; [vm_compute; reflexivity|]. split; [reflexivity|].
  split; [discriminate|]. split; [exact Hrun|].
  intros (w' & item & Hok & _). rewrite Hrun in Hok. discriminate Hok.
Qed.

(** C9, instance: Hana creates a class with the capacity field left empty
    (capacity 8) and Imran joins it, on a page that the snapshot listener has
    brought up to date. *)
Lemma class_capacity_witness :
  class_record (ex_class_doc 8) ex_class_joined
  ∧ ∃ ps n m,
      participants ex_class_joined = Some ps
      ∧ participantCount ex_class_joined = Some n
      ∧ maxParticipants ex_class_joined = Some m
      ∧ n = Z.of_nat (length ps)
      ∧ (1 ≤ m → n ≤ m).
Proof.
  assert (class_record (ex_class_doc 8) (ex_class_doc 8)) as Hcreated.
  { refine (class_created _ ex_page (ex_class_form None) ex_client empty_world
              _ _ "doc1" "5678" eq_refl _).
    vm_compute. reflexivity. }
  assert (class_record (ex_class_doc 8) ex_class_joined) as Hjoined.
  { refine (class_joined _ (ex_class_doc 8) (ex_class_doc 8) _ ex_page "doc1"
              "Imran" (onSnapshot (ex_form_store (ex_class_doc 8)) ex_client)
              (ex_form_store (ex_class_doc 8)) _ Hcreated Hcreated _ _ _ _);
      vm_compute; reflexivity. }
  split; [exact Hjoined|].
  destruct (class_capacity _ _ Hjoined)
    as (ps & n & m & Hps & Hn & Hm & Hlen & Hcap & _).
  by exists ps, n, m.
Defined.

(** C9, counterexamples to the claim as stated. Hana creates a class with -1
    in the capacity field: [parseInt(...) || 8] keeps -1, and the class is
    stored with [participantCount = 1] above [maxParticipants = -1]. And Hana
    creates a class for two, which a page loads; Imran joins on another page,
    so the class is full in the store; Lee then joins on the first page, whose
    copy still has one participant: the join succeeds on the full class, and
    the list of the store is overwritten with Hana and Lee. *)
Lemma class_above_capacity_and_stale_join :
  (class_record (ex_class_doc (-1)) (ex_class_doc (-1))
   ∧ participantCount (ex_class_doc (-1)) = Some 1
   ∧ maxParticipants (ex_class_doc (-1)) = Some (-1)
   ∧ ¬ (∀ n m,
          participantCount (ex_class_doc (-1)) = Some n →
          maxParticipants (ex_class_doc (-1)) = Some m → n ≤ m))
  ∧ (class_record (ex_class_doc 2) ex_class_full
     ∧ participantCount ex_class_full = maxParticipants ex_class_full
     ∧ handleJoinClass ex_page "doc1" "Lee" ex_page_stale
         (ex_form_store ex_class_full)
       = (ex_form_store ex_class_overwritten, Joined)
     ∧ participants ex_class_overwritten = Some ["Hana"; "Lee"]).
Proof.
  assert (∀ capacity,
            class_record (ex_class_doc (or_8 capacity))
              (ex_class_doc (or_8 capacity))) as Hcreated.
  { intros capacity.
    refine (class_created _ ex_page (ex_class_form capacity) ex_client
              empty_world _ _ "doc1" "5678" eq_refl _).
    reflexivity. }
  split.
  - split; [exact (Hcreated (Some (-1)))|].
    split; [reflexivity|]. split; [reflexivity|].
    intros Hle. specialize (Hle 1 (-1) eq_refl eq_refl). lia.
  - split; [|split; [reflexivity|split; [vm_compute; reflexivity|reflexivity]]].
    refine (class_joined _ (ex_class_doc 2) (ex_class_doc 2) _ ex_page "doc1"
              "Imran" (onSnapshot (ex_form_store (ex_class_doc 2)) ex_client)
              (ex_form_store (ex_class_doc 2)) _
              (Hcreated (Some 2)) (Hcreated (Some 2)) _ _ _ _);
      vm_compute; reflexivity.
Qed.

(** C10, instance: Alice submits the form for an individual booking. *)
Lemma individual_booking_document_witness :
  selectedSlot ex_client
  = Some {| slot_date := "2026-01-16"; slot_time := "14:00" |}
  ∧ is_class_booking ex_form = false
  ∧ booking_name ex_form ≠ ""
  ∧ firebaseReady ex_page = true
  ∧ addDoc_id ex_page = Some "doc1"
  ∧ (∃ c',
       handleBookingSubmit ex_page ex_form ex_client empty_world
       = (c', ex_form_store ex_form_doc,
          SavedToFirestore "doc1" ex_form_doc "5678"))
  ∧ (∀ rt env,
       onBookingCreated rt env ex_form_doc "doc1" (ex_form_store ex_form_doc)
       = (ex_form_store ex_form_doc, Fulfilled Null)).
Proof.
  assert (booking_name ex_form ≠ "") as Hname by discriminate.
  split; [reflexivity|]. split; [reflexivity|]. split; [exact Hname|].
  split; [reflexivity|]. split; [reflexivity|].
  destruct (individual_booking_document ex_page ex_form ex_client empty_world
              {| slot_date := "2026-01-16"; slot_time := "14:00" |} "doc1"
              eq_refl eq_refl Hname eq_refl eq_refl)
    as (Hsubmit & Hskip & _).
  split; [exact Hsubmit | exact Hskip].
Defined.

(** * Further properties of the trigger handlers *)

(** X1. The create handler returns [{success: true, credentialId}] only for
    a pending booking on a free slot whose date and time parse, for a
    resource that has a lock (the prayer room, or a name that the mapping
    object inherits), and that has somebody to write to and a name; it has
    then made one create call for the window of one hour, written the
    credential it returns into the record together with
    [status = 'confirmed'], and queued one confirmation mail with the code
    that is in the record. *)
Theorem created_success_characterised
    (rt : JsRuntime) (env : ServerEnv) (w w' : World)
    (booking cur : Booking) (bookingId cid : string) :
  bookings w !! bookingId = Some cur →
  onBookingCreated rt env booking bookingId w = (w', Fulfilled (SuccessWith cid)) →
  ∃ d t start lockId recipient userName,
    status booking = Some "pending"
    ∧ date booking = Some d ∧ time booking = Some t
    ∧ ¬ slot_taken w d t bookingId
    ∧ parseBookingDateTime rt d t = Some start
    ∧ has_lock (js_or_else (resourceId booking) "prayer_room")
    ∧ RESOURCE_MAPPING_at (js_or_else (resourceId booking) "prayer_room")
      = Some lockId
    ∧ js_or (email booking) (hostEmail booking) = Some recipient
    ∧ js_or (name booking) (hostName booking) = Some userName
    ∧ cid = "inlet_cred_" +:+ pretty (Date_now env)
    ∧ w' = confirmed_world rt env w booking cur bookingId start lockId
    ∧ (∃ b, bookings w' !! bookingId = Some b
            ∧ status b = Some "confirmed"
            ∧ inlet b
              = Some {| credentialId := cid;
                        code := pretty (1000 + random9000 env);
                        issuedAt := serverTimestamp env |})
    ∧ mail w' =
        mail w ++
        [{| to := Some recipient;
            template :=
              booking_confirmation (Some userName)
                (toLocaleDateString rt start) (toLocaleTimeString rt start)
                (pretty (1000 + random9000 env))
                (if decide (isClass booking = Some true)
                 then "Class: " +:+ default "undefined" (className booking)
                 else "Individual Booking") |}]
    ∧ gateway w' =
        gateway w ++
        [CreateCredential lockId
           {| req_resourceId := js_or_else (resourceId booking) "prayer_room";
              req_startTime := toISOString rt start;
              req_endTime := toISOString rt (start + 60 * 60 * 1000);
              req_userName := Some userName;
              req_userEmail := Some recipient |}].
Proof.
  intros Hcur Hrun.
  destruct (decide (status booking = Some "pending")) as [Hpending|Hother].
  2:{ by rewrite onBookingCreated_skips in Hrun. }
  destruct (onBookingCreated_result rt env w booking cur bookingId Hpending Hcur)
    as [(d & t & _ & _ & _ & Hres)
       |[(msg & _ & Hres)
        |[(d & t & start & lockId & path & _ & _ & _ & _ & Hres)
         |(d & t & start & lockId & Hd & Ht & Hfree & Hstart & _ & Hmap
           & Hmail & Hres)]]];
    rewrite Hres in Hrun; try done.
  injection Hrun as <- <-.
  apply confirmation_mail_accepted in Hmail
    as [[recipient Hto] [userName Huser]].
  exists d, t, start, lockId, recipient, userName.
  repeat (split; [done|]).
  split; [apply RESOURCE_MAPPING_at_has_lock; by eexists|].
  repeat (split; [done|]).
  unfold confirmed_world, credential_written, confirmation_notice,
    confirmation_mail, credential_request. simpl. rewrite Hto, Huser.
  split; [|done]. eexists. by rewrite lookup_insert_eq.
Qed.

(** X2. A pending booking whose record is in the store does not stay
    pending: the handler fulfils, and what it returns tells the status it has
    written: [null] for a conflict, [{success: false, error}] for an error
    with that message, [{success: true, credentialId}] for a confirmation with
    that credential. *)
Theorem pending_is_always_resolved
    (rt : JsRuntime) (env : ServerEnv) (w : World)
    (booking cur : Booking) (bookingId : string) :
  status booking = Some "pending" →
  bookings w !! bookingId = Some cur →
  ∃ w' result b,
    onBookingCreated rt env booking bookingId w = (w', Fulfilled result)
    ∧ bookings w' !! bookingId = Some b
    ∧ match result with
      | Null => status b = Some "conflict"
      | Failed msg => status b = Some "error" ∧ error b = Some msg
      | SuccessWith cid =>
          status b = Some "confirmed" ∧ credentialId <$> inlet b = Some cid
      | Success => False
      end.
Proof.
  intros Hpending Hcur.
  destruct (onBookingCreated_result rt env w booking cur bookingId Hpending Hcur)
    as [(d & t & _ & _ & _ & Hres)
       |[(msg & _ & Hres)
        |[(d & t & start & lockId & path & _ & _ & _ & _ & Hres)
         |(d & t & start & lockId & _ & _ & _ & _ & _ & _ & _ & Hres)]]];
    rewrite Hres; do 3 eexists; (split; [reflexivity|]); simpl;
    rewrite lookup_insert_eq; split; try reflexivity; done.
Qed.

(** X3. The message that the create handler puts into [error] is one of
    four: the Firestore client's refusal of an [undefined] query value when
    [date] or [time] is missing; "Invalid time value" when the date and time
    do not give a valid window; "No INLET lock mapping for resource: r" when
    the resource [r] of the booking is neither the prayer room nor a name that
    the mapping object inherits; and the client's refusal of the confirmation
    mail, for its field [to] when the booking has nobody to write to, else
    for its field [template.data.userName] when it has no name. In the last
    three cases the slot was free, and in the last one the window was valid
    and the resource had a lock. *)
Theorem create_error_messages
    (rt : JsRuntime) (env : ServerEnv) (w w' : World)
    (booking cur : Booking) (bookingId msg : string) :
  bookings w !! bookingId = Some cur →
  onBookingCreated rt env booking bookingId w = (w', Fulfilled (Failed msg)) →
  create_error rt w booking bookingId msg.
Proof.
  intros Hcur Hrun.
  destruct (decide (status booking = Some "pending")) as [Hpending|Hother].
  2:{ by rewrite onBookingCreated_skips in Hrun. }
  destruct (onBookingCreated_result rt env w booking cur bookingId Hpending Hcur)
    as [(d & t & _ & _ & _ & Hres)
       |[(msg' & Hwhy & Hres)
        |[(d & t & start & lockId & path & _ & _ & _ & Hwhy & Hres)
         |(d & t & start & lockId & _ & _ & _ & _ & _ & _ & _ & Hres)]]];
    rewrite Hres in Hrun; try done; by injection Hrun as _ <-.
Qed.

(** X4. When the record is no longer in the store, the create handler of a
    pending booking rejects with Firestore's "No document to update": the
    update of the [catch] block fails as well. The store and the mail queue
    are as before; the gateway log is as before or has one more create
    call, for a credential that no record holds. *)
Theorem create_on_missing_record
    (rt : JsRuntime) (env : ServerEnv) (w : World)
    (booking : Booking) (bookingId : string) :
  status booking = Some "pending" →
  bookings w !! bookingId = None →
  ∃ w',
    onBookingCreated rt env booking bookingId w = (w', Rejected Firestore_not_found)
    ∧ bookings w' = bookings w
    ∧ mail w' = mail w
    ∧ (gateway w' = gateway w
       ∨ ∃ lockId request,
           gateway w' = gateway w ++ [CreateCredential lockId request]).
Proof.
  intros Hpending Hmissing.
  unfold onBookingCreated, onBookingCreated_try, validateSlotFree,
    call_parseBookingDateTime, date_toISOString, one_hour_later,
    createInletCredential, queueConfirmationEmail.
  destruct (decide (status booking ≠ Some "pending")); [done|].
  async_unfold. unfold doc_update.
  destruct (date booking) as [d|], (time booking) as [t|]; simpl;
    rewrite ?Hmissing; eauto 10.
  destruct (slot_loop (query_docs d t w) bookingId); simpl;
    rewrite ?Hmissing; eauto 10.
  destruct (parseBookingDateTime rt d t) as [start|]; simpl;
    rewrite ?Hmissing; eauto 10.
  destruct (new_Date _) as [stop|]; simpl; rewrite ?Hmissing; eauto 10.
  destruct (RESOURCE_MAPPING_at _) as [lockId|]; simpl;
    rewrite ?Hmissing; eauto 10.
  destruct (truthy lockId); simpl; rewrite ?Hmissing; eauto 10.
  cbn [bookings]. rewrite Hmissing.
  eexists. split; [reflexivity|]. simpl. eauto 10.
Qed.

(** ** The handlers keep to the record that triggered them *)

Lemma keeps_to_ret {A} bookingId (a : A) : keeps_to bookingId (mret a).
Proof. intros w. by repeat split. Qed.

Lemma keeps_to_throw {A} bookingId msg : keeps_to bookingId (@throw A msg).
Proof. intros w. by repeat split. Qed.

Lemma keeps_to_bind {A B} bookingId (c : Async A) (k : A → Async B) :
  keeps_to bookingId c → (∀ a, keeps_to bookingId (k a)) →
  keeps_to bookingId (c ≫= k).
Proof.
  intros Hc Hk w. specialize (Hc w). async_unfold.
  destruct (c w) as [w1 [a|msg]]; simpl in *; [|done].
  destruct Hc as (Hframe & Hmail & Hgw).
  destruct (Hk a w1) as (Hframe' & Hmail' & Hgw').
  split; [|split]; [|by etrans..].
  intros other Hne. by rewrite Hframe', Hframe.
Qed.

Lemma keeps_to_try_catch {A} bookingId (body : Async A) handler :
  keeps_to bookingId body → (∀ msg, keeps_to bookingId (handler msg)) →
  keeps_to bookingId (try_catch body handler).
Proof.
  intros Hc Hk w. specialize (Hc w). unfold try_catch.
  destruct (body w) as [w1 [a|msg]]; simpl in *; [done|].
  destruct Hc as (Hframe & Hmail & Hgw).
  destruct (Hk msg w1) as (Hframe' & Hmail' & Hgw').
  split; [|split]; [|by etrans..].
  intros other Hne. by rewrite Hframe', Hframe.
Qed.

Lemma keeps_to_doc_update bookingId fields :
  keeps_to bookingId (doc_update bookingId fields).
Proof.
  intros w. unfold doc_update.
  destruct (bookings w !! bookingId); simpl; [|by repeat split].
  split; [|done]. intros other Hne. by rewrite lookup_insert_ne.
Qed.

Lemma keeps_to_mail_add bookingId item : keeps_to bookingId (mail_add item).
Proof.
  intros w. unfold mail_add. destruct (undefined_field item); simpl; [done|].
  split; [done|]. split; [by apply prefix_app_r|done].
Qed.

Lemma keeps_to_gateway_call bookingId c : keeps_to bookingId (gateway_call c).
Proof. intros w. simpl. split; [done|]. split; [done|by apply prefix_app_r]. Qed.

Ltac keeps_to_step :=
  first
    [ apply keeps_to_ret | apply keeps_to_throw | apply keeps_to_doc_update
    | apply keeps_to_mail_add | apply keeps_to_gateway_call
    | apply keeps_to_bind; [|intros ?] | apply keeps_to_try_catch; [|intros ?]
    | match goal with
      | |- keeps_to _ (match ?x with _ => _ end) => destruct x
      | |- keeps_to _ (if ?x then _ else _) => destruct x
      | |- keeps_to _ (λ w, (w, _)) => by intros w
      end ].

Lemma keeps_to_createInletCredential bookingId env req :
  keeps_to bookingId (createInletCredential env req).
Proof. unfold createInletCredential. repeat keeps_to_step. Qed.

Lemma keeps_to_onBookingCreated rt env booking bookingId :
  keeps_to bookingId (onBookingCreated rt env booking bookingId).
Proof.
  unfold onBookingCreated, onBookingCreated_try, validateSlotFree,
    queueConfirmationEmail, call_parseBookingDateTime, date_toISOString.
  repeat first [apply keeps_to_createInletCredential | keeps_to_step].
Qed.

Lemma keeps_to_onBookingUpdated rt env before after bookingId :
  keeps_to bookingId (onBookingUpdated rt env before after bookingId).
Proof.
  unfold onBookingUpdated, handleBookingCancellation, handleTimeChange,
    revokeInletCredential, queueCancellationEmail, queueUpdateEmail,
    call_parseBookingDateTime, date_toISOString.
  repeat first [apply keeps_to_createInletCredential | keeps_to_step].
Qed.

Lemma keeps_to_onBookingDeleted booking bookingId :
  keeps_to bookingId (onBookingDeleted booking bookingId).
Proof.
  unfold onBookingDeleted, revokeInletCredential. repeat keeps_to_step.
Qed.

(** X5. Whatever the event and whatever the store holds, a write and its
    trigger handler leave every other record as it is, and the mail queue and
    the gateway log only grow: what was queued or called before stays, in
    order, at the front. *)
Theorem deliver_keeps_to_its_record
    (rt : JsRuntime) (env : ServerEnv) (ev : Event) (w : World) :
  (∀ other, other ≠ event_id ev →
     bookings (deliver rt env ev w) !! other = bookings w !! other)
  ∧ mail w `prefix_of` mail (deliver rt env ev w)
  ∧ gateway w `prefix_of` gateway (deliver rt env ev w).
Proof.
  destruct ev as [bookingId doc|bookingId after|bookingId]; simpl;
    destruct (bookings w !! bookingId) as [before|] eqn:Hlookup; try done.
  - destruct (keeps_to_onBookingCreated rt env doc bookingId
                (with_bookings (<[bookingId := doc]> (bookings w)) w))
      as (Hframe & Hmail & Hgw).
    split; [|done]. intros other Hne. rewrite Hframe by done. simpl.
    by rewrite lookup_insert_ne.
  - destruct (keeps_to_onBookingUpdated rt env before after bookingId
                (with_bookings (<[bookingId := after]> (bookings w)) w))
      as (Hframe & Hmail & Hgw).
    split; [|done]. intros other Hne. rewrite Hframe by done. simpl.
    by rewrite lookup_insert_ne.
  - destruct (keeps_to_onBookingDeleted before bookingId
                (with_bookings (delete bookingId (bookings w)) w))
      as (Hframe & Hmail & Hgw).
    split; [|done]. intros other Hne. rewrite Hframe by done. simpl.
    by rewrite lookup_delete_ne.
Qed.

(** ** Malformed dates and times *)

Lemma append_cons_assoc (cur : string) c rest :
  (cur +:+ String c "") +:+ rest = cur +:+ String c rest.
Proof.
  induction cur as [|c' cur IH]; [done|].
  change (String c' ((cur +:+ String c "") +:+ rest)
          = String c' (cur +:+ String c rest)).
  by rewrite IH.
Qed.

Lemma split_go_without_separator sep cur s :
  sep ∉ String.list_ascii_of_string s → split_go sep cur s = [cur +:+ s].
Proof.
  revert cur. induction s as [|c rest IH]; intros cur Hno; simpl.
  - f_equal. induction cur as [|c' cur IHcur]; [done|].
    change (String c' cur = String c' (cur +:+ "")). by rewrite <- IHcur.
  - simpl in Hno. apply not_elem_of_cons in Hno as [Hne Hno].
    rewrite decide_False by done. rewrite IH by done.
    by rewrite append_cons_assoc.
Qed.

Lemma split_without_separator sep s :
  sep ∉ String.list_ascii_of_string s → split sep s = [s].
Proof. intros Hno. unfold split. by rewrite split_go_without_separator. Qed.

Lemma parseBookingDateTime_malformed rt d t :
  "-"%char ∉ String.list_ascii_of_string d
  ∨ ":"%char ∉ String.list_ascii_of_string t →
  parseBookingDateTime rt d t = None.
Proof.
  intros Hno. unfold parseBookingDateTime.
  destruct Hno as [Hno|Hno]; rewrite (split_without_separator _ _ Hno); simpl.
  - by destruct (Number_ rt d).
  - destruct (split "-" d !! 0%nat ≫= Number_ rt); [|done]. simpl.
    destruct (split "-" d !! 1%nat ≫= Number_ rt); [|done]. simpl.
    destruct (split "-" d !! 2%nat ≫= Number_ rt); [|done]. simpl.
    by destruct (Number_ rt t).
Qed.

(** X6. Whatever [Number] and [Date] do, a date without "-" or a time
    without ":" gives an invalid date: a pending booking with such a date or
    time, on a slot that nobody holds, ends with [status = 'error'] and
    [error = "Invalid time value"], its other fields staying as they are, and
    no call reaches the gateway and no mail is queued. *)
Theorem malformed_date_or_time_is_error
    (rt : JsRuntime) (env : ServerEnv) (w : World)
    (booking cur : Booking) (bookingId d t : string) :
  status booking = Some "pending" →
  date booking = Some d →
  time booking = Some t →
  "-"%char ∉ String.list_ascii_of_string d
  ∨ ":"%char ∉ String.list_ascii_of_string t →
  bookings w !! bookingId = Some cur →
  ¬ slot_taken w d t bookingId →
  onBookingCreated rt env booking bookingId w
  = ({| bookings :=
          <[bookingId := set_status_error "error" "Invalid time value" cur]>
            (bookings w);
        mail := mail w;
        gateway := gateway w |},
     Fulfilled (Failed "Invalid time value"))
  ∧ status (set_status_error "error" "Invalid time value" cur) = Some "error"
  ∧ error (set_status_error "error" "Invalid time value" cur)
    = Some "Invalid time value".
Proof.
  intros Hpending Hd Ht Hmalformed Hcur Hfree.
  split; [|done].
  apply (onBookingCreated_error rt env w booking cur bookingId); try done.
  unfold onBookingCreated_try, validateSlotFree, call_parseBookingDateTime,
    date_toISOString.
  rewrite Hd, Ht. async_unfold.
  destruct (slot_loop (query_docs d t w) bookingId) eqn:Hloop.
  - simpl. by rewrite parseBookingDateTime_malformed.
  - by apply slot_loop_query in Hloop.
Qed.

(** ** The update handler *)

(** X7. The update handler never writes anything but the [inlet] field:
    after it has run, the record is as the store held it, or differs from
    that by its [inlet] only. In particular it changes no [status]: a
    cancelled record stays cancelled, and a reschedule confirms nothing. *)
Theorem update_handler_writes_inlet_only
    (rt : JsRuntime) (env : ServerEnv) (w : World)
    (before after cur : Booking) (bookingId : string) :
  bookings w !! bookingId = Some cur →
  bookings (onBookingUpdated rt env before after bookingId w).1 !! bookingId
    = Some cur
  ∨ ∃ i,
      bookings (onBookingUpdated rt env before after bookingId w).1 !! bookingId
      = Some (set_inlet i cur).
Proof.
  intros Hcur.
  destruct (onBookingUpdated_bookings rt env before after bookingId w cur Hcur)
    as [->|[i ->]].
  - by left.
  - right. exists i. by rewrite lookup_insert_eq.
Qed.

(** X8. A booking that is cancelled and later deleted has its credential
    revoked twice: the cancellation leaves the [inlet] field in the record,
    so the delete handler finds it again. *)
Theorem cancel_then_delete_revokes_twice
    (rt : JsRuntime) (env1 env2 : ServerEnv) (w : World)
    (before after : Booking) (bookingId cid : string) :
  bookings w !! bookingId = Some before →
  status before ≠ Some "cancelled" →
  status after = Some "cancelled" →
  inlet_credentialId before = Some cid →
  inlet_credentialId after = Some cid →
  gateway
    (deliver rt env2 (Deleted bookingId)
       (deliver rt env1 (Updated bookingId after) w))
  = gateway w ++ [RevokeCredential cid; RevokeCredential cid].
Proof.
  intros Hbefore Hstatus Hafter Hcid Hcid'.
  assert (deliver rt env1 (Updated bookingId after) w
          = (handleBookingCancellation bookingId before
               (with_bookings (<[bookingId := after]> (bookings w)) w)).1)
    as Hupdated.
  { simpl. rewrite Hbefore. unfold onBookingUpdated.
    by rewrite decide_True. }
  destruct (handleBookingCancellation_world bookingId before
              (with_bookings (<[bookingId := after]> (bookings w)) w))
    as [Hrecords Hcalls].
  rewrite <- Hupdated in Hrecords, Hcalls.
  remember (deliver rt env1 (Updated bookingId after) w) as w1.
  unfold deliver. rewrite Hrecords. simpl. rewrite lookup_insert_eq.
  rewrite onBookingDeleted_eq. simpl. rewrite Hcalls. simpl.
  unfold revocations. rewrite Hcid, Hcid'. by rewrite <- app_assoc.
Qed.

(** X9. Cancelling or deleting the only booking that holds a slot frees the
    slot: the availability check then answers [true] for any booking id. *)
Theorem slot_is_released
    (rt : JsRuntime) (env : ServerEnv) (w : World)
    (before after : Booking) (bookingId other d t : string) :
  bookings w !! bookingId = Some before →
  ¬ slot_taken w d t bookingId →
  status before ≠ Some "cancelled" →
  status after = Some "cancelled" →
  (validateSlotFree (Some d) (Some t) other
     (deliver rt env (Updated bookingId after) w)).2 = Fulfilled true
  ∧ (validateSlotFree (Some d) (Some t) other
       (deliver rt env (Deleted bookingId) w)).2 = Fulfilled true.
Proof.
  intros Hbefore Hfree Hstatus Hafter.
  assert (∀ w', (∀ id b, bookings w' !! id = Some b → active b →
                         id ≠ bookingId ∧ bookings w !! id = Some b) →
                (validateSlotFree (Some d) (Some t) other w').2 = Fulfilled true)
    as Hcheck.
  { intros w' Hsub. simpl. f_equal. apply not_false_iff_true.
    intros Hloop. apply slot_loop_query in Hloop
      as (id & b & Hb & Hd & Ht & Hact & _).
    destruct (Hsub id b Hb Hact) as [Hne Hb'].
    apply Hfree. by exists id, b. }
  split; apply Hcheck; intros id b; simpl; rewrite Hbefore.
  - unfold onBookingUpdated. rewrite decide_True by done.
    rewrite (proj1 (handleBookingCancellation_world _ _ _)). simpl.
    intros [[<- <-]|[Hne Hb]]%lookup_insert_Some Hact; [|done].
    destruct Hact as [Hact|Hact]; congruence.
  - rewrite onBookingDeleted_eq. simpl.
    by intros [Hne Hb]%lookup_delete_Some Hact.
Qed.

(** * Properties of the booking page *)

(** ** Access codes *)

Lemma pretty_N_char_is_digit (y : N) :
  bool_decide (48 ≤ Z.of_N (N_of_ascii (pretty_N_char y)) ≤ 57) = true.
Proof.
  unfold pretty_N_char. repeat case_match; by vm_compute.
Qed.

Lemma pretty_of_four_digits (x : Z) :
  1000 ≤ x < 10000 →
  ∃ c3 c2 c1 c0 : N,
    pretty x
    = String (pretty_N_char c3)
        (String (pretty_N_char c2)
           (String (pretty_N_char c1) (String (pretty_N_char c0) ""))).
Proof.
  intros Hx. destruct x as [|p|p]; try lia.
  unfold pretty, pretty_Z, pretty, pretty_positive, pretty, pretty_N.
  rewrite decide_False by done.
  assert (1000 ≤ N.pos p < 10000)%N as Hp by lia.
  rewrite pretty_N_go_step by lia.
  assert (100 ≤ N.pos p `div` 10 < 1000)%N as H1.
  { split; [apply N.div_le_lower_bound|apply N.Div0.div_lt_upper_bound]; lia. }
  rewrite pretty_N_go_step by lia.
  assert (10 ≤ (N.pos p `div` 10) `div` 10 < 100)%N as H2.
  { split; [apply N.div_le_lower_bound|apply N.Div0.div_lt_upper_bound]; lia. }
  rewrite pretty_N_go_step by lia.
  assert (1 ≤ ((N.pos p `div` 10) `div` 10) `div` 10 < 10)%N as H3.
  { split; [apply N.div_le_lower_bound|apply N.Div0.div_lt_upper_bound]; lia. }
  rewrite pretty_N_go_step by lia.
  rewrite (N.div_small (((N.pos p `div` 10) `div` 10) `div` 10) 10) by lia.
  rewrite pretty_N_go_0. by do 4 eexists.
Qed.

Lemma four_digits_of_draw (r : Z) :
  0 ≤ r < 9000 → is_four_digits (pretty (1000 + r)) = true.
Proof.
  intros Hr.
  destruct (pretty_of_four_digits (1000 + r)) as (c3 & c2 & c1 & c0 & ->);
    [lia|].
  unfold is_four_digits. simpl.
  by rewrite !pretty_N_char_is_digit.
Qed.

(** X10. With [Math.random()] in [0, 1), the code that the page shows and
    the code that [createInletCredential] returns are strings of exactly four
    decimal digits. *)
Theorem access_codes_have_four_digits
    (cenv : ClientEnv) (env : ServerEnv) (req : CredentialRequest)
    (w w' : World) (credential : Credential) :
  0 ≤ client_random9000 cenv < 9000 →
  0 ≤ random9000 env < 9000 →
  is_four_digits (generateAccessCode cenv) = true
  ∧ (createInletCredential env req w = (w', Fulfilled credential) →
     is_four_digits (cred_accessCode credential) = true).
Proof.
  intros Hclient Hserver. split.
  - by apply four_digits_of_draw.
  - unfold createInletCredential.
    destruct (RESOURCE_MAPPING_at _) as [lockId|]; [|done].
    destruct (truthy lockId); [|done].
    async_unfold. simpl. intros [= _ <-]. simpl.
    by apply four_digits_of_draw.
Qed.

(** ** The calendar and the store *)

Lemma isSlotBooked_true c d t :
  isSlotBooked c d t = true
  ↔ ∃ slot, slot ∈ bookedSlots c ∧ date slot.2 = Some d ∧ time slot.2 = Some t.
Proof.
  unfold isSlotBooked. rewrite existsb_exists. split.
  - intros (slot & Hin & Hslot). apply andb_true_iff in Hslot as [Hd Ht].
    apply bool_decide_eq_true in Hd, Ht. exists slot.
    by rewrite list_elem_of_In.
  - intros (slot & Hin & Hd & Ht). exists slot.
    rewrite <- list_elem_of_In, andb_true_iff, !bool_decide_eq_true. done.
Qed.

Lemma isSlotBooked_onSnapshot w c d t :
  isSlotBooked (onSnapshot w c) d t = true
  ↔ ∃ bookingId b,
      bookings w !! bookingId = Some b ∧ date b = Some d ∧ time b = Some t.
Proof.
  rewrite isSlotBooked_true. simpl. split.
  - intros ([bookingId b] & Hin & Hd & Ht).
    apply elem_of_map_to_list in Hin. by exists bookingId, b.
  - intros (bookingId & b & Hb & Hd & Ht). exists (bookingId, b).
    by rewrite elem_of_map_to_list.
Qed.

(** X11. Once the snapshot listener has run, the calendar shows a slot as
    booked exactly when the store holds some record with that date and time,
    whatever its status: a cancelled, conflicting or failed booking keeps the
    slot booked on the page. *)
Theorem booked_iff_some_record (w : World) (c : Client) (d t : string) :
  isSlotBooked (onSnapshot w c) d t = true
  ↔ ∃ bookingId b,
      bookings w !! bookingId = Some b ∧ date b = Some d ∧ time b = Some t.
Proof. apply isSlotBooked_onSnapshot. Qed.

(** X12. A slot that the synchronised calendar does not show as booked
    passes the availability check of the server, for any booking. *)
Theorem unbooked_slot_is_free
    (w : World) (c : Client) (d t excludeBookingId : string) :
  isSlotBooked (onSnapshot w c) d t = false →
  validateSlotFree (Some d) (Some t) excludeBookingId w = (w, Fulfilled true).
Proof.
  intros Hfree. simpl. do 2 f_equal. apply not_false_iff_true.
  intros Htaken. apply slot_loop_query in Htaken
    as (bookingId & b & Hb & Hd & Ht & _).
  apply not_true_iff_false in Hfree. apply Hfree.
  apply isSlotBooked_onSnapshot. by exists bookingId, b.
Qed.

(** ** The cells of the calendar *)

Lemma getBookingForSlot_Some c d t booking :
  getBookingForSlot c d t = Some booking →
  booking ∈ bookedSlots c ∧ date booking.2 = Some d ∧ time booking.2 = Some t.
Proof.
  unfold getBookingForSlot. intros Hfind. apply find_some in Hfind as [Hin Hslot].
  apply andb_true_iff in Hslot as [Hd Ht]. apply bool_decide_eq_true in Hd, Ht.
  by rewrite list_elem_of_In.
Qed.

Lemma is_own_Some myBooking booking m :
  is_own myBooking booking = Some m →
  myBooking = Some m ∧ my_id m = booking.1.
Proof.
  unfold is_own. destruct myBooking as [m'|]; [|done].
  destruct (decide (my_id m' = booking.1)); [|done]. by intros [= <-].
Qed.

Lemma getMyBookingBySlot_Some c d t m :
  getMyBookingBySlot c d t = Some m →
  m ∈ myBookings c ∧ my_date m = d ∧ my_time m = t.
Proof.
  unfold getMyBookingBySlot. intros Hfind.
  apply find_some in Hfind as [Hin Hslot].
  apply andb_true_iff in Hslot as [Hd Ht]. apply bool_decide_eq_true in Hd, Ht.
  by rewrite list_elem_of_In.
Qed.

Ltac slotCell_cases c now slotDateTime d t :=
  unfold slotCell;
  destruct (decide (slotDateTime < now + 4 * 60 * 60 * 1000)) as [Hlead|Hlead];
  [|destruct (isSlotBooked c d t) eqn:Hbooked;
    [destruct (getBookingForSlot c d t) as [found|] eqn:Hfind;
     [destruct (decide (isClass found.2 = Some true)) as [Hclass|Hclass];
      [destruct (is_own (getMyBookingBySlot c d t) found) as [m|] eqn:Hown;
       [|destruct (class_is_full found.2) eqn:Hfull]
      |destruct (is_own (getMyBookingBySlot c d t) found) as [m|] eqn:Hown;
       [destruct (decide (js_or (name found.2) None = None)) as [Hnoname|Hnamed]|]]
     |]
    |]];
  simpl.

(** X13. A cell lets the visitor book its slot exactly when the slot starts
    at least four hours from now and the page knows of no booking for its date
    and time. *)
Theorem slot_can_be_selected_iff
    (c : Client) (now slotDateTime : Z) (dateStr timeStr : string) :
  onclick (slotCell c now slotDateTime dateStr timeStr) = click_selectSlot
  ↔ now + 4 * 60 * 60 * 1000 ≤ slotDateTime
    ∧ isSlotBooked c dateStr timeStr = false.
Proof.
  slotCell_cases c now slotDateTime dateStr timeStr;
    (split; [try done | try (intros [? ?]; done; lia)]).
  - intros [? ?]. lia.
  - intros _. split; [lia|done].
Qed.

(** X14. A cell offers the cancellation of a booking only to the visitor who
    made it: the booking is the one the page holds for the slot, and its id
    is that of an entry of [myBookings] for the same date and time. *)
Theorem cancel_is_offered_for_own_bookings
    (c : Client) (now slotDateTime : Z) (dateStr timeStr : string)
    (booking : string * Booking) (myBooking : MyBooking) :
  onclick (slotCell c now slotDateTime dateStr timeStr)
    = click_showCancelModal booking myBooking →
  isMyBooking c booking.1 = true
  ∧ my_id myBooking = booking.1
  ∧ my_date myBooking = dateStr ∧ my_time myBooking = timeStr
  ∧ getBookingForSlot c dateStr timeStr = Some booking
  ∧ now + 4 * 60 * 60 * 1000 ≤ slotDateTime.
Proof.
  slotCell_cases c now slotDateTime dateStr timeStr; try done;
    intros [= -> ->];
    apply is_own_Some in Hown as [Hmy Hid];
    apply getMyBookingBySlot_Some in Hmy as (Hin & Hd & Ht);
    (split; [|repeat split; try done; lia]);
    unfold isMyBooking; apply existsb_exists; exists myBooking;
    rewrite <- list_elem_of_In, bool_decide_eq_true; done.
Qed.

(** X15. A cell offers to join a class only when the join will go through:
    on a page that is in step with the store, with Firebase ready, the join
    that the cell leads to ends in [Joined] for any name that is not empty. *)
Theorem offered_join_succeeds
    (cenv : ClientEnv) (w : World) (c : Client) (now slotDateTime : Z)
    (dateStr timeStr joinName : string) (booking : string * Booking) :
  onclick (slotCell (onSnapshot w c) now slotDateTime dateStr timeStr)
    = click_showJoinClassModal booking →
  firebaseReady cenv = true →
  joinName ≠ "" → booking.1 ≠ "" →
  ∃ w', handleJoinClass cenv booking.1 joinName (onSnapshot w c) w = (w', Joined).
Proof.
  intros Hclick Hready Hname Hid. revert Hclick.
  slotCell_cases (onSnapshot w c) now slotDateTime dateStr timeStr; try done.
  intros [= ->].
  apply getBookingForSlot_Some in Hfind as (Hin & _ & _).
  destruct booking as [bookingId b]. simpl in *.
  apply elem_of_map_to_list in Hin.
  rewrite (handleJoinClass_synced cenv bookingId joinName c w b) by done.
  rewrite Hfull. by eexists.
Qed.

(** ** Joining a class *)

(** X16. A join either changes nothing or replaces the two fields
    [participants] and [participantCount] of the one record: unless it ends
    in [Joined] the store is as before, and when it does, the record gets the
    list that the page had for the class, not the list of the store, followed
    by the joining name, and the length of that list. Names that joined since
    the page was last brought up to date are lost. *)
Theorem join_writes_the_cached_list
    (cenv : ClientEnv) (bookingId joinName : string) (c : Client)
    (w w' : World) (outcome : JoinOutcome) :
  handleJoinClass cenv bookingId joinName c w = (w', outcome) →
  (outcome ≠ Joined → w' = w)
  ∧ (outcome = Joined →
     ∃ cached cur,
       (bookingId, cached) ∈ bookedSlots c
       ∧ bookings w !! bookingId = Some cur
       ∧ w' = with_bookings
                (<[bookingId :=
                     set_participants
                       (default [] (participants cached) ++ [joinName])
                       (Z.of_nat
                          (length (default [] (participants cached) ++ [joinName])))
                       cur]> (bookings w)) w).
Proof.
  unfold handleJoinClass.
  destruct (decide (joinName = "" ∨ bookingId = "")); [by intros [= <- <-]|].
  destruct (firebaseReady cenv); [|by intros [= <- <-]].
  destruct (List.find _ _) as [[k cached]|] eqn:Hfind; [|by intros [= <- <-]].
  destruct (decide (isClass cached = Some true)); [|by intros [= <- <-]].
  destruct (class_is_full cached); [by intros [= <- <-]|].
  apply find_some in Hfind as [Hin Hk].
  apply bool_decide_eq_true in Hk. simpl in Hk. subst k.
  unfold doc_update.
  destruct (bookings w !! bookingId) as [cur|] eqn:Hcur;
    [|by intros [= <- <-]].
  intros [= <- <-]. split; [done|]. intros _. exists cached, cur.
  by rewrite list_elem_of_In.
Qed.

(** X17. A write that leaves [status], [date] and [time] as they were, such
    as the one a join makes, triggers nothing: after the update handler has
    run, the world differs from the one before by that write alone, with no
    gateway call and no mail. *)
Theorem field_only_update_triggers_nothing
    (rt : JsRuntime) (env : ServerEnv) (w : World)
    (before after : Booking) (bookingId : string) :
  bookings w !! bookingId = Some before →
  status after = status before →
  date after = date before →
  time after = time before →
  deliver rt env (Updated bookingId after) w
  = with_bookings (<[bookingId := after]> (bookings w)) w.
Proof.
  intros Hbefore Hstatus Hd Ht. simpl. rewrite Hbefore. unfold onBookingUpdated.
  rewrite decide_False by (intros [? ?]; congruence).
  by rewrite decide_False by (intros [?|?]; congruence).
Qed.

(** ** Submitting and cancelling on the page *)

(** X18. When Firebase is not ready, or [addDoc] rejects, a valid submission
    leaves the store untouched and keeps the booking in the page: it is added
    to [bookedSlots] under the generated id, with the access code that is
    shown, so the slot shows as booked, and it is one of the visitor's own
    bookings. *)
Theorem fallback_keeps_the_booking_local
    (cenv : ClientEnv) (form : BookingForm) (c : Client) (w : World)
    (slot : Slot) :
  selectedSlot c = Some slot →
  (if is_class_booking form
   then class_name form ≠ "" ∧ host_name form ≠ ""
   else booking_name form ≠ "") →
  firebaseReady cenv = false ∨ addDoc_id cenv = None →
  ∃ c' newBooking,
    handleBookingSubmit cenv form c w
    = (c', w, SavedLocally (generated_id cenv) newBooking (generateAccessCode cenv))
    ∧ bookedSlots c' = bookedSlots c ++ [(generated_id cenv, newBooking)]
    ∧ accessCode newBooking = Some (generateAccessCode cenv)
    ∧ isSlotBooked c' (slot_date slot) (slot_time slot) = true
    ∧ isMyBooking c' (generated_id cenv) = true.
Proof.
  intros Hslot Hvalid Hdown. unfold handleBookingSubmit. rewrite Hslot.
  assert (∀ newBooking,
            date newBooking = Some (slot_date slot) →
            time newBooking = Some (slot_time slot) →
            isSlotBooked
              {| selectedSlot := Some slot;
                 bookedSlots := bookedSlots c ++ [(generated_id cenv, newBooking)];
                 myBookings :=
                   myBookings c ++ [my_entry (generated_id cenv) slot form] |}
              (slot_date slot) (slot_time slot) = true
            ∧ isMyBooking
                {| selectedSlot := Some slot;
                   bookedSlots := bookedSlots c ++ [(generated_id cenv, newBooking)];
                   myBookings :=
                     myBookings c ++ [my_entry (generated_id cenv) slot form] |}
                (generated_id cenv) = true) as Hlists.
  { intros newBooking Hd Ht. unfold isSlotBooked, isMyBooking. simpl.
    rewrite !existsb_app. simpl. rewrite Hd, Ht.
    rewrite !bool_decide_eq_true_2 by done. simpl.
    by rewrite !orb_true_r. }
  destruct (is_class_booking form).
  - destruct Hvalid as [Hcn Hhn].
    rewrite decide_False by (intros [?|?]; done).
    destruct (Hlists (local_fields None (booking_phone form)
                        (generateAccessCode cenv) (now_iso cenv)
                        (class_firestoreBooking slot form)) eq_refl eq_refl)
      as [Hbooked Hmine].
    destruct Hdown as [Hdown|Hdown]; rewrite Hdown;
      [|destruct (firebaseReady cenv)];
      (do 2 eexists; split; [reflexivity|]; simpl; by repeat split).
  - rewrite decide_False by done.
    destruct (Hlists (local_fields (Some (booking_email form))
                        (booking_phone form) (generateAccessCode cenv)
                        (now_iso cenv) (regular_firestoreBooking slot form))
                eq_refl eq_refl) as [Hbooked Hmine].
    destruct Hdown as [Hdown|Hdown]; rewrite Hdown;
      [|destruct (firebaseReady cenv)];
      (do 2 eexists; split; [reflexivity|]; simpl; by repeat split).
Qed.

Lemma filter_keeps_all {A} (f : A → bool) (l : list A) :
  (∀ x, x ∈ l → f x = true) → List.filter f l = l.
Proof.
  induction l as [|x l IH]; intros Hall; simpl; [done|].
  rewrite Hall by left. f_equal. apply IH. intros y Hy. apply Hall. by right.
Qed.

(** X19. Submitting a booking to the store and cancelling it again brings
    the page and the store back to where they were, when the id that the
    store gave was new to both. *)
Theorem submit_then_cancel_restores
    (cenv cenv' : ClientEnv) (form : BookingForm) (c c' : Client)
    (w w' : World) (bookingId shown : string) (doc : Booking) :
  handleBookingSubmit cenv form c w
    = (c', w', SavedToFirestore bookingId doc shown) →
  firebaseReady cenv' = true →
  bookings w !! bookingId = None →
  isMyBooking c bookingId = false →
  (∀ slot, slot ∈ bookedSlots c → slot.1 ≠ bookingId) →
  confirmCancelBooking cenv' bookingId c' w' = (c, w).
Proof.
  intros Hsubmit Hready Hfresh Hmine Hcache.
  assert (c' = {| selectedSlot := selectedSlot c; bookedSlots := bookedSlots c;
                  myBookings :=
                    myBookings c
                    ++ [{| my_id := bookingId;
                           my_date := default "" (date doc);
                           my_time := default "" (time doc);
                           my_name :=
                             Some (if is_class_booking form then class_name form
                                   else booking_name form);
                           my_isClass := is_class_booking form |}] |}
          ∧ w' = with_bookings (<[bookingId := doc]> (bookings w)) w)
    as [-> ->].
  { revert Hsubmit. unfold handleBookingSubmit, my_entry.
    destruct (selectedSlot c) as [slot|]; [|done].
    destruct (is_class_booking form).
    - destruct (decide _); [done|].
      destruct (firebaseReady cenv); [|done].
      destruct (addDoc_id cenv); [|done].
      intros [= <- <- <- <- <-]. split; reflexivity.
    - destruct (decide _); [done|].
      destruct (firebaseReady cenv); [|done].
      destruct (addDoc_id cenv); [|done].
      intros [= <- <- <- <- <-]. split; reflexivity. }
  unfold confirmCancelBooking. rewrite Hready. simpl.
  rewrite List.filter_app. simpl.
  rewrite bool_decide_eq_false_2 by (by intros ?).
  rewrite app_nil_r.
  rewrite !filter_keeps_all.
  - rewrite delete_insert_eq, delete_id by done. by destruct c, w.
  - intros m Hm. apply bool_decide_eq_true. intros Hid.
    apply not_true_iff_false in Hmine. apply Hmine.
    unfold isMyBooking. apply existsb_exists. exists m.
    by rewrite <- list_elem_of_In, bool_decide_eq_true.
  - intros slot Hin. apply bool_decide_eq_true. by apply Hcache.
Qed.

(** X20. Cancelling on the page deletes the record instead of marking it
    cancelled: for a record that is in the store, the page's write is the one
    that fires the delete trigger, which revokes the credential if there is
    one and queues no mail, so no [booking-cancellation] mail follows. On the
    page the booking is no longer one of the visitor's own. *)
Theorem page_cancellation_is_a_deletion
    (rt : JsRuntime) (env : ServerEnv) (cenv : ClientEnv) (c : Client)
    (w : World) (bookingId : string) (b : Booking) :
  firebaseReady cenv = true →
  bookings w !! bookingId = Some b →
  bookings (confirmCancelBooking cenv bookingId c w).2
    = bookings (deliver rt env (Deleted bookingId) w)
  ∧ bookings (deliver rt env (Deleted bookingId) w) !! bookingId = None
  ∧ mail (deliver rt env (Deleted bookingId) w) = mail w
  ∧ gateway (deliver rt env (Deleted bookingId) w) = gateway w ++ revocations b
  ∧ isMyBooking (confirmCancelBooking cenv bookingId c w).1 bookingId = false.
Proof.
  intros Hready Hb. unfold confirmCancelBooking. simpl.
  rewrite Hready, Hb, onBookingDeleted_eq. simpl.
  repeat split; [by rewrite lookup_delete_eq|].
  apply not_true_iff_false. unfold isMyBooking. simpl.
  rewrite existsb_exists. intros (m & Hin & Hid).
  apply filter_In in Hin as [_ Hne].
  apply bool_decide_eq_true in Hne, Hid. done.
Qed.

(** ** Days and hours of the calendar *)

Lemma getDay_range d : 0 ≤ getDay d < 7.
Proof. unfold getDay. apply Z.mod_pos_bound. lia. Qed.

Lemma getDay_addDays d n : getDay (addDays d n) = (getDay d + n) `mod` 7.
Proof.
  unfold getDay, addDays, msPerDay.
  rewrite Z.div_add by lia.
  rewrite Zplus_mod_idemp_l. f_equal. lia.
Qed.

(** X21. [getMonday] gives a Monday, at the same time of day, that is the
    day itself or one of the six days before it; applied to a Monday it
    changes nothing. *)
Theorem getMonday_is_the_monday_before (d : Z) :
  getDay (getMonday d) = 1
  ∧ getMonday d ≤ d < getMonday d + 7 * msPerDay
  ∧ getMonday d `mod` msPerDay = d `mod` msPerDay
  ∧ getMonday (getMonday d) = getMonday d.
Proof.
  assert (∀ x, getDay x = 1 → getMonday x = x) as Hfix.
  { intros x Hx. unfold getMonday, addDays. rewrite Hx. simpl. lia. }
  assert (getDay (getMonday d) = 1) as Hmon.
  { unfold getMonday. rewrite getDay_addDays.
    pose proof (getDay_range d) as Hr.
    destruct (decide (getDay d = 0)) as [->|Hne]; [done|].
    replace (getDay d + (- getDay d + 1)) with 1 by lia. done. }
  split; [done|]. split; [|split; [|by apply Hfix]].
  - unfold getMonday, addDays, msPerDay. pose proof (getDay_range d) as Hr.
    destruct (decide (getDay d = 0)); lia.
  - unfold getMonday, addDays. by rewrite Z.mod_add by (unfold msPerDay; lia).
Qed.

(** X22. When the week starts on a Monday, the seven header cells read Mon
    to Sun, and the week before and the week after start on a Monday too; so
    they do for every week that the page can show. *)
Theorem week_headers_run_from_monday (currentWeekStart : Z) :
  getDay currentWeekStart = 1 →
  day_headers currentWeekStart
  = ["Mon"; "Tue"; "Wed"; "Thu"; "Fri"; "Sat"; "Sun"]
  ∧ getDay (addDays currentWeekStart (-7)) = 1
  ∧ getDay (addDays currentWeekStart 7) = 1.
Proof.
  intros Hmon. unfold day_headers, week_days.
  change (seqZ 0 7) with [0; 1; 2; 3; 4; 5; 6]. simpl.
  rewrite !getDay_addDays, Hmon. done.
Qed.

Lemma time_labels_distinct :
  forallb
    (λ h1, forallb
             (λ h2, implb (String.eqb (time_label h1) (time_label h2))
                      (bool_decide (h1 = h2)))
             (seqZ 0 24))
    (seqZ 0 24) = true.
Proof. vm_compute. reflexivity. Qed.

Lemma slot_timeStr_hour_part :
  forallb
    (λ h, bool_decide (split ":" (slot_timeStr h) !! 0%nat
                       = Some (padStart 2 "0" (pretty h))))
    (seqZ 0 24) = true.
Proof. vm_compute. reflexivity. Qed.

(** X23. For a [parseInt] that reads the two-digit hours, the labels that
    [formatTimeDisplay] gives the time strings of the twenty-four hours of a
    day are all different. *)
Theorem time_labels_tell_hours_apart
    (parseInt : string → option Z) (h1 h2 : Z) :
  (∀ h, 0 ≤ h < 24 → parseInt (padStart 2 "0" (pretty h)) = Some h) →
  0 ≤ h1 < 24 → 0 ≤ h2 < 24 →
  formatTimeDisplay parseInt (slot_timeStr h1)
    = formatTimeDisplay parseInt (slot_timeStr h2) →
  h1 = h2.
Proof.
  intros Hparse Hh1 Hh2.
  assert (∀ h, 0 ≤ h < 24 →
               formatTimeDisplay parseInt (slot_timeStr h) = time_label h)
    as Hlabel.
  { intros h Hh. unfold formatTimeDisplay at 1.
    pose proof (proj1 (forallb_forall _ _) slot_timeStr_hour_part h) as Hpart.
    rewrite <- list_elem_of_In, elem_of_seqZ, bool_decide_eq_true in Hpart.
    rewrite Hpart by lia. simpl. by rewrite Hparse. }
  rewrite !Hlabel by done. intros Heq.
  pose proof (proj1 (forallb_forall _ _) time_labels_distinct h1) as Hall.
  rewrite <- list_elem_of_In, elem_of_seqZ in Hall.
  specialize (Hall ltac:(lia)).
  pose proof (proj1 (forallb_forall _ _) Hall h2) as Hone.
  rewrite <- list_elem_of_In, elem_of_seqZ in Hone.
  specialize (Hone ltac:(lia)).
  apply String.eqb_eq in Heq. rewrite Heq in Hone. simpl in Hone.
  by apply bool_decide_eq_true in Hone.
Qed.

Lemma slots_parse_back_all :
  forallb (λ n, forallb (slot_parses_back n) (seqZ 0 24))
    (seqZ 0 days_of_2026) = true.
Proof. vm_compute. reflexivity. Qed.

Lemma slot_parses_back_true n hour :
  slot_parses_back n hour = true →
  parseBookingDateTime Utc.runtime
    (formatDate Utc.runtime (addDays first_of_2026 n)) (slot_timeStr hour)
  = Some (addDays first_of_2026 n + hour * 60 * 60 * 1000).
Proof.
  unfold slot_parses_back. cbv zeta. intros Hslot.
  case_bool_decide; [assumption|discriminate].
Qed.

(** X24. On a server in the zone UTC, for every day of 2026 and every hour
    of the day, the date string and the time string that the
    calendar writes for a slot parse back to the instant at which the slot
    starts. *)
Theorem calendar_strings_parse_back (n hour : Z) :
  0 ≤ n < days_of_2026 →
  0 ≤ hour < 24 →
  parseBookingDateTime Utc.runtime
    (formatDate Utc.runtime (addDays first_of_2026 n)) (slot_timeStr hour)
  = Some (addDays first_of_2026 n + hour * 60 * 60 * 1000).
Proof.
  intros Hn Hhour.
  assert (In n (seqZ 0 days_of_2026)) as Hin_n
    by (apply list_elem_of_In, elem_of_seqZ; lia).
  assert (In hour (seqZ 0 24)) as Hin_hour
    by (apply list_elem_of_In, elem_of_seqZ; lia).
  pose proof (proj1 (forallb_forall
                       (λ n, forallb (slot_parses_back n) (seqZ 0 24))
                       (seqZ 0 days_of_2026))
                slots_parse_back_all n Hin_n) as Hday.
  pose proof (proj1 (forallb_forall (slot_parses_back n) (seqZ 0 24))
                Hday hour Hin_hour) as Hslot.
  exact (slot_parses_back_true n hour Hslot).
Qed.

(** ** The earlier page *)

(** X25. For an individual booking with a name, the earlier page and the
    present one write the same document under the same id, but for the field
    [isClass: false] that the present page adds, and show the same code; and
    where the present page refuses an empty name, the earlier one writes the
    booking. *)
Theorem legacy_submit_agrees
    (cenv : ClientEnv) (form : BookingForm) (c : Client) (w : World)
    (slot : Slot) (firestoreId : string) :
  selectedSlot c = Some slot →
  is_class_booking form = false →
  firebaseReady cenv = true →
  addDoc_id cenv = Some firestoreId →
  (Legacy.handleBookingSubmit cenv form c w).2
  = SavedToFirestore firestoreId (Legacy.firestoreBooking slot form)
      (generateAccessCode cenv)
  ∧ (booking_name form ≠ "" →
     (handleBookingSubmit cenv form c w).2
     = SavedToFirestore firestoreId
         (set_not_class (Legacy.firestoreBooking slot form))
         (generateAccessCode cenv)
     ∧ bookings (handleBookingSubmit cenv form c w).1.2
       = <[firestoreId := set_not_class (Legacy.firestoreBooking slot form)]>
           (bookings w))
  ∧ (booking_name form = "" →
     handleBookingSubmit cenv form c w = (c, w, NotSubmitted)).
Proof.
  intros Hslot Hclass Hready Hadd.
  unfold Legacy.handleBookingSubmit, handleBookingSubmit.
  rewrite Hslot, Hclass, Hready, Hadd. simpl. split; [done|]. split.
  - intros Hname. by rewrite decide_False.
  - intros Hname. by rewrite decide_True.
Qed.

(** * Further scenarios *)

(** X1, instances: Bob's booking for 15:00, with Alice confirmed at 14:00;
    and Frank's, for the resource "constructor". *)
Lemma created_success_characterised_witness :
  (bookings (ex_store "b" ex_bob15) !! "b" = Some ex_bob15
   ∧ onBookingCreated Utc.runtime ex_env2 ex_bob15 "b" (ex_store "b" ex_bob15)
     = (ex_w3, Fulfilled (SuccessWith "inlet_cred_1768000005000"))
   ∧ ∃ d t start lockId recipient userName,
       status ex_bob15 = Some "pending"
       ∧ date ex_bob15 = Some d ∧ time ex_bob15 = Some t
       ∧ ¬ slot_taken (ex_store "b" ex_bob15) d t "b"
       ∧ parseBookingDateTime Utc.runtime d t = Some start
       ∧ has_lock (js_or_else (resourceId ex_bob15) "prayer_room")
       ∧ RESOURCE_MAPPING_at (js_or_else (resourceId ex_bob15) "prayer_room")
         = Some lockId
       ∧ js_or (email ex_bob15) (hostEmail ex_bob15) = Some recipient
       ∧ js_or (name ex_bob15) (hostName ex_bob15) = Some userName
       ∧ "inlet_cred_1768000005000"
         = ("inlet_cred_" +:+ pretty (Date_now ex_env2))
       ∧ ex_w3
         = confirmed_world Utc.runtime ex_env2 (ex_store "b" ex_bob15) ex_bob15
             ex_bob15 "b" start lockId)
  ∧ (bookings (ex_store "f" ex_frank) !! "f" = Some ex_frank
     ∧ onBookingCreated Utc.runtime ex_env2 ex_frank "f" (ex_store "f" ex_frank)
       = (confirmed_world Utc.runtime ex_env2 (ex_store "f" ex_frank) ex_frank
            ex_frank "f" 1768582800000 (inherited "constructor"),
          Fulfilled (SuccessWith "inlet_cred_1768000005000"))
     ∧ ∃ lockId,
         has_lock (js_or_else (resourceId ex_frank) "prayer_room")
         ∧ RESOURCE_MAPPING_at "constructor" = Some lockId).
Proof.
  assert (bookings (ex_store "b" ex_bob15) !! "b" = Some ex_bob15) as Hcur
    by (vm_compute; reflexivity).
  assert (onBookingCreated Utc.runtime ex_env2 ex_bob15 "b"
            (ex_store "b" ex_bob15)
          = (ex_w3, Fulfilled (SuccessWith "inlet_cred_1768000005000"))) as Hrun
    by (vm_compute; reflexivity).
  assert (bookings (ex_store "f" ex_frank) !! "f" = Some ex_frank) as Hcur'
    by (vm_compute; reflexivity).
  assert (onBookingCreated Utc.runtime ex_env2 ex_frank "f"
            (ex_store "f" ex_frank)
          = (confirmed_world Utc.runtime ex_env2 (ex_store "f" ex_frank)
               ex_frank ex_frank "f" 1768582800000 (inherited "constructor"),
             Fulfilled (SuccessWith "inlet_cred_1768000005000"))) as Hrun'
    by (vm_compute; reflexivity).
  split.
  - split; [exact Hcur|]. split; [exact Hrun|].
    destruct (created_success_characterised Utc.runtime ex_env2 _ _ ex_bob15
                ex_bob15 "b" _ Hcur Hrun)
      as (d & t & start & lockId & recipient & userName & Hall).
    exists d, t, start, lockId, recipient, userName.
    destruct Hall
      as (H1 & H2 & H3 & H4 & H5 & H6 & H7 & H8 & H9 & H10 & H11 & _).
    repeat split; assumption.
  - split; [exact Hcur'|]. split; [exact Hrun'|].
    destruct (created_success_characterised Utc.runtime ex_env2 _ _ ex_frank
                ex_frank "f" _ Hcur' Hrun')
      as (d & t & start & lockId & recipient & userName & Hall).
    exists lockId.
    destruct Hall as (_ & _ & _ & _ & _ & H6 & H7 & _).
    split; assumption.
Defined.

(** X2, instance: the same booking. *)
Lemma pending_is_always_resolved_witness :
  status ex_bob15 = Some "pending"
  ∧ bookings (ex_store "b" ex_bob15) !! "b" = Some ex_bob15
  ∧ ∃ w' result b,
      onBookingCreated Utc.runtime ex_env2 ex_bob15 "b" (ex_store "b" ex_bob15)
      = (w', Fulfilled result)
      ∧ bookings w' !! "b" = Some b
      ∧ match result with
        | Null => status b = Some "conflict"
        | Failed msg => status b = Some "error" ∧ error b = Some msg
        | SuccessWith cid =>
            status b = Some "confirmed" ∧ credentialId <$> inlet b = Some cid
        | Success => False
        end.
Proof.
  assert (bookings (ex_store "b" ex_bob15) !! "b" = Some ex_bob15) as Hcur
    by (vm_compute; reflexivity).
  split; [reflexivity|]. split; [exact Hcur|].
  exact (pending_is_always_resolved Utc.runtime ex_env2 _ ex_bob15 ex_bob15
           "b" eq_refl Hcur).
Defined.

(** X3, instance: Carol's booking for the chapel. *)
Lemma create_error_messages_witness :
  bookings (ex_store "c" ex_carol) !! "c" = Some ex_carol
  ∧ onBookingCreated Utc.runtime ex_env2 ex_carol "c" (ex_store "c" ex_carol)
    = ((onBookingCreated Utc.runtime ex_env2 ex_carol "c"
          (ex_store "c" ex_carol)).1,
       Fulfilled (Failed "No INLET lock mapping for resource: chapel"))
  ∧ create_error Utc.runtime (ex_store "c" ex_carol) ex_carol "c"
      "No INLET lock mapping for resource: chapel".
Proof.
  assert (bookings (ex_store "c" ex_carol) !! "c" = Some ex_carol) as Hcur
    by (vm_compute; reflexivity).
  assert (onBookingCreated Utc.runtime ex_env2 ex_carol "c"
            (ex_store "c" ex_carol)
          = ((onBookingCreated Utc.runtime ex_env2 ex_carol "c"
                (ex_store "c" ex_carol)).1,
             Fulfilled (Failed "No INLET lock mapping for resource: chapel")))
    as Hrun by (vm_compute; reflexivity).
  split; [exact Hcur|]. split; [exact Hrun|].
  exact (create_error_messages Utc.runtime ex_env2 _ _ ex_carol ex_carol "c" _
           Hcur Hrun).
Defined.

(** X4, instance: Bob's record has been deleted before the handler runs. *)
Lemma create_on_missing_record_witness :
  status ex_bob15 = Some "pending"
  ∧ bookings ex_w1 !! "b" = None
  ∧ ∃ w',
      onBookingCreated Utc.runtime ex_env2 ex_bob15 "b" ex_w1
      = (w', Rejected Firestore_not_found)
      ∧ bookings w' = bookings ex_w1
      ∧ mail w' = mail ex_w1
      ∧ (gateway w' = gateway ex_w1
         ∨ ∃ lockId request,
             gateway w' = gateway ex_w1 ++ [CreateCredential lockId request]).
Proof.
  assert (bookings ex_w1 !! "b" = None) as Hmissing
    by (vm_compute; reflexivity).
  split; [reflexivity|]. split; [exact Hmissing|].
  exact (create_on_missing_record Utc.runtime ex_env2 ex_w1 ex_bob15 "b"
           eq_refl Hmissing).
Defined.

(** X6, instance: Dan's booking with the time "1500". *)
Lemma malformed_date_or_time_is_error_witness :
  status ex_dan = Some "pending"
  ∧ date ex_dan = Some "2026-01-16"
  ∧ time ex_dan = Some "1500"
  ∧ (":"%char ∉ String.list_ascii_of_string "1500")
  ∧ bookings (ex_store "d" ex_dan) !! "d" = Some ex_dan
  ∧ ¬ slot_taken (ex_store "d" ex_dan) "2026-01-16" "1500" "d"
  ∧ onBookingCreated Utc.runtime ex_env2 ex_dan "d" (ex_store "d" ex_dan)
    = ({| bookings :=
            <["d" := set_status_error "error" "Invalid time value" ex_dan]>
              (bookings (ex_store "d" ex_dan));
          mail := mail (ex_store "d" ex_dan);
          gateway := gateway (ex_store "d" ex_dan) |},
       Fulfilled (Failed "Invalid time value"))
  ∧ status (set_status_error "error" "Invalid time value" ex_dan)
    = Some "error"
  ∧ error (set_status_error "error" "Invalid time value" ex_dan)
    = Some "Invalid time value".
Proof.
  assert (":"%char ∉ String.list_ascii_of_string "1500") as Hcolon.
  { simpl. rewrite !not_elem_of_cons. repeat split; try discriminate.
    apply not_elem_of_nil. }
  assert (bookings (ex_store "d" ex_dan) !! "d" = Some ex_dan) as Hcur
    by (vm_compute; reflexivity).
  assert (¬ slot_taken (ex_store "d" ex_dan) "2026-01-16" "1500" "d") as Hfree.
  { intros Htaken. apply slot_loop_query in Htaken.
    vm_compute in Htaken. discriminate Htaken. }
  split; [reflexivity|]. split; [reflexivity|]. split; [reflexivity|].
  split; [exact Hcolon|]. split; [exact Hcur|]. split; [exact Hfree|].
  exact (malformed_date_or_time_is_error Utc.runtime ex_env2 _ ex_dan ex_dan
           "d" "2026-01-16" "1500" eq_refl eq_refl eq_refl (or_intror Hcolon)
           Hcur Hfree).
Defined.

(** X7, instance: Alice's booking is moved to 15:00. *)
Lemma update_handler_writes_inlet_only_witness :
  bookings (ex_store "a" ex_alice_15) !! "a" = Some ex_alice_15
  ∧ (bookings
       (onBookingUpdated Utc.runtime ex_env2 ex_alice_confirmed ex_alice_15 "a"
          (ex_store "a" ex_alice_15)).1 !! "a"
     = Some ex_alice_15
     ∨ ∃ i,
         bookings
           (onBookingUpdated Utc.runtime ex_env2 ex_alice_confirmed ex_alice_15
              "a" (ex_store "a" ex_alice_15)).1 !! "a"
         = Some (set_inlet i ex_alice_15)).
Proof.
  assert (bookings (ex_store "a" ex_alice_15) !! "a" = Some ex_alice_15) as Hcur
    by (vm_compute; reflexivity).
  split; [exact Hcur|].
  exact (update_handler_writes_inlet_only Utc.runtime ex_env2 _
           ex_alice_confirmed ex_alice_15 ex_alice_15 "a" Hcur).
Defined.

(** X8, instance: Alice cancels, and her record is deleted afterwards. *)
Lemma cancel_then_delete_revokes_twice_witness :
  bookings ex_w1 !! "a" = Some ex_alice_confirmed
  ∧ status ex_alice_confirmed ≠ Some "cancelled"
  ∧ status (set_status "cancelled" ex_alice_confirmed) = Some "cancelled"
  ∧ inlet_credentialId ex_alice_confirmed = Some "inlet_cred_1768000000000"
  ∧ inlet_credentialId (set_status "cancelled" ex_alice_confirmed)
    = Some "inlet_cred_1768000000000"
  ∧ gateway (deliver Utc.runtime ex_env3 (Deleted "a") ex_w5)
    = gateway ex_w1
      ++ [RevokeCredential "inlet_cred_1768000000000";
          RevokeCredential "inlet_cred_1768000000000"].
Proof.
  assert (bookings ex_w1 !! "a" = Some ex_alice_confirmed) as Hbefore
    by (vm_compute; reflexivity).
  assert (status ex_alice_confirmed ≠ Some "cancelled") as Hstatus
    by discriminate.
  split; [exact Hbefore|]. split; [exact Hstatus|].
  split; [reflexivity|]. split; [reflexivity|]. split; [reflexivity|].
  exact (cancel_then_delete_revokes_twice Utc.runtime ex_env2 ex_env3 ex_w1
           ex_alice_confirmed (set_status "cancelled" ex_alice_confirmed) "a"
           "inlet_cred_1768000000000" Hbefore Hstatus eq_refl eq_refl eq_refl).
Defined.

(** X9, instance: Alice holds 14:00 alone; she cancels, or her record is
    deleted. *)
Lemma slot_is_released_witness :
  bookings ex_w1 !! "a" = Some ex_alice_confirmed
  ∧ ¬ slot_taken ex_w1 "2026-01-16" "14:00" "a"
  ∧ status ex_alice_confirmed ≠ Some "cancelled"
  ∧ status (set_status "cancelled" ex_alice_confirmed) = Some "cancelled"
  ∧ (validateSlotFree (Some "2026-01-16") (Some "14:00") "b" ex_w5).2
    = Fulfilled true
  ∧ (validateSlotFree (Some "2026-01-16") (Some "14:00") "b"
       (deliver Utc.runtime ex_env2 (Deleted "a") ex_w1)).2
    = Fulfilled true.
Proof.
  assert (bookings ex_w1 !! "a" = Some ex_alice_confirmed) as Hbefore
    by (vm_compute; reflexivity).
  assert (¬ slot_taken ex_w1 "2026-01-16" "14:00" "a") as Hfree.
  { intros Htaken. apply slot_loop_query in Htaken.
    vm_compute in Htaken. discriminate Htaken. }
  assert (status ex_alice_confirmed ≠ Some "cancelled") as Hstatus
    by discriminate.
  split; [exact Hbefore|]. split; [exact Hfree|]. split; [exact Hstatus|].
  split; [reflexivity|].
  exact (slot_is_released Utc.runtime ex_env2 ex_w1 ex_alice_confirmed
           (set_status "cancelled" ex_alice_confirmed) "a" "b" "2026-01-16"
           "14:00" Hbefore Hfree Hstatus eq_refl).
Defined.

(** X10, instance: the draws of the page and of the server. *)
Lemma access_codes_have_four_digits_witness :
  0 ≤ client_random9000 ex_page < 9000
  ∧ 0 ≤ random9000 ex_env1 < 9000
  ∧ is_four_digits (generateAccessCode ex_page) = true.
Proof.
  assert (0 ≤ client_random9000 ex_page < 9000) as Hclient by (simpl; lia).
  assert (0 ≤ random9000 ex_env1 < 9000) as Hserver by (simpl; lia).
  split; [exact Hclient|]. split; [exact Hserver|].
  exact (proj1 (access_codes_have_four_digits ex_page ex_env1
                  (credential_request ex_alice "" "") empty_world empty_world
                  {| cred_id := ""; cred_accessCode := "";
                     cred_lockId := own_lock "";
                     cred_startTime := ""; cred_endTime := "" |}
                  Hclient Hserver)).
Defined.

(** X12, instance: 15:00 is not booked when only Alice has booked. *)
Lemma unbooked_slot_is_free_witness :
  isSlotBooked (onSnapshot ex_w1 ex_client) "2026-01-16" "15:00" = false
  ∧ validateSlotFree (Some "2026-01-16") (Some "15:00") "b" ex_w1
    = (ex_w1, Fulfilled true).
Proof.
  assert (isSlotBooked (onSnapshot ex_w1 ex_client) "2026-01-16" "15:00" = false)
    as Hfree by (vm_compute; reflexivity).
  split; [exact Hfree|].
  exact (unbooked_slot_is_free ex_w1 ex_client "2026-01-16" "15:00" "b" Hfree).
Defined.

(** X14, instance: the cell of Alice's own booking. *)
Lemma cancel_is_offered_for_own_bookings_witness :
  onclick (slotCell ex_client_own ex_now ex_slot_start "2026-01-16" "14:00")
  = click_showCancelModal ("doc1", ex_form_doc) ex_my_entry
  ∧ isMyBooking ex_client_own "doc1" = true
  ∧ my_id ex_my_entry = "doc1"
  ∧ my_date ex_my_entry = "2026-01-16" ∧ my_time ex_my_entry = "14:00"
  ∧ getBookingForSlot ex_client_own "2026-01-16" "14:00"
    = Some ("doc1", ex_form_doc)
  ∧ ex_now + 4 * 60 * 60 * 1000 ≤ ex_slot_start.
Proof.
  assert (onclick (slotCell ex_client_own ex_now ex_slot_start "2026-01-16"
                     "14:00")
          = click_showCancelModal ("doc1", ex_form_doc) ex_my_entry) as Hclick
    by (vm_compute; reflexivity).
  split; [exact Hclick|].
  exact (cancel_is_offered_for_own_bookings ex_client_own ex_now ex_slot_start
           "2026-01-16" "14:00" ("doc1", ex_form_doc) ex_my_entry Hclick).
Defined.

(** X15, instance: a visitor sees Hana's class and joins it. *)
Lemma offered_join_succeeds_witness :
  onclick
    (slotCell (onSnapshot (ex_form_store (ex_class_doc 8)) ex_client) ex_now
       ex_slot_start "2026-01-16" "14:00")
  = click_showJoinClassModal ("doc1", ex_class_doc 8)
  ∧ firebaseReady ex_page = true
  ∧ "Imran" ≠ "" ∧ "doc1" ≠ ""
  ∧ ∃ w',
      handleJoinClass ex_page "doc1" "Imran"
        (onSnapshot (ex_form_store (ex_class_doc 8)) ex_client)
        (ex_form_store (ex_class_doc 8))
      = (w', Joined).
Proof.
  assert (onclick
            (slotCell (onSnapshot (ex_form_store (ex_class_doc 8)) ex_client)
               ex_now ex_slot_start "2026-01-16" "14:00")
          = click_showJoinClassModal ("doc1", ex_class_doc 8)) as Hclick
    by (vm_compute; reflexivity).
  assert ("Imran" ≠ "") as Hname by discriminate.
  assert ("doc1" ≠ "") as Hid by discriminate.
  split; [exact Hclick|]. split; [reflexivity|].
  split; [exact Hname|]. split; [exact Hid|].
  exact (offered_join_succeeds ex_page (ex_form_store (ex_class_doc 8))
           ex_client ex_now ex_slot_start "2026-01-16" "14:00" "Imran"
           ("doc1", ex_class_doc 8) Hclick eq_refl Hname Hid).
Defined.

(** X16, instance: Imran joins Hana's class. *)
Lemma join_writes_the_cached_list_witness :
  handleJoinClass ex_page "doc1" "Imran"
    (onSnapshot (ex_form_store (ex_class_doc 8)) ex_client)
    (ex_form_store (ex_class_doc 8))
  = (ex_form_store ex_class_joined, Joined)
  ∧ ∃ cached cur,
      ("doc1", cached)
        ∈ bookedSlots (onSnapshot (ex_form_store (ex_class_doc 8)) ex_client)
      ∧ bookings (ex_form_store (ex_class_doc 8)) !! "doc1" = Some cur
      ∧ ex_form_store ex_class_joined
        = with_bookings
            (<["doc1" :=
                 set_participants (default [] (participants cached) ++ ["Imran"])
                   (Z.of_nat
                      (length (default [] (participants cached) ++ ["Imran"])))
                   cur]> (bookings (ex_form_store (ex_class_doc 8))))
            (ex_form_store (ex_class_doc 8)).
Proof.
  assert (handleJoinClass ex_page "doc1" "Imran"
            (onSnapshot (ex_form_store (ex_class_doc 8)) ex_client)
            (ex_form_store (ex_class_doc 8))
          = (ex_form_store ex_class_joined, Joined)) as Hjoin
    by (vm_compute; reflexivity).
  split; [exact Hjoin|].
  exact (proj2 (join_writes_the_cached_list ex_page "doc1" "Imran" _ _ _ Joined
                  Hjoin) eq_refl).
Defined.

(** X17, instance: the write of that join, delivered to the update trigger. *)
Lemma field_only_update_triggers_nothing_witness :
  bookings (ex_form_store (ex_class_doc 8)) !! "doc1" = Some (ex_class_doc 8)
  ∧ status ex_class_joined = status (ex_class_doc 8)
  ∧ date ex_class_joined = date (ex_class_doc 8)
  ∧ time ex_class_joined = time (ex_class_doc 8)
  ∧ deliver Utc.runtime ex_env2 (Updated "doc1" ex_class_joined)
      (ex_form_store (ex_class_doc 8))
    = with_bookings
        (<["doc1" := ex_class_joined]>
           (bookings (ex_form_store (ex_class_doc 8))))
        (ex_form_store (ex_class_doc 8)).
Proof.
  assert (bookings (ex_form_store (ex_class_doc 8)) !! "doc1"
          = Some (ex_class_doc 8)) as Hbefore by (vm_compute; reflexivity).
  split; [exact Hbefore|].
  split; [reflexivity|]. split; [reflexivity|]. split; [reflexivity|].
  exact (field_only_update_triggers_nothing Utc.runtime ex_env2 _
           (ex_class_doc 8) ex_class_joined "doc1" Hbefore eq_refl eq_refl
           eq_refl).
Defined.

(** X18, instance: Alice submits the form while Firebase is not ready. *)
Lemma fallback_keeps_the_booking_local_witness :
  selectedSlot ex_client
  = Some {| slot_date := "2026-01-16"; slot_time := "14:00" |}
  ∧ booking_name ex_form ≠ ""
  ∧ firebaseReady ex_page_offline = false
  ∧ ∃ c' newBooking,
      handleBookingSubmit ex_page_offline ex_form ex_client empty_world
      = (c', empty_world,
         SavedLocally (generated_id ex_page_offline) newBooking
           (generateAccessCode ex_page_offline))
      ∧ bookedSlots c'
        = bookedSlots ex_client ++ [(generated_id ex_page_offline, newBooking)]
      ∧ accessCode newBooking = Some (generateAccessCode ex_page_offline)
      ∧ isSlotBooked c' "2026-01-16" "14:00" = true
      ∧ isMyBooking c' (generated_id ex_page_offline) = true.
Proof.
  assert (booking_name ex_form ≠ "") as Hname by discriminate.
  split; [reflexivity|]. split; [exact Hname|]. split; [reflexivity|].
  exact (fallback_keeps_the_booking_local ex_page_offline ex_form ex_client
           empty_world {| slot_date := "2026-01-16"; slot_time := "14:00" |}
           eq_refl Hname (or_introl eq_refl)).
Defined.

(** X19, instance: Alice submits her booking and cancels it. *)
Lemma submit_then_cancel_restores_witness :
  handleBookingSubmit ex_page ex_form ex_client empty_world
  = ((handleBookingSubmit ex_page ex_form ex_client empty_world).1.1,
     ex_form_store ex_form_doc, SavedToFirestore "doc1" ex_form_doc "5678")
  ∧ firebaseReady ex_page = true
  ∧ bookings empty_world !! "doc1" = None
  ∧ isMyBooking ex_client "doc1" = false
  ∧ (∀ slot, slot ∈ bookedSlots ex_client → slot.1 ≠ "doc1")
  ∧ confirmCancelBooking ex_page "doc1"
      (handleBookingSubmit ex_page ex_form ex_client empty_world).1.1
      (ex_form_store ex_form_doc)
    = (ex_client, empty_world).
Proof.
  assert (handleBookingSubmit ex_page ex_form ex_client empty_world
          = ((handleBookingSubmit ex_page ex_form ex_client empty_world).1.1,
             ex_form_store ex_form_doc,
             SavedToFirestore "doc1" ex_form_doc "5678")) as Hsubmit
    by (vm_compute; reflexivity).
  assert (bookings empty_world !! "doc1" = None) as Hfresh
    by (vm_compute; reflexivity).
  assert (∀ slot, slot ∈ bookedSlots ex_client → slot.1 ≠ "doc1") as Hcache.
  { intros slot Hin. simpl in Hin. by apply elem_of_nil in Hin. }
  split; [exact Hsubmit|]. split; [reflexivity|]. split; [exact Hfresh|].
  split; [reflexivity|]. split; [exact Hcache|].
  exact (submit_then_cancel_restores ex_page ex_page ex_form ex_client _
           empty_world _ "doc1" "5678" ex_form_doc Hsubmit eq_refl Hfresh
           eq_refl Hcache).
Defined.

(** X20, instance: Alice's confirmed booking is cancelled on the page. *)
Lemma page_cancellation_is_a_deletion_witness :
  firebaseReady ex_page = true
  ∧ bookings ex_w1 !! "a" = Some ex_alice_confirmed
  ∧ mail (deliver Utc.runtime ex_env2 (Deleted "a") ex_w1) = mail ex_w1
  ∧ gateway (deliver Utc.runtime ex_env2 (Deleted "a") ex_w1)
    = gateway ex_w1 ++ revocations ex_alice_confirmed.
Proof.
  assert (bookings ex_w1 !! "a" = Some ex_alice_confirmed) as Hb
    by (vm_compute; reflexivity).
  split; [reflexivity|]. split; [exact Hb|].
  destruct (page_cancellation_is_a_deletion Utc.runtime ex_env2 ex_page
              ex_client_own ex_w1 "a" ex_alice_confirmed eq_refl Hb)
    as (_ & _ & Hmail & Hgateway & _).
  split; [exact Hmail | exact Hgateway].
Defined.

(** X22, instance: the week of Monday 12 January 2026. *)
Lemma week_headers_run_from_monday_witness :
  getDay (getMonday ex_slot_start) = 1
  ∧ day_headers (getMonday ex_slot_start)
    = ["Mon"; "Tue"; "Wed"; "Thu"; "Fri"; "Sat"; "Sun"]
  ∧ getDay (addDays (getMonday ex_slot_start) (-7)) = 1
  ∧ getDay (addDays (getMonday ex_slot_start) 7) = 1.
Proof.
  assert (getDay (getMonday ex_slot_start) = 1) as Hmon
    by (vm_compute; reflexivity).
  split; [exact Hmon|].
  exact (week_headers_run_from_monday (getMonday ex_slot_start) Hmon).
Defined.

Lemma Utc_Number_reads_hours :
  forallb
    (λ h, bool_decide (Utc.Number (padStart 2 "0" (pretty h)) = Some h))
    (seqZ 0 24) = true.
Proof. vm_compute. reflexivity. Qed.

(** X23, instance: 14:00 and 14:00, read by the [Number] of the examples. *)
Lemma time_labels_tell_hours_apart_witness :
  (∀ h, 0 ≤ h < 24 → Utc.Number (padStart 2 "0" (pretty h)) = Some h)
  ∧ 0 ≤ 14 < 24
  ∧ formatTimeDisplay Utc.Number (slot_timeStr 14) = "2:00 PM - 3:00 PM"
  ∧ 14 = 14.
Proof.
  assert (∀ h, 0 ≤ h < 24 → Utc.Number (padStart 2 "0" (pretty h)) = Some h)
    as Hparse.
  { intros h Hh.
    pose proof (proj1 (forallb_forall _ _) Utc_Number_reads_hours h) as Hall.
    rewrite <- list_elem_of_In, elem_of_seqZ, bool_decide_eq_true in Hall.
    apply Hall. lia. }
  assert (0 ≤ 14 < 24) as Hrange by lia.
  split; [exact Hparse|]. split; [exact Hrange|].
  split; [vm_compute; reflexivity|].
  exact (time_labels_tell_hours_apart Utc.Number 14 14 Hparse Hrange Hrange
           eq_refl).
Defined.

(** X24, instance: the slot of 16 January 2026 at 14:00. *)
Lemma calendar_strings_parse_back_witness :
  0 ≤ 15 < days_of_2026
  ∧ 0 ≤ 14 < 24
  ∧ formatDate Utc.runtime (addDays first_of_2026 15) = "2026-01-16"
  ∧ slot_timeStr 14 = "14:00"
  ∧ parseBookingDateTime Utc.runtime
      (formatDate Utc.runtime (addDays first_of_2026 15)) (slot_timeStr 14)
    = Some (addDays first_of_2026 15 + 14 * 60 * 60 * 1000).
Proof.
  assert (0 ≤ 15 < days_of_2026) as Hn by (unfold days_of_2026; lia).
  assert (0 ≤ 14 < 24) as Hhour by lia.
  split; [exact Hn|]. split; [exact Hhour|].
  split; [vm_compute; reflexivity|]. split; [vm_compute; reflexivity|].
  exact (calendar_strings_parse_back 15 14 Hn Hhour).
Defined.

(** X25, instance: Alice's form on both pages. *)
Lemma legacy_submit_agrees_witness :
  selectedSlot ex_client
  = Some {| slot_date := "2026-01-16"; slot_time := "14:00" |}
  ∧ is_class_booking ex_form = false
  ∧ firebaseReady ex_page = true
  ∧ addDoc_id ex_page = Some "doc1"
  ∧ (Legacy.handleBookingSubmit ex_page ex_form ex_client empty_world).2
    = SavedToFirestore "doc1"
        (Legacy.firestoreBooking
           {| slot_date := "2026-01-16"; slot_time := "14:00" |} ex_form)
        (generateAccessCode ex_page).
Proof.
  split; [reflexivity|]. split; [reflexivity|]. split; [reflexivity|].
  split; [reflexivity|].
  exact (proj1 (legacy_submit_agrees ex_page ex_form ex_client empty_world
                  {| slot_date := "2026-01-16"; slot_time := "14:00" |} "doc1"
                  eq_refl eq_refl eq_refl eq_refl)).
Defined.
